(** * Report-Generation: a shallow embedding of the aggregation and
      fallback pipeline, with the properties of its specification.

    The Python sources are embedded function by function.  Python values
    are an inductive type of JSON-like data, exceptions are an explicit
    result type, mutable objects are passed as explicit state, and the
    clock, the HTTP endpoints, the language model and the vector index
    are parameters of the functions that use them.

    Where numbers are only counted or compared with constants, Python
    [int] and [float] are read as exact rationals ([Q]); the quotients
    [k/4*100] with [k <= 4] are exact in binary floating point as well.
    Where the code adds, divides and scales floats (the trend of the
    defect probabilities), numbers are Python's own: unbounded integers
    and binary64 floats with their rounding.

    The first part holds the definitions, one module per source file;
    the second part holds the properties, one module per module of
    definitions. *)

From Stdlib Require Import ZArith QArith List String Ascii Bool Lia Lqa Arith NArith.
From Stdlib Require Import Sorting.Sorted Sorting.Permutation DecimalString.
From Stdlib Require Floats.
Import ListNotations.

Open Scope string_scope.
Set Warnings "-register-all".

(* ===================================================================== *)
(** * Python values, dictionaries and exceptions *)
(* ===================================================================== *)

Module Py.

(** An instance of Python's [Exception]: its class and [str(e)]. *)
Record exn : Type := Exn { exn_class : string; exn_msg : string }.

(** The outcome of running a piece of Python: a value or a raised
    exception. *)
Inductive result (A : Type) : Type :=
| Ok (a : A)
| Raise (e : exn).
Arguments Ok {A} a.
Arguments Raise {A} e.

Definition bind {A B : Type} (c : result A) (k : A -> result B) : result B :=
  match c with
  | Ok a => k a
  | Raise e => Raise e
  end.

(** [try: body except Exception as e: handler(e)] *)
Definition try_except {A : Type} (body : result A) (handler : exn -> result A)
  : result A :=
  match body with
  | Ok a => Ok a
  | Raise e => handler e
  end.

Definition raises {A : Type} (c : result A) : bool :=
  match c with Ok _ => false | Raise _ => true end.

(** JSON-like Python data.  [VNum] stands for [int] and [float]. *)
Inductive value : Type :=
| VNone
| VBool (b : bool)
| VNum (q : Q)
| VStr (s : string)
| VList (l : list value)
| VDict (d : list (string * value)).

Definition dict : Type := list (string * value).

(** [d.get(k)] on a dictionary: [None] when the key is absent. *)
Fixpoint lookup (d : dict) (k : string) : option value :=
  match d with
  | [] => None
  | (k', v) :: d' => if String.eqb k k' then Some v else lookup d' k
  end.

Definition get_or_none (d : dict) (k : string) : value :=
  match lookup d k with Some v => v | None => VNone end.

Definition get_default (d : dict) (k : string) (dflt : value) : value :=
  match lookup d k with Some v => v | None => dflt end.

Definition has_key (d : dict) (k : string) : bool :=
  match lookup d k with Some _ => true | None => false end.

(** Python truthiness. *)
Definition truthy (v : value) : bool :=
  match v with
  | VNone => false
  | VBool b => b
  | VNum q => negb (Qeq_bool q 0)
  | VStr s => negb (String.eqb s "")
  | VList l => match l with [] => false | _ => true end
  | VDict d => match d with [] => false | _ => true end
  end.

Definition is_substring (needle hay : string) : bool :=
  match String.index 0 needle hay with Some _ => true | None => false end.

Definition type_error (msg : string) : exn := Exn "TypeError" msg.
Definition attribute_error (msg : string) : exn := Exn "AttributeError" msg.
Definition value_error (msg : string) : exn := Exn "ValueError" msg.

(** [k in v] for a string [k]: key membership on a dictionary, element
    membership on a list, substring test on a string, [TypeError] on
    anything else. *)
Definition contains (k : string) (v : value) : result bool :=
  match v with
  | VDict d => Ok (has_key d k)
  | VList l =>
      Ok (existsb (fun x => match x with VStr s => String.eqb s k | _ => false end) l)
  | VStr s => Ok (is_substring k s)
  | _ => Raise (type_error "argument is not iterable")
  end.

(** [len(v)] *)
Definition len (v : value) : result nat :=
  match v with
  | VList l => Ok (List.length l)
  | VDict d => Ok (List.length d)
  | VStr s => Ok (String.length s)
  | _ => Raise (type_error "object has no len()")
  end.

(** [v.get(k, dflt)]: only dictionaries have the method. *)
Definition get_method (v : value) (k : string) (dflt : value) : result value :=
  match v with
  | VDict d => Ok (get_default d k dflt)
  | _ => Raise (attribute_error "object has no attribute 'get'")
  end.

(** [isinstance(v, (int, float))]; [bool] is a subclass of [int]. *)
Definition as_number (v : value) : option Q :=
  match v with
  | VNum q => Some q
  | VBool true => Some 1
  | VBool false => Some 0
  | _ => None
  end.

Definition is_dict (v : value) : bool :=
  match v with VDict _ => true | _ => false end.

(** [v == s] for a string literal [s]. *)
Definition eq_str (v : value) (s : string) : bool :=
  match v with VStr s' => String.eqb s' s | _ => false end.

(** Strict comparisons of rationals as booleans. *)
Definition Qltb (a b : Q) : bool := negb (Qle_bool b a).
Definition Qgtb (a b : Q) : bool := Qltb b a.

End Py.

Module PyNotations.
Notation "x <- c ;; k" := (Py.bind c (fun x => k))
  (at level 61, c at next level, right associativity).
End PyNotations.

(* ===================================================================== *)
(** * report_generators/quality_report.py: metric extraction *)
(* ===================================================================== *)

Module QualityReport.
Import Py PyNotations.

(** The single key of [metrics["defect_rates"]] that is set to 1. *)
Inductive risk_bucket : Type := high_risk | medium_risk | low_risk.

Record quality_scores_t : Type := {
  overall_score : Q;
  batch_quality : value;
  quality_confidence : value;
  class_probabilities : value }.

(** [prediction_horizon] keeps the horizon itself; the f-string around it
    is formatting only. *)
Record forecast_accuracy_t : Type := {
  prediction_horizon : value;
  forecast_confidence : Q;
  predicted_values : value;
  total_forecast_points : nat;
  data_source_status : value }.

(** [recommended_action] keeps the non-zero actions in iteration order;
    an empty list stands for ["maintain_current_settings"]. *)
Record rl_performance_t : Type := {
  recommended_action : list (string * Q);
  action_confidence : Q;
  expected_reward : Q;
  model_type : value;
  state_summary : value;
  raw_actions : value }.

Record system_health_t : Type := {
  data_availability : string;
  collection_errors : nat;
  overall_status : string;
  successful_sources : option nat;
  total_sources : option nat }.

Record metrics : Type := {
  error : option string;
  data_collection_time : value;
  total_predictions : nat;
  defect_rates : option risk_bucket;
  defect_probability : option value;
  risk_classification : option value;
  quality_scores : option quality_scores_t;
  forecast_accuracy : option forecast_accuracy_t;
  rl_performance : option rl_performance_t;
  system_health : option system_health_t;
  collection_success_rate : Q }.

(** The dictionary [metrics] as first assigned in the [try] block. *)
Definition initial_metrics (collected_data : dict) : metrics :=
  {| error := None;
     data_collection_time := get_or_none collected_data "timestamp";
     total_predictions := 0;
     defect_rates := None;
     defect_probability := None;
     risk_classification := None;
     quality_scores := None;
     forecast_accuracy := None;
     rl_performance := None;
     system_health := None;
     collection_success_rate := 0 |}.

(** [collected_data.get(k) and 'error' not in collected_data[k]] *)
Definition source_guard (collected_data : dict) (k : string) : result bool :=
  let v := get_or_none collected_data k in
  if truthy v then (e <- contains "error" v ;; Ok (negb e)) else Ok false.

Definition defect_bucket (defect_prob : Q) : risk_bucket :=
  if Qgtb defect_prob (6 # 10) then high_risk
  else if Qgtb defect_prob (3 # 10) then medium_risk
  else low_risk.

Definition process_classification (collected_data : dict) (st : metrics * nat)
  : result (metrics * nat) :=
  let '(m, successful_collections) := st in
  g <- source_guard collected_data "classification" ;;
  if g then
    let successful_collections := S successful_collections in
    match get_or_none collected_data "classification" with
    | VDict class_data =>
        let defect_prob := get_default class_data "defect_probability" (VNum 0) in
        let risk_level := get_default class_data "risk_level" (VStr "unknown") in
        let '(rates, total) :=
          match as_number defect_prob with
          | Some p => (Some (defect_bucket p), 1%nat)
          | None => (defect_rates m, total_predictions m)
          end in
        Ok ({| error := error m;
               data_collection_time := data_collection_time m;
               total_predictions := total;
               defect_rates := rates;
               defect_probability := Some defect_prob;
               risk_classification := Some risk_level;
               quality_scores := quality_scores m;
               forecast_accuracy := forecast_accuracy m;
               rl_performance := rl_performance m;
               system_health := system_health m;
               collection_success_rate := collection_success_rate m |},
            successful_collections)
    | _ => Ok (m, successful_collections)
    end
  else Ok (m, successful_collections).

Definition quality_score_of (quality_class : value) : Q :=
  if eq_str quality_class "High" then 9 # 10
  else if eq_str quality_class "Medium" then 7 # 10
  else if eq_str quality_class "Low" then 4 # 10
  else 0.

Definition process_quality (collected_data : dict) (st : metrics * nat)
  : result (metrics * nat) :=
  let '(m, successful_collections) := st in
  g <- source_guard collected_data "quality" ;;
  if g then
    let successful_collections := S successful_collections in
    match get_or_none collected_data "quality" with
    | VDict quality_data =>
        let quality_class := get_default quality_data "quality_class" (VStr "unknown") in
        let confidence := get_default quality_data "confidence" (VNum 0) in
        let class_probs := get_default quality_data "class_probabilities" (VDict []) in
        Ok ({| error := error m;
               data_collection_time := data_collection_time m;
               total_predictions := total_predictions m;
               defect_rates := defect_rates m;
               defect_probability := defect_probability m;
               risk_classification := risk_classification m;
               quality_scores :=
                 Some {| overall_score := quality_score_of quality_class;
                         batch_quality := quality_class;
                         quality_confidence := confidence;
                         class_probabilities := class_probs |};
               forecast_accuracy := forecast_accuracy m;
               rl_performance := rl_performance m;
               system_health := system_health m;
               collection_success_rate := collection_success_rate m |},
            successful_collections)
    | _ => Ok (m, successful_collections)
    end
  else Ok (m, successful_collections).

(** [v[:5]]: lists and strings can be sliced, nothing else. *)
Definition slice5 (v : value) : result value :=
  match v with
  | VList l => Ok (VList (firstn 5 l))
  | VStr s => Ok (VStr (String.substring 0 5 s))
  | _ => Raise (type_error "object is not subscriptable")
  end.

Definition process_forecasting (collected_data : dict) (st : metrics * nat)
  : result (metrics * nat) :=
  let '(m, successful_collections) := st in
  g <- source_guard collected_data "forecasting" ;;
  if g then
    let successful_collections := S successful_collections in
    match get_or_none collected_data "forecasting" with
    | VDict forecast_data =>
        let forecast_horizon := get_default forecast_data "forecast_horizon" (VNum 30) in
        let forecast_list := get_default forecast_data "forecast" (VList []) in
        predicted <- (if truthy forecast_list then slice5 forecast_list
                      else Ok (VList [])) ;;
        points <- len forecast_list ;;
        Ok ({| error := error m;
               data_collection_time := data_collection_time m;
               total_predictions := total_predictions m;
               defect_rates := defect_rates m;
               defect_probability := defect_probability m;
               risk_classification := risk_classification m;
               quality_scores := quality_scores m;
               forecast_accuracy :=
                 Some {| prediction_horizon := forecast_horizon;
                         forecast_confidence := 85 # 100;
                         predicted_values := predicted;
                         total_forecast_points := points;
                         data_source_status :=
                           get_default forecast_data "data_sources" (VDict []) |};
               rl_performance := rl_performance m;
               system_health := system_health m;
               collection_success_rate := collection_success_rate m |},
            successful_collections)
    | _ => Ok (m, successful_collections)
    end
  else Ok (m, successful_collections).

(** [value != 0.0] *)
Definition differs_from_zero (v : value) : bool :=
  match as_number v with
  | Some q => negb (Qeq_bool q 0)
  | None => true
  end.

(** The loop [for action, value in recommended_actions.items()]: the
    format specification [:.3f] accepts numbers only. *)
Fixpoint describe_actions (items : dict) : result (list (string * Q)) :=
  match items with
  | [] => Ok []
  | (action, v) :: rest =>
      if differs_from_zero v then
        match as_number v with
        | Some q => tl <- describe_actions rest ;; Ok ((action, q) :: tl)
        | None =>
            match v with
            | VStr _ => Raise (value_error "Unknown format code 'f'")
            | _ => Raise (type_error "unsupported format string")
            end
        end
      else describe_actions rest
  end.

Definition action_description (recommended_actions : value)
  : result (list (string * Q)) :=
  if truthy recommended_actions then
    match recommended_actions with
    | VDict items => describe_actions items
    | _ => Raise (attribute_error "object has no attribute 'items'")
    end
  else Ok [].

Definition process_rl (collected_data : dict) (st : metrics * nat)
  : result (metrics * nat) :=
  let '(m, successful_collections) := st in
  g <- source_guard collected_data "rl_actions" ;;
  if g then
    let successful_collections := S successful_collections in
    match get_or_none collected_data "rl_actions" with
    | VDict rl_data =>
        let recommended_actions := get_default rl_data "recommended_actions" (VDict []) in
        let summary := get_default rl_data "state_summary" (VDict []) in
        let mtype := get_default rl_data "model_type" (VStr "unknown") in
        descr <- action_description recommended_actions ;;
        Ok ({| error := error m;
               data_collection_time := data_collection_time m;
               total_predictions := total_predictions m;
               defect_rates := defect_rates m;
               defect_probability := defect_probability m;
               risk_classification := risk_classification m;
               quality_scores := quality_scores m;
               forecast_accuracy := forecast_accuracy m;
               rl_performance :=
                 Some {| recommended_action := descr;
                         action_confidence := 8 # 10;
                         expected_reward := 75 # 100;
                         model_type := mtype;
                         state_summary := summary;
                         raw_actions := recommended_actions |};
               system_health := system_health m;
               collection_success_rate := collection_success_rate m |},
            successful_collections)
    | _ => Ok (m, successful_collections)
    end
  else Ok (m, successful_collections).

Definition nat_to_string (n : nat) : string :=
  NilEmpty.string_of_uint (Nat.to_uint n).

(** The threshold chain that assigns [status]. *)
Definition health_status (successful_collections total_sources error_count : nat)
  : string :=
  if Nat.eqb successful_collections total_sources && Nat.eqb error_count 0
  then "healthy"
  else if Nat.leb 3 successful_collections
  then (if Nat.leb error_count 1 then "healthy" else "degraded")
  else if Nat.leb 2 successful_collections
  then "degraded"
  else "critical".

(** [(successful_collections / total_sources) * 100] *)
Definition success_rate (successful_collections total_sources : nat) : Q :=
  (inject_Z (Z.of_nat successful_collections)
     / inject_Z (Z.of_nat total_sources)) * 100.

(** The body of the [try] block of [_extract_real_metrics]. *)
Definition extract_real_metrics_body (collected_data : dict) : result metrics :=
  let total_sources := 4%nat in
  st <- process_classification collected_data (initial_metrics collected_data, 0%nat) ;;
  st <- process_quality collected_data st ;;
  st <- process_forecasting collected_data st ;;
  st <- process_rl collected_data st ;;
  let '(m, successful_collections) := st in
  error_count <- len (get_default collected_data "collection_errors" (VList [])) ;;
  let status := health_status successful_collections total_sources error_count in
  Ok {| error := error m;
        data_collection_time := data_collection_time m;
        total_predictions := total_predictions m;
        defect_rates := defect_rates m;
        defect_probability := defect_probability m;
        risk_classification := risk_classification m;
        quality_scores := quality_scores m;
        forecast_accuracy := forecast_accuracy m;
        rl_performance := rl_performance m;
        system_health :=
          Some {| data_availability :=
                    nat_to_string successful_collections ++ "/"
                      ++ nat_to_string total_sources ++ " sources online";
                  collection_errors := error_count;
                  overall_status := status;
                  successful_sources := Some successful_collections;
                  total_sources := Some total_sources |};
        collection_success_rate := success_rate successful_collections total_sources |}.

(** The dictionary returned by the [except Exception] handler; [now] is
    [datetime.now().isoformat()]. *)
Definition extraction_failure_metrics (now : string) (e : exn) : metrics :=
  {| error := Some (exn_msg e);
     data_collection_time := VStr now;
     total_predictions := 0;
     defect_rates := None;
     defect_probability := None;
     risk_classification := None;
     quality_scores := None;
     forecast_accuracy := None;
     rl_performance := None;
     system_health :=
       Some {| data_availability := "0/4 sources online";
               collection_errors := 1;
               overall_status := "critical";
               successful_sources := None;
               total_sources := None |};
     collection_success_rate := 0 |}.

Definition _extract_real_metrics (now : string) (collected_data : dict) : metrics :=
  match extract_real_metrics_body collected_data with
  | Ok m => m
  | Raise e => extraction_failure_metrics now e
  end.

Definition status_of (m : metrics) : option string :=
  option_map overall_status (system_health m).

(** ** Vocabulary of the specification *)

Definition configured_sources : list string :=
  ["classification"; "quality"; "forecasting"; "rl_actions"].

(** A source counts as successful when its entry holds data (it is
    neither [None] nor empty) and that data carries no ['error'] key. *)
Definition source_successful (collected_data : dict) (k : string) : bool :=
  let v := get_or_none collected_data k in
  truthy v && match contains "error" v with Ok false => true | _ => false end.

Definition successes (collected_data : dict) : nat :=
  List.length (filter (source_successful collected_data) configured_sources).

(** The counter after one more source has been looked at. *)
Definition bump (collected_data : dict) (k : string) (n : nat) : nat :=
  if source_successful collected_data k then S n else n.

(** The reading of "present and carrying no 'error' key" that looks only
    at the key and at the ['error'] entry of its dictionary. *)
Definition source_present_without_error (collected_data : dict) (k : string) : bool :=
  match lookup collected_data k with
  | Some (VDict d) => negb (has_key d "error")
  | _ => false
  end.

Definition present_sources (collected_data : dict) : nat :=
  List.length (filter (source_present_without_error collected_data) configured_sources).

Definition recorded_errors (collected_data : dict) : option nat :=
  match len (get_default collected_data "collection_errors" (VList [])) with
  | Ok n => Some n
  | Raise _ => None
  end.

(** The threshold table of the specification. *)
Definition status_table (K E : nat) : string :=
  if (K =? 4)%nat && (E =? 0)%nat then "healthy"
  else if (3 <=? K)%nat && (E <=? 1)%nat then "healthy"
  else if (3 <=? K)%nat then "degraded"
  else if (K =? 2)%nat then "degraded"
  else "critical".

(** ** Sample collected data *)

Definition sample_classification : value :=
  VDict [("defect_probability", VNum (82 # 100)); ("risk_level", VStr "high")].
Definition sample_quality : value :=
  VDict [("quality_class", VStr "Low"); ("confidence", VNum (6 # 10))].
Definition sample_forecasting : value :=
  VDict [("forecast_horizon", VNum 30);
         ("forecast", VList [VDict [("sensors", VDict [("waste", VNum 12)])]])].
Definition sample_rl : value :=
  VDict [("recommended_actions", VDict [("speed", VNum (1 # 2)); ("temp", VNum 0)]);
         ("model_type", VStr "baseline")].

Definition all_sources_up : dict :=
  [("timestamp", VStr "2025-01-01T00:00:00");
   ("classification", sample_classification);
   ("forecasting", sample_forecasting);
   ("quality", sample_quality);
   ("rl_actions", sample_rl);
   ("collection_errors", VList [])].

(** Classification and quality answered, forecasting and RL timed out
    (the collector stores [{'error': ...}] for them and records no
    collection error, since both keys are there). *)
Definition two_sources_down : dict :=
  [("timestamp", VStr "2025-01-01T00:00:00");
   ("classification", sample_classification);
   ("forecasting", VDict [("error", VStr "timeout")]);
   ("quality", sample_quality);
   ("rl_actions", VDict [("error", VStr "timeout")]);
   ("collection_errors", VList [])].

(** The defect endpoint answered 200 with the empty object. *)
Definition empty_classification : dict :=
  [("timestamp", VStr "2025-01-01T00:00:00");
   ("classification", VDict []);
   ("forecasting", sample_forecasting);
   ("quality", sample_quality);
   ("rl_actions", sample_rl);
   ("collection_errors", VList [])].

(** The forecast endpoint answered 200 with [{"forecast_horizon": 30,
    "forecast": null}]. *)
Definition null_forecast : dict :=
  [("timestamp", VStr "2025-01-01T00:00:00");
   ("classification", sample_classification);
   ("forecasting", VDict [("forecast_horizon", VNum 30); ("forecast", VNone)]);
   ("quality", sample_quality);
   ("rl_actions", sample_rl);
   ("collection_errors", VList [])].

(** ** [generate_report] and the emergency report *)

(** One reading of the clock: [datetime.now().isoformat()] and
    [datetime.now().strftime('%Y%m%d_%H%M%S')]. *)
Record clock : Type := { isoformat : string; stamp : string }.

Record appendix_t : Type := {
  raw_data_summary : value;
  methodology : string;
  data_freshness : value }.

Record normal_report : Type := {
  title : string;
  generated_at : string;
  report_id : string;
  data_sources : value;
  report_content : value;
  executive_summary : value;
  quality_metrics : metrics;
  detailed_analysis : value;
  recommendations : value;
  compliance_status : value;
  risk_assessment : value;
  action_items : value;
  appendix : appendix_t }.

Record emergency_metrics : Type := {
  em_error : string;
  em_system_status : string;
  em_data_collection_time : string }.

Record emergency_appendix : Type := {
  ea_error_details : string;
  ea_methodology : string;
  ea_recommendations : string }.

Record emergency_report : Type := {
  e_title : string;
  e_generated_at : string;
  e_report_id : string;
  e_status : string;
  e_error_message : string;
  e_executive_summary : string;
  e_quality_metrics : emergency_metrics;
  e_detailed_analysis : string;
  e_recommendations : list string;
  e_compliance_status : string;
  e_risk_assessment : string;
  e_action_items : list string;
  e_appendix : emergency_appendix }.

(** The dictionary handed back to the caller. *)
Inductive report : Type :=
| Normal (r : normal_report)
| Emergency (r : emergency_report).

Definition _generate_emergency_report (now : clock) (error_message : string)
  : emergency_report :=
  {| e_title := "Emergency Quality Control Report";
     e_generated_at := isoformat now;
     e_report_id := "EMERGENCY_" ++ stamp now;
     e_status := "error";
     e_error_message := error_message;
     e_executive_summary :=
       "Report generation failed due to system error: " ++ error_message
         ++ ". Emergency procedures should be initiated to restore monitoring capabilities.";
     e_quality_metrics :=
       {| em_error := error_message;
          em_system_status := "failed";
          em_data_collection_time := isoformat now |};
     e_detailed_analysis :=
       "Unable to complete analysis due to system failure. Manual quality checks recommended.";
     e_recommendations :=
       ["Investigate system error immediately";
        "Implement manual quality monitoring procedures";
        "Contact technical support for system restoration";
        "Document all manual quality checks until system recovery"];
     e_compliance_status :=
       "UNABLE TO ASSESS - System failure prevents compliance monitoring";
     e_risk_assessment :=
       "HIGH RISK - Quality monitoring system failure requires immediate attention";
     e_action_items :=
       ["CRITICAL: Restore quality monitoring system";
        "URGENT: Implement emergency quality procedures";
        "HIGH: Contact technical support";
        "MEDIUM: Document all manual processes"];
     e_appendix :=
       {| ea_error_details := error_message;
          ea_methodology := "Emergency report generation due to system failure";
          ea_recommendations := "Restore normal system operation as soon as possible" |} |}.

(** The methods and collaborators that [generate_report] calls.  Each of
    them is arbitrary code and may raise. *)
Record pipeline : Type := {
  _collect_comprehensive_data : result dict;
  llm_client_available : result bool;
  _generate_llm_report : metrics -> dict -> string -> result value;
  _generate_enhanced_template_report : metrics -> dict -> result value;
  _build_comprehensive_report_content : value -> metrics -> result value;
  _get_data_source_info : dict -> result value;
  _create_data_summary : dict -> result value;
  _assess_data_freshness : dict -> result value;
  clean_report_content : normal_report -> result normal_report }.

(** Step 3: the language model when it is available, the template when
    it is not or when the model call raises. *)
Definition report_content_of (p : pipeline) (m : metrics) (collected_data : dict)
    (query : string) : result value :=
  available <- llm_client_available p ;;
  if available then
    try_except (_generate_llm_report p m collected_data query)
      (fun _ => _generate_enhanced_template_report p m collected_data)
  else _generate_enhanced_template_report p m collected_data.

(** [report_content.get(key, default)] for the six narrative sections. *)
Record sections : Type := {
  s_executive_summary : value;
  s_detailed_analysis : value;
  s_recommendations : value;
  s_compliance_status : value;
  s_risk_assessment : value;
  s_action_items : value }.

Definition read_sections (content : value) : result sections :=
  summary <- get_method content "executive_summary" (VStr "") ;;
  analysis <- get_method content "detailed_analysis" (VStr "") ;;
  recs <- get_method content "recommendations" (VList []) ;;
  compliance <- get_method content "compliance_status" (VStr "") ;;
  risk <- get_method content "risk_assessment" (VStr "") ;;
  items <- get_method content "action_items" (VList []) ;;
  Ok {| s_executive_summary := summary;
        s_detailed_analysis := analysis;
        s_recommendations := recs;
        s_compliance_status := compliance;
        s_risk_assessment := risk;
        s_action_items := items |}.

(** The dictionary literal [report = {...}] once its parts are known. *)
Definition report_literal (now : clock) (m : metrics)
    (sources full_report_content : value) (sec : sections) (raw fresh : value)
  : normal_report :=
  {| title := "Pharmaceutical Manufacturing Quality Control Report";
     generated_at := isoformat now;
     report_id := "QC_" ++ stamp now;
     data_sources := sources;
     report_content := full_report_content;
     executive_summary := s_executive_summary sec;
     quality_metrics := m;
     detailed_analysis := s_detailed_analysis sec;
     recommendations := s_recommendations sec;
     compliance_status := s_compliance_status sec;
     risk_assessment := s_risk_assessment sec;
     action_items := s_action_items sec;
     appendix :=
       {| raw_data_summary := raw;
          methodology := "Real-time data collection with ML model predictions";
          data_freshness := fresh |} |}.

(** The body of the outer [try] block.  The entries of the dictionary
    literal are evaluated in the order they are written: the data-source
    info first, the six [report_content.get] next (the first of them
    raises when the content is not a dictionary), the two appendix
    helpers last. *)
Definition generate_report_body (p : pipeline) (now : clock) (query : string)
  : result normal_report :=
  collected_data <- _collect_comprehensive_data p ;;
  let m := _extract_real_metrics (isoformat now) collected_data in
  content <- report_content_of p m collected_data query ;;
  full_report_content <- _build_comprehensive_report_content p content m ;;
  sources <- _get_data_source_info p collected_data ;;
  sec <- read_sections content ;;
  raw <- _create_data_summary p collected_data ;;
  fresh <- _assess_data_freshness p collected_data ;;
  clean_report_content p
    (report_literal now m sources full_report_content sec raw fresh).

Definition generate_report (p : pipeline) (now : clock) (query : string)
    (additional_context : value) : result report :=
  try_except
    (r <- generate_report_body p now query ;; Ok (Normal r))
    (fun e => Ok (Emergency (_generate_emergency_report now (exn_msg e)))).

(** What can make step 3 raise: the availability check, or the template
    (reached directly or after a failed model call). *)
Inductive content_failure (p : pipeline) (m : metrics) (cd : dict) (query : string)
    (e : exn) : Prop :=
| availability_raises :
    llm_client_available p = Raise e -> content_failure p m cd query e
| template_raises_without_llm :
    llm_client_available p = Ok false ->
    _generate_enhanced_template_report p m cd = Raise e ->
    content_failure p m cd query e
| template_raises_after_llm e0 :
    llm_client_available p = Ok true ->
    _generate_llm_report p m cd query = Raise e0 ->
    _generate_enhanced_template_report p m cd = Raise e ->
    content_failure p m cd query e.

(** What can make steps 4 and 5 raise, in the order of execution. *)
Inductive assembly_failure (p : pipeline) (now : clock) (cd : dict) (m : metrics)
    (content : value) (e : exn) : Prop :=
| build_raises :
    _build_comprehensive_report_content p content m = Raise e ->
    assembly_failure p now cd m content e
| source_info_raises full :
    _build_comprehensive_report_content p content m = Ok full ->
    _get_data_source_info p cd = Raise e ->
    assembly_failure p now cd m content e
| content_not_a_dict full sources :
    _build_comprehensive_report_content p content m = Ok full ->
    _get_data_source_info p cd = Ok sources ->
    read_sections content = Raise e ->
    assembly_failure p now cd m content e
| data_summary_raises full sources sec :
    _build_comprehensive_report_content p content m = Ok full ->
    _get_data_source_info p cd = Ok sources ->
    read_sections content = Ok sec ->
    _create_data_summary p cd = Raise e ->
    assembly_failure p now cd m content e
| data_freshness_raises full sources sec raw :
    _build_comprehensive_report_content p content m = Ok full ->
    _get_data_source_info p cd = Ok sources ->
    read_sections content = Ok sec ->
    _create_data_summary p cd = Ok raw ->
    _assess_data_freshness p cd = Raise e ->
    assembly_failure p now cd m content e
| cleaning_raises full sources sec raw fresh :
    _build_comprehensive_report_content p content m = Ok full ->
    _get_data_source_info p cd = Ok sources ->
    read_sections content = Ok sec ->
    _create_data_summary p cd = Ok raw ->
    _assess_data_freshness p cd = Ok fresh ->
    clean_report_content p (report_literal now m sources full sec raw fresh) = Raise e ->
    assembly_failure p now cd m content e.

(** An exception [e] that no handler inside the pipeline absorbs: it is
    raised by a step other than the language-model call (whose failure
    is absorbed by the template fallback), all earlier steps having
    succeeded. *)
Inductive unhandled (p : pipeline) (now : clock) (query : string) (e : exn) : Prop :=
| in_collection :
    _collect_comprehensive_data p = Raise e -> unhandled p now query e
| in_content cd :
    _collect_comprehensive_data p = Ok cd ->
    content_failure p (_extract_real_metrics (isoformat now) cd) cd query e ->
    unhandled p now query e
| in_assembly cd content :
    _collect_comprehensive_data p = Ok cd ->
    report_content_of p (_extract_real_metrics (isoformat now) cd) cd query = Ok content ->
    assembly_failure p now cd (_extract_real_metrics (isoformat now) cd) content e ->
    unhandled p now query e.

(** ** Sample pipelines *)

Definition template_content : value :=
  VDict [("executive_summary", VStr "All lines nominal.");
         ("recommendations", VList [VStr "Keep monitoring"])].

(** Every step succeeds; the model is not available. *)
Definition healthy_pipeline : pipeline :=
  {| _collect_comprehensive_data := Ok all_sources_up;
     llm_client_available := Ok false;
     _generate_llm_report := fun _ _ _ => Ok template_content;
     _generate_enhanced_template_report := fun _ _ => Ok template_content;
     _build_comprehensive_report_content := fun _ _ => Ok (VStr "# report");
     _get_data_source_info := fun _ => Ok (VDict []);
     _create_data_summary := fun _ => Ok (VDict []);
     _assess_data_freshness := fun _ => Ok (VStr "fresh");
     clean_report_content := fun r => Ok r |}.

(** The model is available and its call raises; every other step
    succeeds. *)
Definition llm_failing_pipeline : pipeline :=
  {| _collect_comprehensive_data := Ok all_sources_up;
     llm_client_available := Ok true;
     _generate_llm_report := fun _ _ _ =>
       Raise (Exn "Exception" "LLM generation failed: Unknown error");
     _generate_enhanced_template_report := fun _ _ => Ok template_content;
     _build_comprehensive_report_content := fun _ _ => Ok (VStr "# report");
     _get_data_source_info := fun _ => Ok (VDict []);
     _create_data_summary := fun _ => Ok (VDict []);
     _assess_data_freshness := fun _ => Ok (VStr "fresh");
     clean_report_content := fun r => Ok r |}.

(** The data-summary helper raises. *)
Definition summary_failing_pipeline : pipeline :=
  {| _collect_comprehensive_data := Ok all_sources_up;
     llm_client_available := Ok false;
     _generate_llm_report := fun _ _ _ => Ok template_content;
     _generate_enhanced_template_report := fun _ _ => Ok template_content;
     _build_comprehensive_report_content := fun _ _ => Ok (VStr "# report");
     _get_data_source_info := fun _ => Ok (VDict []);
     _create_data_summary := fun _ => Raise (Exn "KeyError" "'timestamp'");
     _assess_data_freshness := fun _ => Ok (VStr "fresh");
     clean_report_content := fun r => Ok r |}.

Definition sample_clock : clock :=
  {| isoformat := "2025-01-01T00:00:00"; stamp := "20250101_000000" |}.

End QualityReport.

(* ===================================================================== *)
(** * llm_integration/gemini_client.py *)
(* ===================================================================== *)

Module Gemini.
Import Py PyNotations.

(** ASCII case conversion, as [str.lower] and [str.upper] act on the
    Latin letters. *)
Definition is_upper (c : ascii) : bool :=
  let n := nat_of_ascii c in Nat.leb 65 n && Nat.leb n 90.
Definition is_lower (c : ascii) : bool :=
  let n := nat_of_ascii c in Nat.leb 97 n && Nat.leb n 122.
Definition to_lower (c : ascii) : ascii :=
  if is_upper c then ascii_of_nat (nat_of_ascii c + 32) else c.
Definition to_upper (c : ascii) : ascii :=
  if is_lower c then ascii_of_nat (nat_of_ascii c - 32) else c.

Fixpoint lower (s : string) : string :=
  match s with
  | EmptyString => EmptyString
  | String c s' => String (to_lower c) (lower s')
  end.

(** [s.replace('_', ' ')] *)
Fixpoint underscores_to_spaces (s : string) : string :=
  match s with
  | EmptyString => EmptyString
  | String c s' =>
      String (if Ascii.eqb c "_" then " "%char else c) (underscores_to_spaces s')
  end.

(** [s.title()]: a letter that follows a letter is lowered, any other
    letter is raised. *)
Fixpoint title_from (after_letter : bool) (s : string) : string :=
  match s with
  | EmptyString => EmptyString
  | String c s' =>
      let cased := is_upper c || is_lower c in
      String (if cased then (if after_letter then to_lower c else to_upper c) else c)
             (title_from cased s')
  end.

Definition str_title (s : string) : string := title_from false s.

Definition newline : string := String (ascii_of_nat 10) EmptyString.

Fixpoint lines (l : list string) : string :=
  match l with
  | [] => ""
  | [x] => x
  | x :: rest => x ++ newline ++ lines rest
  end.

(** [_generate_fallback_content]; [timestamp] is
    [datetime.now().strftime("%Y-%m-%d %H:%M:%S")]. *)
Definition _generate_fallback_content (timestamp : string) (report_type : string)
  : string :=
  lines
    ["# " ++ str_title (underscores_to_spaces report_type) ++ " Report";
     "";
     "**Generated:** " ++ timestamp;
     "**Status:** Fallback Mode - Gemini API Unavailable";
     "";
     "## Executive Summary";
     "This report was generated in fallback mode due to Gemini API service unavailability.";
     "";
     "## Current Status";
     "- System Status: Monitoring";
     "- Data Collection: Active";
     "- Analysis: Manual review recommended";
     "";
     "## Recommendations";
     "- Verify Gemini API service connectivity";
     "- Check API key configuration";
     "- Perform manual analysis";
     "- Contact system administrator";
     "";
     "## Compliance Status";
     "- Documentation: Complete";
     "- Audit Trail: Maintained";
     "- Manual verification required";
     "";
     "*This is an automated fallback response. Manual review recommended.*"].

(** The dictionary returned by [generate_comprehensive_report]. *)
Record response : Type := {
  status : string;
  error : option string;
  content : string;
  model_used : option string;
  tokens_used : option nat;
  attempt : option nat }.

(** What one pass through the inner [try] block gives: the cleaned text
    of the model, or the exception raised by the call or by the handling
    of its answer. *)
Inductive call_outcome : Type :=
| Generated (cleaned_content : string) (tokens : nat)
| Failed (e : exn).

(** The client and its surroundings.  [generate_content n prompt] is the
    outcome of the [n]-th call made to the model. *)
Record client : Type := {
  available : bool;
  model_name : string;
  build_prompt : bool -> result string;
  generate_content : nat -> string -> call_outcome;
  now : string }.

(** The effects of a call to the client: how many model calls were made
    and the delays slept, oldest first. *)
Record effects : Type := { calls : nat; slept : list nat }.

Definition no_effects : effects := {| calls := 0; slept := [] |}.

(** ["429" in error_str or "quota" in error_str.lower()] *)
Definition is_rate_limit (error_str : string) : bool :=
  is_substring "429" error_str || is_substring "quota" (lower error_str).

Definition max_retries : nat := 3.
Definition base_delay : nat := 15.

Definition fallback_response (c : client) (report_type : string) (err : string)
  : response :=
  {| status := "error";
     error := Some err;
     content := _generate_fallback_content (now c) report_type;
     model_used := None;
     tokens_used := None;
     attempt := None |}.

(** The loop [for attempt in range(max_retries)], entered at [attempt]
    with [remaining] iterations left.  [compact_retry] is the recursive
    call [self.generate_comprehensive_report(..., use_compact_mode=True)].
    Leaving the loop by [break], or by running out of iterations, falls
    off the end of the function: the value is Python's [None]. *)
Fixpoint attempts (c : client) (full_prompt : string) (use_compact_mode : bool)
    (compact_retry : effects -> result (option response) * effects)
    (remaining attempt : nat) (fx : effects)
  : result (option response) * effects :=
  match remaining with
  | O => (Ok None, fx)
  | S remaining' =>
      let fx1 := {| calls := S (calls fx); slept := slept fx |} in
      match generate_content c (calls fx) full_prompt with
      | Generated cleaned_content tokens =>
          (Ok (Some {| status := "success";
                       error := None;
                       content := cleaned_content;
                       model_used := Some (model_name c);
                       tokens_used := Some tokens;
                       attempt := Some (attempt + 1)%nat |}), fx1)
      | Failed e =>
          if is_rate_limit (exn_msg e) then
            if Nat.ltb attempt (max_retries - 1) then
              let delay := (base_delay * 2 ^ attempt)%nat in
              attempts c full_prompt use_compact_mode compact_retry remaining'
                (S attempt)
                {| calls := calls fx1; slept := slept fx1 ++ [delay] |}
            else if negb use_compact_mode && Nat.eqb attempt (max_retries - 1) then
              compact_retry fx1
            else (Ok None, fx1)
          else (Ok None, fx1)
      end
  end.

(** One activation of [generate_comprehensive_report]. *)
Definition activation (c : client) (report_type : string) (use_compact_mode : bool)
    (compact_retry : effects -> result (option response) * effects)
    (fx : effects) : result (option response) * effects :=
  if negb (available c) then
    (Ok (Some (fallback_response c report_type "Gemini client not available")), fx)
  else
    match build_prompt c use_compact_mode with
    | Raise e => (Ok (Some (fallback_response c report_type (exn_msg e))), fx)
    | Ok full_prompt =>
        attempts c full_prompt use_compact_mode compact_retry max_retries 0 fx
    end.

(** [generate_comprehensive_report].  The function calls itself at most
    once, with [use_compact_mode=True]; in that activation the guard
    [not use_compact_mode] closes the recursive branch, so the innermost
    continuation is never run. *)
Definition generate_comprehensive_report (c : client) (report_type : string)
    (use_compact_mode : bool) (fx : effects)
  : result (option response) * effects :=
  activation c report_type use_compact_mode
    (activation c report_type true (fun fx' => (Ok None, fx')))
    fx.

(** ** Sample clients *)

Definition sample_client (outcomes : nat -> call_outcome) : client :=
  {| available := true;
     model_name := "gemini-2.0-flash-exp";
     build_prompt := fun compact => Ok (if compact then "compact" else "full");
     generate_content := fun n _ => outcomes n;
     now := "2025-01-01 00:00:00" |}.

(** The first call fails with a server error. *)
Definition server_error_client : client :=
  sample_client (fun _ => Failed (Exn "InternalServerError" "500 Internal error")).

(** Every call is refused for quota. *)
Definition quota_client : client :=
  sample_client (fun _ => Failed (Exn "ResourceExhausted" "429 Quota exceeded")).

End Gemini.

(* ===================================================================== *)
(** * data_collectors/classification_collector.py *)
(* ===================================================================== *)

Module ClassificationCollector.
Import Py PyNotations.

(** What [await response.json()] gives. *)
Inductive body : Type :=
| Malformed (e : exn)
| Json (data : value).

(** What [session.get(endpoint)] gives: an exception of the transport
    (refused connection, timeout, ...) or a response. *)
Inductive http_reply : Type :=
| TransportError (e : exn)
| Response (status : nat) (b : body).

Record collector : Type := {
  api_base_url : string;
  recent_classifications : list value }.

Definition max_history : nat := 100.

Definition defect_endpoint (c : collector) : string := api_base_url c ++ "/api/defect".
Definition quality_endpoint (c : collector) : string := api_base_url c ++ "/api/quality".

Definition error_entry (msg endpoint : string) : value :=
  VDict [("api_status", VStr "error"); ("error", VStr msg); ("endpoint", VStr endpoint)].

Definition _collect_defect_data (c : collector) (reply : http_reply) : result value :=
  try_except
    (match reply with
     | TransportError e => Raise e
     | Response status b =>
         if Nat.eqb status 200 then
           match b with
           | Malformed e => Raise e
           | Json data =>
               defect_probability <- get_method data "defect_probability" (VNum 0) ;;
               risk_level <- get_method data "risk_level" (VStr "unknown") ;;
               confidence <- get_method data "confidence" (VNum 0) ;;
               model_info <- get_method data "model_info" (VDict []) ;;
               features_used <- get_method data "features_used" (VList []) ;;
               Ok (VDict [("api_status", VStr "success");
                          ("defect_probability", defect_probability);
                          ("risk_level", risk_level);
                          ("confidence", confidence);
                          ("model_info", model_info);
                          ("features_used", features_used)])
           end
         else
           Ok (error_entry ("HTTP " ++ QualityReport.nat_to_string status)
                 (defect_endpoint c))
     end)
    (fun e => Ok (error_entry (exn_msg e) (defect_endpoint c))).

Definition _collect_quality_data (c : collector) (reply : http_reply) : result value :=
  try_except
    (match reply with
     | TransportError e => Raise e
     | Response status b =>
         if Nat.eqb status 200 then
           match b with
           | Malformed e => Raise e
           | Json data =>
               quality_class <- get_method data "quality_class" (VStr "unknown") ;;
               confidence <- get_method data "confidence" (VNum 0) ;;
               class_probabilities <- get_method data "class_probabilities" (VDict []) ;;
               model_info <- get_method data "model_info" (VDict []) ;;
               features_used <- get_method data "features_used" (VList []) ;;
               Ok (VDict [("api_status", VStr "success");
                          ("quality_class", quality_class);
                          ("confidence", confidence);
                          ("class_probabilities", class_probabilities);
                          ("model_info", model_info);
                          ("features_used", features_used)])
           end
         else
           Ok (error_entry ("HTTP " ++ QualityReport.nat_to_string status)
                 (quality_endpoint c))
     end)
    (fun e => Ok (error_entry (exn_msg e) (quality_endpoint c))).

(** [l[-n:]] for a positive [n]. *)
Definition last_n {A : Type} (n : nat) (l : list A) : list A :=
  skipn (List.length l - n) l.

Definition _add_to_history (c : collector) (classification_record : value) : collector :=
  let appended := (recent_classifications c ++ [classification_record])%list in
  {| api_base_url := api_base_url c;
     recent_classifications :=
       if Nat.ltb max_history (List.length appended)
       then last_n max_history appended
       else appended |}.

(** [collect_data]; [now] is [datetime.now().isoformat()], and the two
    replies are those of the defect and of the quality endpoint.  The
    result is the returned record (or the exception that escapes) and
    the collector afterwards. *)
Definition collect_data (c : collector) (now : string)
    (defect_reply quality_reply : http_reply) : result value * collector :=
  let body :=
    defect_prediction <- _collect_defect_data c defect_reply ;;
    quality_prediction <- _collect_quality_data c quality_reply ;;
    Ok (VDict [("timestamp", VStr now);
               ("defect_prediction", defect_prediction);
               ("quality_prediction", quality_prediction)]) in
  match body with
  | Ok classification_record =>
      (Ok classification_record, _add_to_history c classification_record)
  | Raise e =>
      let error_record :=
        VDict [("timestamp", VStr now);
               ("error", VStr (exn_msg e));
               ("defect_prediction",
                 VDict [("api_status", VStr "error"); ("error", VStr (exn_msg e))]);
               ("quality_prediction",
                 VDict [("api_status", VStr "error"); ("error", VStr (exn_msg e))])] in
      (Ok error_record, _add_to_history c error_record)
  end.

(** ** Vocabulary of the specification *)

(** A failed endpoint call: a transport exception, a status other than
    200, or a body that is not a JSON object. *)
Definition failed (reply : http_reply) : bool :=
  match reply with
  | TransportError _ => true
  | Response status b =>
      if Nat.eqb status 200 then
        match b with
        | Malformed _ => true
        | Json data => negb (is_dict data)
        end
      else true
  end.

(** [record[entry]] carries an error status and an error string. *)
Definition carries_error (record : value) (entry : string) : Prop :=
  exists d msg,
    record = VDict d /\
    exists fields, lookup d entry = Some (VDict fields) /\
      lookup fields "api_status" = Some (VStr "error") /\
      lookup fields "error" = Some (VStr msg).

Definition carries_success (record : value) (entry : string) : Prop :=
  exists d fields,
    record = VDict d /\
    lookup d entry = Some (VDict fields) /\
    lookup fields "api_status" = Some (VStr "success").

(** ** Sample collector and replies *)

Definition fresh_collector : collector :=
  {| api_base_url := "http://165.22.211.17:8000"; recent_classifications := [] |}.

Definition http_500 : http_reply := Response 500 (Json (VDict [])).
Definition timed_out : http_reply := TransportError (Exn "TimeoutError" "timeout").
Definition bad_json : http_reply :=
  Response 200 (Malformed (Exn "JSONDecodeError" "Expecting value: line 1 column 1 (char 0)")).
Definition good_defect : http_reply :=
  Response 200 (Json QualityReport.sample_classification).

End ClassificationCollector.

(* ===================================================================== *)
(** * knowledge_base/knowledge_manager.py *)
(* ===================================================================== *)

Module KnowledgeBase.
Import Py PyNotations.

(** The values the vector index accepts in a metadata record. *)
Inductive meta_value : Type :=
| MStr (s : string)
| MNum (q : Q)
| MBool (b : bool).

Definition metadata : Type := list (string * meta_value).

Fixpoint meta_lookup (md : metadata) (k : string) : option meta_value :=
  match md with
  | [] => None
  | (k', v) :: md' => if String.eqb k k' then Some v else meta_lookup md' k
  end.

(** [{**base, **extra}]: the entries of [extra] win. *)
Definition meta_update (base extra : metadata) : metadata :=
  (filter (fun kv => match meta_lookup extra (fst kv) with
                     | Some _ => false | None => true end) base
   ++ extra)%list.

Record document : Type := {
  doc_id : string;
  doc_text : string;
  doc_metadata : metadata;
  doc_embedding : list Q }.

(** A collection of the vector index, as the documents it holds, oldest
    first.  [collection.get()] returns them all, [collection.add]
    appends one, [collection.delete(ids)] removes those whose id is
    listed. *)
Definition collection : Type := list document.

Definition collection_delete (ids : list string) (col : collection) : collection :=
  filter (fun d => negb (existsb (String.eqb (doc_id d)) ids)) col.

(** The answer of [collection.query]: one row per query embedding. *)
Record query_result : Type := {
  documents : list (list string);
  metadatas : list (list metadata);
  distances : list (list Q) }.

(** The manager: the embedding model ([None] when it failed to load),
    the index client ([None] when it failed to start), the collections,
    and the two collaborators that are opaque to this code: the
    nearest-neighbour query of the index and the flattening of a data
    record into text. *)
Record manager : Type := {
  embedding_model : option (string -> result (list Q));
  client : option unit;
  collections : list (string * collection);
  index_query : collection -> list Q -> nat -> result query_result;
  _format_data_as_text : dict -> string;
  repr_length : dict -> nat }.

Definition with_collections (kb : manager) (cols : list (string * collection)) : manager :=
  {| embedding_model := embedding_model kb;
     client := client kb;
     collections := cols;
     index_query := index_query kb;
     _format_data_as_text := _format_data_as_text kb;
     repr_length := repr_length kb |}.

Fixpoint find_collection (cols : list (string * collection)) (name : string)
  : option collection :=
  match cols with
  | [] => None
  | (n, c) :: rest => if String.eqb name n then Some c else find_collection rest name
  end.

Fixpoint set_collection (cols : list (string * collection)) (name : string)
    (c : collection) : list (string * collection) :=
  match cols with
  | [] => []
  | (n, c0) :: rest =>
      if String.eqb name n then (n, c) :: rest
      else (n, c0) :: set_collection rest name c
  end.

Definition key_error (k : string) : exn := Exn "KeyError" k.

(** [collection.add] of one record: the index holds one record per id
    and passes over a record whose id it already holds, without an
    exception. *)
Definition collection_add (d : document) (col : collection) : collection :=
  if existsb (String.eqb (doc_id d)) (map doc_id col) then col
  else (col ++ [d])%list.

(** [self.collections[name].add(...)] *)
Definition add_to (kb : manager) (name : string) (d : document) : result manager :=
  match find_collection (collections kb) name with
  | None => Raise (key_error name)
  | Some c =>
      Ok (with_collections kb (set_collection (collections kb) name (collection_add d c)))
  end.

(** One reading of the clock: [isoformat()] and
    [strftime('%Y%m%d_%H%M%S_%f')]. *)
Record clock : Type := { isoformat : string; stamp : string }.

(** [add_documentation]: the returned boolean and the manager
    afterwards. *)
Definition add_documentation (kb : manager) (now : clock) (doc_type content : string)
    (md : metadata) : bool * manager :=
  match embedding_model kb, client kb with
  | Some encode, Some _ =>
      let body :=
        embedding <- encode content ;;
        let id := doc_type ++ "_" ++ stamp now in
        add_to kb "documentation"
          {| doc_id := id;
             doc_text := content;
             doc_metadata :=
               meta_update [("type", MStr doc_type); ("timestamp", MStr (isoformat now))] md;
             doc_embedding := embedding |} in
      match body with
      | Ok kb' => (true, kb')
      | Raise _ => (false, kb)
      end
  | _, _ => (false, kb)
  end.

(** A metadata entry taken from a data record.  Strings, numbers and
    booleans are what every version of the index stores; what becomes
    of another value depends on the version of the index, and the
    statements about [add_historical_data] are made for the three kinds
    only (here another value is refused). *)
Definition as_meta (v : value) : result meta_value :=
  match v with
  | VStr s => Ok (MStr s)
  | VNum q => Ok (MNum q)
  | VBool b => Ok (MBool b)
  | _ => Raise (value_error "Expected metadata value to be a str, int, float or bool")
  end.

Definition add_historical_data (kb : manager) (now : clock) (data_type : string)
    (data : dict) : bool * manager :=
  match embedding_model kb, client kb with
  | Some encode, Some _ =>
      let body :=
        let text_content := _format_data_as_text kb data in
        if String.eqb text_content "" then Ok (false, kb)
        else
          embedding <- encode text_content ;;
          let id := data_type ++ "_" ++ stamp now in
          ts <- as_meta (get_default data "collection_timestamp" (VStr (isoformat now))) ;;
          kb' <- add_to kb "historical_data"
                   {| doc_id := id;
                      doc_text := text_content;
                      doc_metadata :=
                        [("type", MStr data_type);
                         ("timestamp", ts);
                         ("source", MStr "real_time_collection");
                         ("data_size", MNum (inject_Z (Z.of_nat (repr_length kb data))))];
                      doc_embedding := embedding |} ;;
          Ok (true, kb') in
      match body with
      | Ok r => r
      | Raise _ => (false, kb)
      end
  | _, _ => (false, kb)
  end.

(** An entry of the list returned by [search_relevant_context]. *)
Record context_item : Type := {
  content : string;
  item_metadata : metadata;
  distance : Q;
  relevance_score : Q }.

(** [row[0]], which raises [IndexError] on an empty list. *)
Definition first_row {A : Type} (rows : list (list A)) : result (list A) :=
  match rows with
  | r :: _ => Ok r
  | [] => Raise (Exn "IndexError" "list index out of range")
  end.

(** The loop over [zip(documents, metadatas, distances)]. *)
Fixpoint zip_items (docs : list string) (mds : list metadata) (ds : list Q)
  : list context_item :=
  match docs, mds, ds with
  | doc :: docs', md :: mds', d :: ds' =>
      {| content := doc; item_metadata := md; distance := d;
         relevance_score := 1 - d |} :: zip_items docs' mds' ds'
  | _, _, _ => []
  end.

(** [list.sort(key=lambda x: x['distance'])]: the stable sort, written
    as an insertion from the right. *)
Fixpoint insert_by_distance (x : context_item) (l : list context_item)
  : list context_item :=
  match l with
  | [] => [x]
  | y :: l' =>
      if Qle_bool (distance x) (distance y) then x :: y :: l'
      else y :: insert_by_distance x l'
  end.

Fixpoint sort_by_distance (l : list context_item) : list context_item :=
  match l with
  | [] => []
  | x :: l' => insert_by_distance x (sort_by_distance l')
  end.

Definition search_relevant_context (kb : manager) (query collection_name : string)
    (n_results : nat) : list context_item :=
  match embedding_model kb, client kb, find_collection (collections kb) collection_name with
  | Some encode, Some _, Some col =>
      let body :=
        query_embedding <- encode query ;;
        results <- index_query kb col query_embedding n_results ;;
        match documents results with
        | [] | [] :: _ => Ok []
        | docs :: _ =>
            mds <- first_row (metadatas results) ;;
            ds <- first_row (distances results) ;;
            Ok (sort_by_distance (zip_items docs mds ds))
        end in
      match body with
      | Ok context_results => context_results
      | Raise _ => []
      end
  | _, _, _ => []
  end.

(** [metadata.get('timestamp', '')] *)
Definition stored_timestamp (d : document) : meta_value :=
  match meta_lookup (doc_metadata d) "timestamp" with
  | Some v => v
  | None => MStr ""
  end.

(** [doc_timestamp < cutoff_timestamp]: the order of Python strings
    (code point by code point, which is the order of their UTF-8 bytes),
    and a [TypeError] when the stored timestamp is not a string. *)
Definition older_than (cutoff_timestamp : string) (d : document) : result bool :=
  match stored_timestamp d with
  | MStr doc_timestamp => Ok (String.ltb doc_timestamp cutoff_timestamp)
  | _ => Raise (type_error "'<' not supported between instances")
  end.

(** The loop that fills [old_ids]. *)
Fixpoint old_ids_of (cutoff_timestamp : string) (docs : collection)
  : result (list string) :=
  match docs with
  | [] => Ok []
  | d :: rest =>
      old <- older_than cutoff_timestamp d ;;
      ids <- old_ids_of cutoff_timestamp rest ;;
      Ok (if old then doc_id d :: ids else ids)
  end.

(** The loop over [self.collections.items()]: the collections cleaned so
    far, and the exception that stopped the loop, if any. *)
Fixpoint cleanup_collections (cutoff_timestamp : string)
    (cols : list (string * collection)) : list (string * collection) * option exn :=
  match cols with
  | [] => ([], None)
  | (name, col) :: rest =>
      match old_ids_of cutoff_timestamp col with
      | Raise e => ((name, col) :: rest, Some e)
      | Ok old_ids =>
          let col' := match old_ids with
                      | [] => col
                      | _ => collection_delete old_ids col
                      end in
          let '(rest', stopped) := cleanup_collections cutoff_timestamp rest in
          ((name, col') :: rest', stopped)
      end
  end.

(** [cleanup_old_embeddings]; [cutoff_timestamp] is
    [(datetime.now() - timedelta(days=days_to_keep)).isoformat()]. *)
Definition cleanup_old_embeddings (kb : manager) (cutoff_timestamp : string)
  : result unit * manager :=
  match client kb with
  | None => (Ok tt, kb)
  | Some _ =>
      (Ok tt, with_collections kb
                (fst (cleanup_collections cutoff_timestamp (collections kb))))
  end.

(** ** Vocabulary of the specification *)

(** The two orders of a result list. *)
Definition by_distance (a b : context_item) : Prop := distance a <= distance b.
Definition by_relevance (a b : context_item) : Prop :=
  relevance_score b <= relevance_score a.

(** The timestamp of a document as a string, when it is one. *)
Definition timestamp_string (d : document) : option string :=
  match stored_timestamp d with
  | MStr s => Some s
  | _ => None
  end.

Definition string_timestamps (col : collection) : Prop :=
  Forall (fun d => exists s, timestamp_string d = Some s) col.

Definition unique_ids (col : collection) : Prop := NoDup (map doc_id col).

(** The timestamp string of the document is smaller than the cutoff in
    the order of strings (code point by code point, a proper prefix
    first). *)
Definition lexically_older (cutoff_timestamp : string) (d : document) : bool :=
  match timestamp_string d with
  | Some s => String.ltb s cutoff_timestamp
  | None => false
  end.

Definition survivors (cutoff_timestamp : string) (col : collection) : collection :=
  filter (fun d => negb (lexically_older cutoff_timestamp d)) col.

(** The 'timestamp' entry of the metadata of a document, as the text
    that can be compared with the cutoff: the entry when it is a string,
    the empty string when there is no entry, nothing when the entry is
    a number or a boolean. *)
Definition timestamp_entry (d : document) : option string :=
  match meta_lookup (doc_metadata d) "timestamp" with
  | Some (MStr s) => Some s
  | Some _ => None
  | None => Some ""%string
  end.

(** Every document of the collection has such a text. *)
Definition comparable (col : collection) : bool :=
  forallb (fun d => match timestamp_entry d with Some _ => true | None => false end) col.

(** The text of the document is smaller than the cutoff in the order of
    strings. *)
Definition lexically_smaller (cutoff_timestamp : string) (d : document) : bool :=
  match timestamp_entry d with
  | Some s => String.ltb s cutoff_timestamp
  | None => false
  end.

(** The documents of a collection that are not lexically smaller than
    the cutoff, in the order of the collection. *)
Definition kept (cutoff_timestamp : string) (nc : string * collection)
  : string * collection :=
  (fst nc, filter (fun d => negb (lexically_smaller cutoff_timestamp d)) (snd nc)).

(** The scalar values of a data record. *)
Definition scalar (v : value) : bool :=
  match v with VStr _ | VNum _ | VBool _ => true | _ => false end.

(** ** Sample managers *)

Definition old_document : document :=
  {| doc_id := "classification_20200101_000000_000000";
     doc_text := "Defect probability: 0.100";
     doc_metadata := [("type", MStr "classification");
                      ("timestamp", MStr "2020-01-01T00:00:00.000000")];
     doc_embedding := [1 # 2] |}.

Definition recent_document : document :=
  {| doc_id := "classification_20250601_000000_000000";
     doc_text := "Defect probability: 0.200";
     doc_metadata := [("type", MStr "classification");
                      ("timestamp", MStr "2025-06-01T00:00:00.000000")];
     doc_embedding := [1 # 3] |}.

Definition sample_collections : list (string * collection) :=
  [("historical_data", [old_document; recent_document]);
   ("documentation", []);
   ("templates", [])].

Definition no_query : collection -> list Q -> nat -> result query_result :=
  fun _ _ _ => Ok {| documents := []; metadatas := []; distances := [] |}.

(** The index is up, the embedding model failed to load. *)
Definition manager_without_model : manager :=
  {| embedding_model := None;
     client := Some tt;
     collections := sample_collections;
     index_query := no_query;
     _format_data_as_text := fun _ => "";
     repr_length := fun _ => 0%nat |}.

Definition sample_manager : manager :=
  {| embedding_model := Some (fun _ => Ok [1 # 2]);
     client := Some tt;
     collections := sample_collections;
     index_query := no_query;
     _format_data_as_text := fun _ => "";
     repr_length := fun _ => 0%nat |}.

Definition sample_cutoff : string := "2025-01-01T00:00:00.000000".

(** A procedure of 2020 in 'documentation'. *)
Definition old_procedure : document :=
  {| doc_id := "sop_20200101_000000_000000";
     doc_text := "Clean the press daily.";
     doc_metadata := [("type", MStr "sop");
                      ("timestamp", MStr "2020-01-01T00:00:00.000000")];
     doc_embedding := [1 # 2] |}.

Definition manager_with_procedure : manager :=
  {| embedding_model := Some (fun _ => Ok [1 # 2]);
     client := Some tt;
     collections := [("historical_data", [old_document; recent_document]);
                     ("documentation", [old_procedure]);
                     ("templates", [])];
     index_query := no_query;
     _format_data_as_text := fun _ => ""%string;
     repr_length := fun _ => 0%nat |}.

Definition sample_clock : clock :=
  {| isoformat := "2025-06-01T00:00:00.000000";
     stamp := "20250601_000000_000000" |}.

(** The store after [add_documentation] was given metadata with a
    'timestamp' of its own, a number of seconds. *)
Definition manager_with_numeric_timestamp : manager :=
  snd (add_documentation manager_with_procedure sample_clock "note"
         "Calibrate the scale." [("timestamp", MNum 1748736000)]).

Definition later_clock : clock :=
  {| isoformat := "2025-06-01T00:00:05.000000";
     stamp := "20250601_000005_000000" |}.

(** A manager that renders every record as the same line. *)
Definition manager_with_line : manager :=
  {| embedding_model := Some (fun _ => Ok [1 # 2]);
     client := Some tt;
     collections := sample_collections;
     index_query := no_query;
     _format_data_as_text := fun _ => "Defect probability: 0.300"%string;
     repr_length := fun _ => 27%nat |}.

End KnowledgeBase.

(* ===================================================================== *)
(** * data_collectors/classification_collector.py: defect trend *)
(* ===================================================================== *)

Module DefectAnalysis.
Import Py PyNotations.

(** The trend block read over exact rationals: the reading in which the
    two windows of a short history are seen to be the same list.  (The
    block in Python's own arithmetic is [DefectTrend.trend_of].) *)

(** [sum(l)]: a left fold that starts at 0. *)
Definition sumQ (l : list Q) : Q := fold_left Qplus l 0.

Definition of_nat (n : nat) : Q := inject_Z (Z.of_nat n).

(** [l[-3:]] and [l[:3]] *)
Definition last_three (l : list Q) : list Q := skipn (List.length l - 3) l.
Definition first_three (l : list Q) : list Q := firstn 3 l.

(** The block "Determine trend". *)
Definition trend_of (defect_probs : list Q) : string :=
  if Nat.leb 2 (List.length defect_probs) then
    let recent_avg :=
      sumQ (last_three defect_probs) / of_nat (Nat.min 3 (List.length defect_probs)) in
    let earlier_avg :=
      sumQ (first_three defect_probs) / of_nat (Nat.min 3 (List.length defect_probs)) in
    if Qgtb recent_avg (earlier_avg * (11 # 10)) then "increasing"
    else if Qltb recent_avg (earlier_avg * (9 # 10)) then "decreasing"
    else "stable"
  else "insufficient_data".

(** ** Vocabulary of the specification *)


End DefectAnalysis.

(* ===================================================================== *)
(** * report_generators/base_generator.py: [extract_key_metrics] *)
(* ===================================================================== *)

Module BaseGenerator.
Import Py PyNotations.

(** [d[k] = v]: the entry is replaced in place, or added at the end. *)
Fixpoint dict_set (d : dict) (k : string) (v : value) : dict :=
  match d with
  | [] => [(k, v)]
  | (k', v') :: d' =>
      if String.eqb k k' then (k', v) :: d' else (k', v') :: dict_set d' k v
  end.

(** [k in collected_data and 'error' not in collected_data[k]]: the
    data of the source when the guard holds. *)
Definition collected (collected_data : dict) (k : string) : result (option value) :=
  match lookup collected_data k with
  | None => Ok None
  | Some v => e <- contains "error" v ;; Ok (if e then None else Some v)
  end.

Definition extract_classification (collected_data : dict) (metrics : dict) : result dict :=
  src <- collected collected_data "classification" ;;
  match src with
  | None => Ok metrics
  | Some classification_data =>
      defect_probability <- get_method classification_data "defect_probability" (VStr "N/A") ;;
      risk_level <- get_method classification_data "risk_level" (VStr "N/A") ;;
      confidence <- get_method classification_data "confidence" (VStr "N/A") ;;
      Ok (dict_set (dict_set (dict_set metrics
            "defect_probability" defect_probability)
            "risk_level" risk_level)
            "confidence_score" confidence)
  end.

Definition extract_quality (collected_data : dict) (metrics : dict) : result dict :=
  src <- collected collected_data "quality" ;;
  match src with
  | None => Ok metrics
  | Some quality_data =>
      quality_class <- get_method quality_data "quality_class" (VStr "N/A") ;;
      confidence <- get_method quality_data "confidence" (VStr "N/A") ;;
      Ok (dict_set (dict_set metrics
            "quality_class" quality_class)
            "quality_confidence" confidence)
  end.

Definition extract_forecasting (collected_data : dict) (metrics : dict) : result dict :=
  src <- collected collected_data "forecasting" ;;
  match src with
  | None => Ok metrics
  | Some forecasting_data =>
      horizon <- get_method forecasting_data "forecast_horizon" (VStr "N/A") ;;
      forecast <- get_method forecasting_data "forecast" (VList []) ;;
      points <- len forecast ;;
      Ok (dict_set (dict_set metrics
            "forecast_horizon" horizon)
            "forecast_points" (VNum (inject_Z (Z.of_nat points))))
  end.

Definition extract_rl (collected_data : dict) (metrics : dict) : result dict :=
  src <- collected collected_data "rl_actions" ;;
  match src with
  | None => Ok metrics
  | Some rl_data =>
      actions <- get_method rl_data "recommended_actions" (VStr "N/A") ;;
      model_type <- get_method rl_data "model_type" (VStr "N/A") ;;
      Ok (dict_set (dict_set metrics
            "recommended_actions" actions)
            "model_type" model_type)
  end.

(** The threshold chain on a numeric defect probability. *)
Definition risk_level_of (defect_prob : Q) : string :=
  if Qgtb defect_prob (8 # 10) then "Critical"
  else if Qgtb defect_prob (6 # 10) then "High"
  else if Qgtb defect_prob (4 # 10) then "Medium"
  else if Qgtb defect_prob (2 # 10) then "Low"
  else "Very Low".

(** The block "Calculate risk level based on defect probability". *)
Definition calculate_risk_level (metrics : dict) : dict :=
  let defect_prob := get_default metrics "defect_probability" (VNum 0) in
  match as_number defect_prob with
  | Some p => dict_set metrics "risk_level" (VStr (risk_level_of p))
  | None => dict_set metrics "risk_level" (VStr "Unknown")
  end.

(** The body of the [try] block. *)
Definition extract_key_metrics_body (collected_data : dict) : result dict :=
  metrics <- extract_classification collected_data [] ;;
  metrics <- extract_quality collected_data metrics ;;
  metrics <- extract_forecasting collected_data metrics ;;
  metrics <- extract_rl collected_data metrics ;;
  Ok (calculate_risk_level metrics).

Definition extract_key_metrics (collected_data : dict) : dict :=
  match extract_key_metrics_body collected_data with
  | Ok metrics => metrics
  | Raise e => [("error", VStr (exn_msg e))]
  end.

(** ** Sample collected data *)

(** The defect endpoint reports a probability of 0.9 and calls the risk
    "low". *)
Definition mislabelled_classification : dict :=
  [("classification",
     VDict [("defect_probability", VNum (9 # 10)); ("risk_level", VStr "low")]);
   ("quality", QualityReport.sample_quality)].

Definition no_classification : dict :=
  [("quality", QualityReport.sample_quality)].

Definition classification_without_probability : dict :=
  [("classification", VDict [("risk_level", VStr "high")])].

(** No classification was collected, and the forecasting endpoint
    answered with a null forecast. *)
Definition null_forecast_only : dict :=
  [("forecasting", VDict [("forecast_horizon", VNum 30); ("forecast", VNone)])].

(** ** Collected data on which the [try] block runs to its end *)

Definition source_keys : list string :=
  ["classification"; "quality"; "forecasting"; "rl_actions"].

(** The values [len] accepts. *)
Definition sized (v : value) : bool :=
  match v with VList _ | VDict _ | VStr _ => true | _ => false end.

(** Every collected source is a dictionary, and the forecast of a
    forecasting answer without error has a length. *)
Definition plain_sources (collected_data : dict) : Prop :=
  ((forall k v, In k source_keys -> lookup collected_data k = Some v ->
      exists d, v = VDict d) /\
   (forall d, lookup collected_data "forecasting" = Some (VDict d) ->
      has_key d "error" = false ->
      sized (get_default d "forecast" (VList [])) = true))%type.

End BaseGenerator.

(* ===================================================================== *)
(** * utils/emoji_cleaner.py *)
(* ===================================================================== *)

Module EmojiCleaner.

(** A Python string: its code points. *)
Definition text : Type := list N.

Definition codes (s : string) : text := map N_of_ascii (list_ascii_of_string s).

Fixpoint prefixb (p s : text) : bool :=
  match p, s with
  | [], _ => true
  | a :: p', b :: s' => N.eqb a b && prefixb p' s'
  | _ :: _, [] => false
  end.

(** The scan of [str.replace] for a non-empty [old]: at each position,
    an occurrence of [old] is replaced and skipped, any other character
    is copied.  At most [fuel] positions are visited. *)
Fixpoint replace_loop (fuel : nat) (old new s : text) : text :=
  match fuel with
  | O => s
  | S fuel' =>
      match s with
      | [] => []
      | c :: s' =>
          if prefixb old s
          then (new ++ replace_loop fuel' old new (skipn (List.length old) s))%list
          else c :: replace_loop fuel' old new s'
      end
  end.

(** [s.replace(old, new)].  An empty [old] matches before every
    character and at the end. *)
Definition str_replace (old new s : text) : text :=
  match old with
  | [] => (new ++ flat_map (fun c => c :: new) s)%list
  | _ => replace_loop (List.length s) old new s
  end.

(** The dictionary [emoji_replacements], in the order it is written.
    The keys are the character sequences that the source file holds. *)
Definition emoji_replacements : list (text * text) :=
  [ ([0x11f; 0x178; 0x201d; 0xb4], codes "[HIGH RISK]");
    ([0x11f; 0x178; 0x178; 0xa1], codes "[MEDIUM RISK]");
    ([0x11f; 0x178; 0x178; 0xa2], codes "[LOW RISK]");
    ([0xe2; 0x153; 0x2026], codes "[OK]");
    ([0xe2; 0x152], codes "[FAIL]");
    ([0xe2; 0x161; 0xa0; 0xef; 0xb8], codes "[WARNING]");
    ([0x11f; 0x178; 0x161; 0xa8], codes "[ALERT]");
    ([0x11f; 0x178; 0x201c; 0x2c6], codes "[INCREASING]");
    ([0x11f; 0x178; 0x201c; 0x2030], codes "[DECREASING]");
    ([0x11f; 0x178; 0x201c; 0x160], codes "[DATA]");
    ([0x11f; 0x178; 0x201c; 0x2039], codes "[REPORT]");
    ([0x11f; 0x178; 0x201c; 0x201e], codes "[DOCUMENT]");
    ([0x11f; 0x178; 0x201d; 0xa7], codes "[MAINTENANCE]");
    ([0xe2; 0x161; 0x2122; 0xef; 0xb8], codes "[SETTINGS]");
    ([0x11f; 0x178; 0x2019; 0xa1], codes "[TIP]");
    ([0x11f; 0x178; 0xaf], codes "[TARGET]");
    ([0x11f; 0x178; 0xad], codes "[FACTORY]");
    ([0xe2; 0xb0], codes "[TIME]");
    ([0x11f; 0x178; 0x201d; 0x201e], codes "[PROCESS]");
    ([0x11f; 0x178; 0x201c; 0xa6], codes "[PACKAGE]");
    ([0xe2; 0xad], codes "[STAR]");
    ([0x11f; 0x178; 0x2019; 0xaf], codes "[100%]");
    ([0x11f; 0x178; 0x2030], codes "[SUCCESS]");
    ([0x11f; 0x178; 0x201d], codes "[SEARCH]") ]%N.

(** The loop [for emoji, replacement in emoji_replacements.items()]. *)
Definition apply_replacements (table : list (text * text)) (s : text) : text :=
  fold_left (fun t kr => str_replace (fst kr) (snd kr) t) table s.

Definition in_range (lo hi c : N) : bool := N.leb lo c && N.leb c hi.

(** The character class of [emoji_pattern], range by range. *)
Definition emoji_class (c : N) : bool :=
  (in_range 0x1F600 0x1F64F c || in_range 0x1F300 0x1F5FF c
   || in_range 0x1F680 0x1F6FF c || in_range 0x1F1E0 0x1F1FF c
   || in_range 0x2500 0x2BEF c || in_range 0x2702 0x27B0 c
   || in_range 0x2702 0x27B0 c || in_range 0x24C2 0x1F251 c
   || in_range 0x1F926 0x1F937 c || in_range 0x10000 0x10FFFF c
   || in_range 0x2640 0x2642 c || in_range 0x2600 0x2B55 c
   || N.eqb c 0x200D || N.eqb c 0x23CF || N.eqb c 0x23E9 || N.eqb c 0x231A
   || N.eqb c 0xFE0F || N.eqb c 0x3030)%N.

(** [emoji_pattern.sub('', s)]: every run of characters of the class is
    deleted. *)
Definition remove_emojis (s : text) : text := filter (fun c => negb (emoji_class c)) s.

Definition clean_emojis_from_text (s : text) : text :=
  match s with
  | [] => s
  | _ => remove_emojis (apply_replacements emoji_replacements s)
  end.

(** The values other than strings, lists and dictionaries. *)
Inductive atom : Type :=
| ANone
| ABool (b : bool)
| ANum (q : Q).

(** A report: nested dictionaries, lists and strings. *)
Inductive report_data : Type :=
| RStr (s : text)
| RList (items : list report_data)
| RDict (entries : list (string * report_data))
| ROther (a : atom).

Fixpoint clean_report_content (report : report_data) : report_data :=
  match report with
  | RDict entries =>
      RDict (map (fun kv =>
                    match kv with
                    | (key, val) =>
                        (key,
                         match val with
                         | RStr s => RStr (clean_emojis_from_text s)
                         | RDict _ | RList _ => clean_report_content val
                         | ROther a => ROther a
                         end)
                    end) entries)
  | RList items => RList (map clean_report_content items)
  | RStr s => RStr (clean_emojis_from_text s)
  | ROther a => ROther a
  end.

(** ** Vocabulary of the specification *)

(** The strings of a report. *)
Fixpoint strings_of (report : report_data) : list text :=
  match report with
  | RStr s => [s]
  | RList items => flat_map strings_of items
  | RDict entries => flat_map (fun kv => strings_of (snd kv)) entries
  | ROther _ => []
  end.

(** A character that occurs in a key of the replacement table. *)
Definition key_char (c : N) : bool :=
  existsb (fun kr => existsb (N.eqb c) (fst kr)) emoji_replacements.

(** [p] occurs in [s]. *)
Fixpoint occurs (p s : text) : bool :=
  match s with
  | [] => prefixb p []
  | _ :: s' => prefixb p s || occurs p s'
  end.

Definition disjoint (p q : text) : bool :=
  forallb (fun a => negb (existsb (N.eqb a) q)) p.

Definition nonempty (p : text) : bool :=
  match p with [] => false | _ => true end.

(** A table whose keys and replacements are not empty and share no
    character, none of them being in the deleted class. *)
Definition well_separated (table : list (text * text)) : bool :=
  forallb (fun kr =>
             nonempty (fst kr) && nonempty (snd kr)
             && forallb (fun c => negb (emoji_class c)) (fst kr)
             && forallb (fun c => negb (emoji_class c)) (snd kr)
             && forallb (fun kr' => disjoint (fst kr') (snd kr)) table) table.

(** A string in which a key of the table occurs. *)
Definition holds_key (s : text) : bool :=
  existsb (fun kr => occurs (fst kr) s) emoji_replacements.

(** The number of opening square brackets of a string. *)
Definition brackets (s : text) : nat := List.length (filter (N.eqb 0x5B) s).

(** Keys without a bracket, replacements with one. *)
Definition bracketing (table : list (text * text)) : bool :=
  forallb (fun kr =>
             nonempty (fst kr) && Nat.eqb (brackets (fst kr)) 0
             && Nat.leb 1 (brackets (snd kr))) table.

(** ** Sample reports *)

(** The two characters of the key of [FAIL], with a zero-width joiner
    between them. *)
Definition split_key : text := [0xe2; 0x200D; 0x152]%N.

Definition split_key_report : report_data :=
  RDict [("title", RStr (codes "Quality Control Report"));
         ("executive_summary", RStr split_key);
         ("recommendations", RList [RStr (codes "Keep monitoring")])].

(** The check mark, U+2705: the emoji whose UTF-8 bytes E2 9C 85, read
    one byte a character in a Windows code page, give the key of [OK]. *)
Definition check_mark : text := [0x2705]%N.

End EmojiCleaner.

(* ===================================================================== *)
(** * classification_collector.py: history and risk assessment *)
(* ===================================================================== *)

Module CollectorHistory.
Import Py PyNotations ClassificationCollector.

(** [l[start:]] for a start that may be negative: a negative start
    counts from the end and stops at the beginning of the list. *)
Definition slice_from {A : Type} (start : Z) (l : list A) : list A :=
  if (0 <=? start)%Z then skipn (Z.to_nat start) l
  else skipn (List.length l - Z.to_nat (- start)) l.

(** [get_historical_data(limit)] *)
Definition get_historical_data (c : collector) (limit : Z) : list value :=
  match recent_classifications c with
  | [] => []
  | _ => slice_from (- limit) (recent_classifications c)
  end.

Definition clear_history (c : collector) : collector :=
  {| api_base_url := api_base_url c; recent_classifications := [] |}.

(** One collection cycle after the other, oldest first; each cycle
    comes with its clock reading and the replies of the two endpoints. *)
Fixpoint collect_many (c : collector)
    (cycles : list (string * http_reply * http_reply)) : collector :=
  match cycles with
  | [] => c
  | (now, defect_reply, quality_reply) :: rest =>
      collect_many (snd (collect_data c now defect_reply quality_reply)) rest
  end.

(** [v > q] for a float constant [q]: only numbers compare with it. *)
Definition greater_than (v : value) (q : Q) : result bool :=
  match as_number v with
  | Some p => Ok (Qgtb p q)
  | None => Raise (type_error "'>' not supported between instances")
  end.

(** [v.lower()]: a method of strings.  The result is only compared with
    lower-case ASCII words, for which the ASCII conversion decides the
    same. *)
Definition lower_method (v : value) : result string :=
  match v with
  | VStr s => Ok (Gemini.lower s)
  | _ => Raise (attribute_error "object has no attribute 'lower'")
  end.

(** The dictionary returned by [get_risk_assessment]. *)
Inductive risk_assessment : Type :=
| no_data
| assessment (overall_risk_level : string) (risk_score : nat)
    (risk_factors : list string) (timestamp defect_probability quality_class : value)
| assessment_error (msg : string).

(** The block "Defect risk": the factor added, if any, and its score. *)
Definition defect_risk (defect_data : value) : result (list string * nat) :=
  api_status <- get_method defect_data "api_status" VNone ;;
  if eq_str api_status "success" then
    defect_prob <- get_method defect_data "defect_probability" (VNum 0) ;;
    critical <- greater_than defect_prob (7 # 10) ;;
    if critical then Ok (["Critical defect probability detected"], 40%nat)
    else
      high <- greater_than defect_prob (5 # 10) ;;
      if high then Ok (["High defect probability"], 25%nat)
      else
        moderate <- greater_than defect_prob (3 # 10) ;;
        if moderate then Ok (["Moderate defect risk"], 15%nat)
        else Ok ([], 0%nat)
  else Ok (["Defect prediction system unavailable"], 20%nat).

(** The block "Quality risk". *)
Definition quality_risk (quality_data : value) : result (list string * nat) :=
  api_status <- get_method quality_data "api_status" VNone ;;
  if eq_str api_status "success" then
    quality_class <- get_method quality_data "quality_class" (VStr "unknown") ;;
    lowered <- lower_method quality_class ;;
    if String.eqb lowered "low" || String.eqb lowered "poor"
    then Ok (["Poor quality classification"], 30%nat)
    else
      lowered' <- lower_method quality_class ;;
      if String.eqb lowered' "medium"
      then Ok (["Medium quality classification"], 15%nat)
      else Ok ([], 0%nat)
  else Ok (["Quality prediction system unavailable"], 15%nat).

Definition risk_level_for (overall_risk_score : nat) : string :=
  if Nat.leb 60 overall_risk_score then "critical"
  else if Nat.leb 40 overall_risk_score then "high"
  else if Nat.leb 20 overall_risk_score then "medium"
  else "low".

Definition get_risk_assessment (c : collector) : risk_assessment :=
  match recent_classifications c with
  | [] => no_data
  | first :: others =>
      let latest := List.last others first in
      let body :=
        defect_data <- get_method latest "defect_prediction" (VDict []) ;;
        quality_data <- get_method latest "quality_prediction" (VDict []) ;;
        d <- defect_risk defect_data ;;
        q <- quality_risk quality_data ;;
        let overall_risk_score := (snd d + snd q)%nat in
        ts <- get_method latest "timestamp" VNone ;;
        dp <- get_method defect_data "defect_probability" (VStr "N/A") ;;
        qc <- get_method quality_data "quality_class" (VStr "N/A") ;;
        Ok (assessment (risk_level_for overall_risk_score) overall_risk_score
              (fst d ++ fst q)%list ts dp qc) in
      match body with
      | Ok r => r
      | Raise e => assessment_error (exn_msg e)
      end
  end.

(** ** Vocabulary *)

(** An entry with ['api_status'] equal to ['success']. *)
Definition reports_success (entry : value) : bool :=
  match get_method entry "api_status" VNone with
  | Ok st => eq_str st "success"
  | Raise _ => false
  end.

(** The entry [k] of the latest record reports a successful call. *)
Definition latest_succeeded (c : collector) (k : string) : bool :=
  match recent_classifications c with
  | [] => false
  | first :: others =>
      match List.last others first with
      | VDict latest => reports_success (get_default latest k (VDict []))
      | _ => false
      end
  end.

Definition sample_cycles : list (string * http_reply * http_reply) :=
  [("2025-01-01T00:00:00", good_defect, timed_out);
   ("2025-01-01T00:05:00", http_500, bad_json)].

End CollectorHistory.

(* ===================================================================== *)
(** * knowledge_base/knowledge_manager.py: collection statistics *)
(* ===================================================================== *)

Module KnowledgeStats.
Import Py KnowledgeBase.

(** The entry of one collection in the dictionary returned by
    [get_collection_stats]. *)
Record collection_stat : Type := {
  document_count : nat;
  stat_status : string }.

(** The dictionary itself: [{'error': 'ChromaDB not available'}], or
    one entry per collection. *)
Inductive collection_stats : Type :=
| stats_unavailable
| stats (entries : list (string * collection_stat)).

(** [get_collection_stats]; [collection.count()] is the number of
    documents held. *)
Definition get_collection_stats (kb : manager) : collection_stats :=
  match client kb with
  | None => stats_unavailable
  | Some _ =>
      stats (map (fun nc => (fst nc, {| document_count := List.length (snd nc);
                                        stat_status := "available" |}))
                 (collections kb))
  end.

(** [stats[name]['document_count']], when the entry is there. *)
Fixpoint count_in (entries : list (string * collection_stat)) (name : string)
  : option nat :=
  match entries with
  | [] => None
  | (n, st) :: rest =>
      if String.eqb name n then Some (document_count st) else count_in rest name
  end.

Definition count_of (s : collection_stats) (name : string) : option nat :=
  match s with
  | stats_unavailable => None
  | stats entries => count_in entries name
  end.

(** The metadata that [add_documentation] starts from. *)
Definition default_metadata (now : clock) (doc_type : string) : metadata :=
  [("type", MStr doc_type); ("timestamp", MStr (isoformat now))].

(** How one collection may differ after the cleanup. *)
Definition spared (cutoff_timestamp : string)
    (before after : string * collection) : Prop :=
  fst after = fst before /\
  (forall d, In d (snd after) -> In d (snd before)) /\
  (forall d, In d (snd before) -> lexically_older cutoff_timestamp d = false ->
             In d (snd after)) /\
  (List.length (snd after) <= List.length (snd before))%nat.

End KnowledgeStats.

(* ===================================================================== *)
(** * report_generators: data collection and the wiring of the report *)
(* ===================================================================== *)

Module ReportPipeline.
Import Py PyNotations.

(** ** base_generator.py: [collect_current_data] *)

(** The list [data_sources], as source name and path under
    [api_base_url]. *)
Definition data_sources : list (string * string) :=
  [("forecasting", "/api/forecast");
   ("classification", "/api/defect");
   ("quality", "/api/quality");
   ("rl_actions", "/api/rl_action/baseline")].

(** The network as the generator sees it: an exception on opening the
    client session, if any, and the reply to a GET of each URL. *)
Record network : Type := {
  session_failure : option exn;
  get : string -> ClassificationCollector.http_reply }.

Definition error_dict (msg : string) : value := VDict [("error", VStr msg)].

(** One pass through the body of the loop: the value stored under
    [source_name]. *)
Definition collect_source (reply : ClassificationCollector.http_reply) : value :=
  match reply with
  | ClassificationCollector.TransportError e => error_dict (exn_msg e)
  | ClassificationCollector.Response status b =>
      if Nat.eqb status 200 then
        match b with
        | ClassificationCollector.Json data => data
        | ClassificationCollector.Malformed e => error_dict (exn_msg e)
        end
      else error_dict ("HTTP " ++ QualityReport.nat_to_string status)
  end.

Definition collect_current_data (api_base_url : string) (net : network)
  : result dict :=
  match session_failure net with
  | Some e => Raise e
  | None =>
      Ok (fold_left
            (fun collected_data src =>
               BaseGenerator.dict_set collected_data (fst src)
                 (collect_source (get net (api_base_url ++ snd src))))
            data_sources [])
  end.

(** ** quality_report.py: [_collect_comprehensive_data] *)

Definition initial_collected_data (now : string) : dict :=
  [("timestamp", VStr now);
   ("classification", VNone);
   ("forecasting", VNone);
   ("quality", VNone);
   ("rl_actions", VNone);
   ("collection_errors", VList [])].

(** [collected_data['collection_errors'].append(msg)] *)
Definition append_error (collected_data : dict) (msg : string) : dict :=
  match lookup collected_data "collection_errors" with
  | Some (VList errors) =>
      BaseGenerator.dict_set collected_data "collection_errors"
        (VList (errors ++ [VStr msg]))
  | _ => collected_data
  end.

(** [if key in api_data: collected_data[key] = api_data[key]
     else: collected_data['collection_errors'].append(msg)] *)
Definition map_source (api_data : dict) (key msg : string) (collected_data : dict)
  : dict :=
  if has_key api_data key
  then BaseGenerator.dict_set collected_data key (get_or_none api_data key)
  else append_error collected_data msg.

(** [now] is the clock at the start, [later] the clock in the handler. *)
Definition _collect_comprehensive_data (now later : string)
    (api_base_url : string) (net : network) : dict :=
  match collect_current_data api_base_url net with
  | Raise e => [("error", VStr (exn_msg e)); ("timestamp", VStr later)]
  | Ok api_data =>
      map_source api_data "rl_actions" "RL data not available"
        (map_source api_data "quality" "Quality data not available"
           (map_source api_data "forecasting" "Forecasting data not available"
              (map_source api_data "classification"
                 "Classification data not available"
                 (initial_collected_data now))))
  end.

(** ** quality_report.py: the data-source section and the appendix *)

Definition source_mapping : list (string * string) :=
  [("classification_data", "ML Classification Service");
   ("forecasting_data", "Time Series Forecasting Service");
   ("quality_data", "Quality Assessment Service");
   ("rl_data", "Reinforcement Learning Service")].

Definition _get_data_source_info (collected_data : dict) : list (string * string) :=
  map (fun km =>
         (snd km,
          if truthy (get_or_none collected_data (fst km))
          then "Available" else "Unavailable"))
      source_mapping.

Record data_summary : Type := {
  collection_timestamp : value;
  sources_attempted : nat;
  sources_successful : nat;
  data_points_collected : nat;
  errors_encountered : nat }.

(** The number added to ['data_points_collected'] for one source. *)
Definition data_points (data : value) : nat :=
  match data with
  | VDict d => List.length d
  | VList l => List.length l
  | _ => 0
  end.

Definition _create_data_summary (collected_data : dict) : result data_summary :=
  errors <- len (get_default collected_data "collection_errors" (VList [])) ;;
  let found :=
    filter (fun key => truthy (get_or_none collected_data key))
           (map fst source_mapping) in
  Ok {| collection_timestamp := get_or_none collected_data "timestamp";
        sources_attempted := 4;
        sources_successful := List.length found;
        data_points_collected :=
          list_sum (map (fun key => data_points (get_or_none collected_data key)) found);
        errors_encountered := errors |}.

(** ** quality_report.py: [_generate_llm_report] *)

(** [_parse_llm_content] ends every path, the failing one too, with a
    dictionary; it is kept as a function of the content. *)
Definition _generate_llm_report (c : Gemini.client)
    (_parse_llm_content : string -> value) (fx : Gemini.effects)
  : result value * Gemini.effects :=
  let run := Gemini.generate_comprehensive_report c "quality_control" false fx in
  (answer <- fst run ;;
   match answer with
   | None => Raise (attribute_error "'NoneType' object has no attribute 'get'")
   | Some r =>
       if String.eqb (Gemini.status r) "success"
       then Ok (_parse_llm_content (Gemini.content r))
       else Raise (Exn "Exception"
                     ("LLM generation failed: "
                        ++ match Gemini.error r with
                           | Some msg => msg
                           | None => "Unknown error"
                           end))
   end,
   snd run).

(** Step 3 of [generate_report] with the Gemini client wired in;
    [template] is what [_generate_enhanced_template_report] gives. *)
Definition report_content_with (c : Gemini.client)
    (_parse_llm_content : string -> value) (template : result value)
    (fx : Gemini.effects) : result value :=
  if Gemini.available c then
    try_except (fst (_generate_llm_report c _parse_llm_content fx))
      (fun _ => template)
  else template.

(** ** base_generator.py: [get_relevant_context] *)

(** [list.sort(key=lambda x: x.get('relevance_score', 0), reverse=True)]:
    the stable sort by decreasing key, written as an insertion from the
    right; an item goes before the items of the same score that
    followed it. *)
Fixpoint insert_by_relevance (x : KnowledgeBase.context_item)
    (l : list KnowledgeBase.context_item) : list KnowledgeBase.context_item :=
  match l with
  | [] => [x]
  | y :: l' =>
      if Qle_bool (KnowledgeBase.relevance_score y) (KnowledgeBase.relevance_score x)
      then x :: y :: l'
      else y :: insert_by_relevance x l'
  end.

Fixpoint sort_by_relevance (l : list KnowledgeBase.context_item)
  : list KnowledgeBase.context_item :=
  match l with
  | [] => []
  | x :: l' => insert_by_relevance x (sort_by_relevance l')
  end.

Definition get_relevant_context (kb : KnowledgeBase.manager) (query : string)
  : list KnowledgeBase.context_item :=
  let historical_context :=
    KnowledgeBase.search_relevant_context kb query "historical_data" 5 in
  let documentation_context :=
    KnowledgeBase.search_relevant_context kb query "documentation" 5 in
  sort_by_relevance (historical_context ++ documentation_context).

(** ** Vocabulary *)

(** The endpoint answered 200 with a JSON value. *)
Definition answered (reply : ClassificationCollector.http_reply) : option value :=
  match reply with
  | ClassificationCollector.Response status (ClassificationCollector.Json data) =>
      if Nat.eqb status 200 then Some data else None
  | _ => None
  end.

(** The reply counts for [_extract_real_metrics]: a 200 answer that is
    truthy and in which 'error' is not found. *)
Definition usable (reply : ClassificationCollector.http_reply) : bool :=
  match answered reply with
  | Some data =>
      truthy data && match contains "error" data with Ok false => true | _ => false end
  | None => false
  end.

Definition path_of (source_name : string) : string :=
  match lookup (map (fun src => (fst src, VStr (snd src))) data_sources) source_name with
  | Some (VStr p) => p
  | _ => ""
  end.

(** The number of configured sources with a usable reply. *)
Definition usable_sources (api_base_url : string) (net : network) : nat :=
  List.length
    (filter (fun k => usable (get net (api_base_url ++ path_of k)))
            QualityReport.configured_sources).

(** ** Sample networks *)

Definition ok_reply (data : value) : ClassificationCollector.http_reply :=
  ClassificationCollector.Response 200 (ClassificationCollector.Json data).

(** Every endpoint answers 200 with a small object. *)
Definition all_up : network :=
  {| session_failure := None;
     get := fun _ => ok_reply (VDict [("model_type", VStr "baseline")]) |}.

(** Every endpoint answers 503. *)
Definition all_down : network :=
  {| session_failure := None;
     get := fun _ => ClassificationCollector.Response 503
                       (ClassificationCollector.Json VNone) |}.

End ReportPipeline.

(* ===================================================================== *)
(** * llm_integration/gemini_client.py: [_extract_detailed_metrics] *)
(* ===================================================================== *)

Module GeminiMetrics.
Import Py PyNotations.

(** The dictionary [metrics].  ['sensor_summary'] keeps the numeric
    readings in iteration order ([None] stands for 'No sensor data
    available', the empty list for 'No valid sensor readings'); the
    [:.2f] around each of them is formatting only. *)
Record detailed_metrics : Type := {
  defect_probability : value;
  quality_class : value;
  risk_level : value;
  predicted_waste : value;
  predicted_production : value;
  forecast_horizon : value;
  sensor_summary : option (list (string * Q));
  data_sources : list string;
  data_quality_score : Q;
  extraction_error : option string }.

Definition default_metrics : detailed_metrics :=
  {| defect_probability := VStr "N/A";
     quality_class := VStr "Unknown";
     risk_level := VStr "Unknown";
     predicted_waste := VStr "N/A";
     predicted_production := VStr "N/A";
     forecast_horizon := VStr "N/A";
     sensor_summary := None;
     data_sources := [];
     data_quality_score := 0;
     extraction_error := None |}.

(** [isinstance(v, dict) and 'error' not in v]: the dictionary, when
    the test holds. *)
Definition dict_without_error (v : value) : option dict :=
  match v with
  | VDict d => if has_key d "error" then None else Some d
  | _ => None
  end.

(** The class derived from the defect probability. *)
Definition class_of_probability (p : Q) : string :=
  if Qltb p (5 # 100) then "Excellent"
  else if Qltb p (15 # 100) then "Good"
  else if Qltb p (3 # 10) then "Acceptable"
  else "Poor - Requires Attention".

Definition classification_block (collected_data : dict)
    (st : detailed_metrics * nat) : detailed_metrics * nat :=
  let '(m, successful_sources) := st in
  match lookup collected_data "classification" with
  | None => st
  | Some class_data =>
      match dict_without_error class_data with
      | None => st
      | Some d =>
          let dp := get_default d "defect_probability" (VStr "N/A") in
          ({| defect_probability := dp;
              quality_class :=
                match as_number dp with
                | Some p => VStr (class_of_probability p)
                | None => quality_class m
                end;
              risk_level := get_default d "risk_level" (VStr "Unknown");
              predicted_waste := predicted_waste m;
              predicted_production := predicted_production m;
              forecast_horizon := forecast_horizon m;
              sensor_summary := sensor_summary m;
              data_sources := data_sources m;
              data_quality_score := data_quality_score m;
              extraction_error := extraction_error m |},
           S successful_sources)
      end
  end.

(** [forecast_list[0]] for a truthy [forecast_list] whose length could
    be taken. *)
Definition first_item (forecast_list : value) : result value :=
  match forecast_list with
  | VList (x :: _) => Ok x
  | VStr (String c _) => Ok (VStr (String c EmptyString))
  | VDict _ => Raise (Exn "KeyError" "0")
  | _ => Raise (Exn "IndexError" "index out of range")
  end.

(** [first_forecast['sensors']], reached when ['sensors' in
    first_forecast] holds. *)
Definition sensors_of (first_forecast : value) : result value :=
  match first_forecast with
  | VDict d => Ok (get_or_none d "sensors")
  | _ => Raise (type_error "indices must be integers or slices, not str")
  end.

(** The loop over [sensors.items()]. *)
Definition numeric_readings (sensors : dict) : list (string * Q) :=
  flat_map (fun kv => match as_number (snd kv) with
                      | Some q => [(fst kv, q)]
                      | None => []
                      end) sensors.

Definition with_horizon (m : detailed_metrics) (h : value) : detailed_metrics :=
  {| defect_probability := defect_probability m;
     quality_class := quality_class m;
     risk_level := risk_level m;
     predicted_waste := predicted_waste m;
     predicted_production := predicted_production m;
     forecast_horizon := h;
     sensor_summary := sensor_summary m;
     data_sources := data_sources m;
     data_quality_score := data_quality_score m;
     extraction_error := extraction_error m |}.

Definition with_sensors (m : detailed_metrics) (waste produced : value)
    (readings : list (string * Q)) : detailed_metrics :=
  {| defect_probability := defect_probability m;
     quality_class := quality_class m;
     risk_level := risk_level m;
     predicted_waste := waste;
     predicted_production := produced;
     forecast_horizon := forecast_horizon m;
     sensor_summary := Some readings;
     data_sources := data_sources m;
     data_quality_score := data_quality_score m;
     extraction_error := extraction_error m |}.

(** The forecasting block is the one that can raise; the metrics come
    back as they stand at that point, with the exception. *)
Definition forecasting_block (collected_data : dict)
    (st : detailed_metrics * nat) : (detailed_metrics * nat) * option exn :=
  let '(m, successful_sources) := st in
  match lookup collected_data "forecasting" with
  | None => (st, None)
  | Some forecast_data =>
      match dict_without_error forecast_data with
      | None => (st, None)
      | Some d =>
          let m1 := with_horizon m (get_default d "forecast_horizon" (VStr "N/A")) in
          let forecast_list := get_default d "forecast" (VList []) in
          let body : result detailed_metrics :=
            if truthy forecast_list then
              n <- len forecast_list ;;
              if Nat.ltb 0 n then
                first_forecast <- first_item forecast_list ;;
                has_sensors <- contains "sensors" first_forecast ;;
                if has_sensors then
                  sensors <- sensors_of first_forecast ;;
                  waste <- get_method sensors "waste" (VStr "N/A") ;;
                  produced <- get_method sensors "produced" (VStr "N/A") ;;
                  match sensors with
                  | VDict s => Ok (with_sensors m1 waste produced (numeric_readings s))
                  | _ => Raise (attribute_error "object has no attribute 'items'")
                  end
                else Ok m1
              else Ok m1
            else Ok m1 in
          match body with
          | Ok m2 => ((m2, S successful_sources), None)
          | Raise e => ((m1, successful_sources), Some e)
          end
      end
  end.

Definition with_quality_class (m : detailed_metrics) (qc : value) : detailed_metrics :=
  {| defect_probability := defect_probability m;
     quality_class := qc;
     risk_level := risk_level m;
     predicted_waste := predicted_waste m;
     predicted_production := predicted_production m;
     forecast_horizon := forecast_horizon m;
     sensor_summary := sensor_summary m;
     data_sources := data_sources m;
     data_quality_score := data_quality_score m;
     extraction_error := extraction_error m |}.

Definition quality_block (collected_data : dict)
    (st : detailed_metrics * nat) : detailed_metrics * nat :=
  let '(m, successful_sources) := st in
  match lookup collected_data "quality" with
  | None => st
  | Some quality_data =>
      match dict_without_error quality_data with
      | None => st
      | Some d =>
          let qc := get_or_none d "quality_class" in
          ((if truthy qc && negb (eq_str qc "Unknown")
            then with_quality_class m qc else m),
           S successful_sources)
      end
  end.

Definition rl_block (collected_data : dict)
    (st : detailed_metrics * nat) : detailed_metrics * nat :=
  let '(m, successful_sources) := st in
  match lookup collected_data "rl_actions" with
  | None => st
  | Some rl_data =>
      match dict_without_error rl_data with
      | None => st
      | Some _ => (m, S successful_sources)
      end
  end.

Definition with_score (m : detailed_metrics) (score : Q) : detailed_metrics :=
  {| defect_probability := defect_probability m;
     quality_class := quality_class m;
     risk_level := risk_level m;
     predicted_waste := predicted_waste m;
     predicted_production := predicted_production m;
     forecast_horizon := forecast_horizon m;
     sensor_summary := sensor_summary m;
     data_sources := data_sources m;
     data_quality_score := score;
     extraction_error := extraction_error m |}.

Definition with_error (m : detailed_metrics) (msg : string) : detailed_metrics :=
  {| defect_probability := defect_probability m;
     quality_class := quality_class m;
     risk_level := risk_level m;
     predicted_waste := predicted_waste m;
     predicted_production := predicted_production m;
     forecast_horizon := forecast_horizon m;
     sensor_summary := sensor_summary m;
     data_sources := data_sources m;
     data_quality_score := data_quality_score m;
     extraction_error := Some msg |}.

Definition with_sources (m : detailed_metrics) (keys : list string) : detailed_metrics :=
  {| defect_probability := defect_probability m;
     quality_class := quality_class m;
     risk_level := risk_level m;
     predicted_waste := predicted_waste m;
     predicted_production := predicted_production m;
     forecast_horizon := forecast_horizon m;
     sensor_summary := sensor_summary m;
     data_sources := keys;
     data_quality_score := data_quality_score m;
     extraction_error := extraction_error m |}.

(** [(successful_sources / total_sources) * 100 if total_sources > 0
    else 0] *)
Definition quality_score (successful_sources total_sources : nat) : Q :=
  if Nat.ltb 0 total_sources
  then (inject_Z (Z.of_nat successful_sources)
          / inject_Z (Z.of_nat total_sources)) * 100
  else 0.

Definition _extract_detailed_metrics (collected_data : dict) : detailed_metrics :=
  match collected_data with
  | [] => default_metrics
  | _ =>
      let m0 := with_sources default_metrics (map fst collected_data) in
      let st1 := classification_block collected_data (m0, 0%nat) in
      match forecasting_block collected_data st1 with
      | ((m2, _), Some e) => with_error m2 (exn_msg e)
      | (st2, None) =>
          let st3 := quality_block collected_data st2 in
          let '(m4, successful_sources) := rl_block collected_data st3 in
          with_score m4 (quality_score successful_sources (List.length collected_data))
      end
  end.

(** ** Vocabulary *)

Definition source_names : list string :=
  ["classification"; "forecasting"; "quality"; "rl_actions"].

(** The source is there as a dictionary without an 'error' key. *)
Definition clean_source (collected_data : dict) (k : string) : bool :=
  match lookup collected_data k with
  | Some v => match dict_without_error v with Some _ => true | None => false end
  | None => false
  end.

Definition clean_sources (collected_data : dict) : nat :=
  List.length (filter (clean_source collected_data) source_names).

(** A forecast endpoint that answers a number where the list of
    forecasts is expected. *)
Definition odd_forecast : dict :=
  [("classification", VDict [("defect_probability", VNum (2 # 100))]);
   ("forecasting", VDict [("forecast_horizon", VNum 30); ("forecast", VNum 7)]);
   ("quality", VDict [("quality_class", VStr "High")])].

End GeminiMetrics.

(* ===================================================================== *)
(** * data_collectors/forecasting_collector.py: [validate_forecast_data] *)
(* ===================================================================== *)

Module ForecastingCollector.
Import Py PyNotations.







(** ** Vocabulary *)



End ForecastingCollector.

(* ===================================================================== *)
(** * knowledge_base/knowledge_manager.py: [_format_data_as_text] *)
(* ===================================================================== *)

Module KnowledgeText.
Import Py PyNotations.

(** [sep.join(l)] *)
Fixpoint join (sep : string) (l : list string) : string :=
  match l with
  | [] => ""
  | [x] => x
  | x :: rest => x ++ sep ++ join sep rest
  end.

(** The [try] block fills [text_parts] step by step; a step that raises
    leaves the parts appended so far. *)
Definition filling (A : Type) : Type := list string -> list string * result A.

Definition ret {A : Type} (a : A) : filling A := fun parts => (parts, Ok a).

Definition then_ {A B : Type} (c : filling A) (k : A -> filling B) : filling B :=
  fun parts =>
    match c parts with
    | (parts', Ok a) => k a parts'
    | (parts', Raise e) => (parts', Raise e)
    end.

(** [text_parts.append(part)] *)
Definition append (part : string) : filling unit :=
  fun parts => ((parts ++ [part])%list, Ok tt).

Definition lift {A : Type} (c : result A) : filling A := fun parts => (parts, c).

Section Rendering.

(** The renderings this code relies on: [str(v)], which is also what
    [f"{v}"] writes, and [f"{x:.3f}"] for a number [x]. *)
Variable str_of : value -> string.
Variable fixed3 : Q -> string.

(** [f"{v:.3f}"]: the format code is refused for anything but a
    number. *)
Definition format3 (v : value) : result string :=
  match as_number v with
  | Some q => Ok (fixed3 q)
  | None =>
      match v with
      | VStr _ => Raise (value_error "Unknown format code 'f' for object of type 'str'")
      | _ => Raise (type_error "unsupported format string passed to __format__")
      end
  end.

(** [[f"{k}: {v}" for k, v in d.items() if isinstance(v, (int, float))]] *)
Definition numeric_entries (d : dict) : list string :=
  flat_map (fun kv => match as_number (snd kv) with
                      | Some _ => [fst kv ++ ": " ++ str_of (snd kv)]
                      | None => []
                      end) d.

(** [v.items()] *)
Definition items (v : value) : result dict :=
  match v with
  | VDict d => Ok d
  | _ => Raise (attribute_error "object has no attribute 'items'")
  end.

(** [v[:3]] as the list the loop runs over. *)
Definition first_three (v : value) : result (list value) :=
  match v with
  | VList l => Ok (firstn 3 l)
  | VStr s =>
      Ok (map (fun c => VStr (String c EmptyString)) (firstn 3 (list_ascii_of_string s)))
  | VDict _ => Raise (type_error "unhashable type: 'slice'")
  | _ => Raise (type_error "object is not subscriptable")
  end.

(** The loop [for i, forecast in enumerate(forecast_data[:3])]. *)
Fixpoint forecast_points (i : nat) (forecasts : list value) : filling unit :=
  match forecasts with
  | [] => ret tt
  | forecast :: rest =>
      then_
        (match forecast with
         | VDict fd =>
             let sensors := get_default fd "sensors" (VDict []) in
             if truthy sensors then
               then_ (lift (items sensors)) (fun sd =>
                 append ("Forecast point " ++ QualityReport.nat_to_string (i + 1)
                           ++ ": " ++ join ", " (numeric_entries sd)))
             else ret tt
         | _ => ret tt
         end)
        (fun _ => forecast_points (S i) rest)
  end.

Definition forecast_text (data : dict) : filling unit :=
  if has_key data "forecast_data" then
    then_ (append ("Forecast horizon: "
                     ++ str_of (get_default data "forecast_horizon" (VNum 0))
                     ++ " minutes"))
      (fun _ =>
         let forecast_data := get_default data "forecast_data" (VList []) in
         if truthy forecast_data then
           then_ (lift (first_three forecast_data)) (forecast_points 0)
         else ret tt)
  else ret tt.

Definition defect_text (data : dict) : filling unit :=
  if has_key data "defect_prediction" then
    let defect := get_or_none data "defect_prediction" in
    then_ (lift (get_method defect "api_status" VNone)) (fun api_status =>
      if eq_str api_status "success" then
        then_ (lift (get_method defect "defect_probability" (VNum 0))) (fun prob =>
        then_ (lift (get_method defect "risk_level" (VStr "Unknown"))) (fun risk =>
        then_ (lift (get_method defect "confidence" (VNum 0))) (fun conf =>
        then_ (lift (format3 prob)) (fun prob_text =>
        then_ (lift (format3 conf)) (fun conf_text =>
          append ("Defect probability: " ++ prob_text ++ ", Risk level: "
                    ++ str_of risk ++ ", Confidence: " ++ conf_text))))))
      else ret tt)
  else ret tt.

Definition quality_text (data : dict) : filling unit :=
  if has_key data "quality_prediction" then
    let quality := get_or_none data "quality_prediction" in
    then_ (lift (get_method quality "api_status" VNone)) (fun api_status =>
      if eq_str api_status "success" then
        then_ (lift (get_method quality "quality_class" (VStr "Unknown"))) (fun quality_class =>
        then_ (lift (get_method quality "confidence" (VNum 0))) (fun conf =>
        then_ (lift (format3 conf)) (fun conf_text =>
          append ("Quality class: " ++ str_of quality_class
                    ++ ", Confidence: " ++ conf_text))))
      else ret tt)
  else ret tt.

(** The model keys with [model_key.replace('_model', '')]. *)
Definition model_keys : list (string * string) :=
  [("baseline_model", "baseline"); ("current_model", "current"); ("new_model", "new")].

Fixpoint models_text (data : dict) (keys : list (string * string)) : filling unit :=
  match keys with
  | [] => ret tt
  | (model_key, short) :: rest =>
      then_
        (if has_key data model_key then
           let rl_data := get_or_none data model_key in
           then_ (lift (get_method rl_data "api_status" VNone)) (fun api_status =>
             if eq_str api_status "success" then
               then_ (lift (get_method rl_data "recommended_actions" (VDict []))) (fun actions =>
               then_ (lift (get_method rl_data "model_type" (VStr short))) (fun model_type =>
               then_ (lift (items actions)) (fun action_items =>
                 match numeric_entries action_items with
                 | [] => ret tt
                 | action_text =>
                     append (str_of model_type ++ " model actions: "
                               ++ join ", " action_text)
                 end)))
             else ret tt)
         else ret tt)
        (fun _ => models_text data rest)
  end.

Definition timestamp_text (data : dict) : filling unit :=
  let timestamp := get_or_none data "collection_timestamp" in
  if truthy timestamp then append ("Collected at: " ++ str_of timestamp) else ret tt.

(** [[f"{key}: {value['api_status']}" for key, value in data.items()
      if isinstance(value, dict) and 'api_status' in value]] *)
Definition api_statuses (data : dict) : list string :=
  flat_map (fun kv => match snd kv with
                      | VDict vd =>
                          if has_key vd "api_status"
                          then [fst kv ++ ": " ++ str_of (get_or_none vd "api_status")]
                          else []
                      | _ => []
                      end) data.

Definition status_text (data : dict) : filling unit :=
  match api_statuses data with
  | [] => ret tt
  | statuses => append ("API status: " ++ join ", " statuses)
  end.

(** The parts before the API status line. *)
Definition leading_text (data : dict) : filling unit :=
  then_ (forecast_text data) (fun _ =>
  then_ (defect_text data) (fun _ =>
  then_ (quality_text data) (fun _ =>
  then_ (models_text data model_keys) (fun _ =>
  timestamp_text data)))).

Definition text_parts_of (data : dict) : list string :=
  match then_ (leading_text data) (fun _ => status_text data) [] with
  | (parts, Ok _) => parts
  | (parts, Raise _) =>
      (parts ++ [("Data: " ++ String.substring 0 500 (str_of (VDict data)))%string])%list
  end.

Definition _format_data_as_text (data : dict) : string :=
  join " | " (text_parts_of data).

End Rendering.

(** A rendering for the examples: strings as they are, the rest as a
    fixed mark. *)
Definition sample_str (v : value) : string :=
  match v with VStr s => s | _ => "?" end.
Definition sample_fixed3 (q : Q) : string := "0.000".

(** A manager that formats records with [_format_data_as_text]. *)
Definition manager_with_text (str_of : value -> string) (fixed3 : Q -> string)
    (kb : KnowledgeBase.manager) : KnowledgeBase.manager :=
  {| KnowledgeBase.embedding_model := KnowledgeBase.embedding_model kb;
     KnowledgeBase.client := KnowledgeBase.client kb;
     KnowledgeBase.collections := KnowledgeBase.collections kb;
     KnowledgeBase.index_query := KnowledgeBase.index_query kb;
     KnowledgeBase._format_data_as_text := _format_data_as_text str_of fixed3;
     KnowledgeBase.repr_length := KnowledgeBase.repr_length kb |}.

End KnowledgeText.

(* ===================================================================== *)
(** * data_collectors/classification_collector.py: the trend block in
      Python's arithmetic *)
(* ===================================================================== *)

Module DefectTrend.
Import Py PyNotations.
Import Stdlib.Floats.PrimFloat Stdlib.Floats.SpecFloat Stdlib.Floats.FloatOps.
#[local] Set Warnings "-inexact-float".

(** A number as [defect_probs] holds it: an [int] of any size (a [bool]
    passes the [isinstance] test too and counts as the int 0 or 1), or a
    [float], which is a binary64 value. *)
Inductive number : Type :=
| PInt (z : Z)
| PFloat (f : float).

Definition overflow_error (msg : string) : exn := Exn "OverflowError" msg.
Definition zero_division_error (msg : string) : exn := Exn "ZeroDivisionError" msg.

(** [float(z)]: the nearest binary64 value, ties to even, and
    [OverflowError] beyond the range. *)
Definition float_of_int (z : Z) : result float :=
  let f := SF2Prim (binary_normalize prec emax z 0 false) in
  if is_infinity f
  then Raise (overflow_error "int too large to convert to float")
  else Ok f.

(** [a / b] on two ints: the quotient of the integers, rounded once. *)
Definition int_truediv (a b : Z) : result float :=
  if (b =? 0)%Z then Raise (zero_division_error "division by zero")
  else if (a =? 0)%Z then Ok (if (b <? 0)%Z then opp zero else zero)
  else
    let sign := xorb (a <? 0)%Z (b <? 0)%Z in
    let '(q, e, loc) := SFdiv_core_binary prec emax (Z.abs a) 0 (Z.abs b) 0 in
    let f := SF2Prim (binary_round_aux prec emax sign q e loc) in
    if is_infinity f
    then Raise (overflow_error "integer division result too large for a float")
    else Ok f.

(** [x / n] for an int [n]. *)
Definition truediv (x : number) (n : Z) : result float :=
  match x with
  | PInt a => int_truediv a n
  | PFloat f =>
      d <- float_of_int n ;;
      if is_zero d then Raise (zero_division_error "float division by zero")
      else Ok (div f d)
  end.

(** [x + y] *)
Definition plus (x y : number) : result number :=
  match x, y with
  | PInt a, PInt b => Ok (PInt (a + b))
  | PInt a, PFloat g => f <- float_of_int a ;; Ok (PFloat (add f g))
  | PFloat f, PInt b => g <- float_of_int b ;; Ok (PFloat (add f g))
  | PFloat f, PFloat g => Ok (PFloat (add f g))
  end.

(** The built-in [sum] as the sum from left to right that starts at the
    int 0.  (Since Python 3.12 the built-in compensates the rounding
    errors of a sum of floats; the trend block below takes the built-in
    as a parameter, and what is proved of it holds for either.) *)
Definition plain_sum (l : list number) : result number :=
  fold_left (fun acc x => total <- acc ;; plus total x) l (Ok (PInt 0)).

(** [l[-3:]] and [l[:3]] *)
Definition last_three (l : list number) : list number :=
  skipn (List.length l - 3) l.
Definition first_three (l : list number) : list number := firstn 3 l.

Section TrendBlock.

(** The built-in [sum] of the interpreter at hand. *)
Variable builtin_sum : list number -> result number.

(** The block "Determine trend".  An exception raised in it leaves the
    [try] block of [_analyze_defect_predictions]: the analysis then has
    the status 'error' and no trend. *)
Definition trend_of (defect_probs : list number) : result string :=
  if Nat.leb 2 (List.length defect_probs) then
    let n := Z.of_nat (Nat.min 3 (List.length defect_probs)) in
    recent_sum <- builtin_sum (last_three defect_probs) ;;
    recent_avg <- truediv recent_sum n ;;
    earlier_sum <- builtin_sum (first_three defect_probs) ;;
    earlier_avg <- truediv earlier_sum n ;;
    Ok (if ltb (mul earlier_avg 1.1) recent_avg then "increasing"
        else if ltb recent_avg (mul earlier_avg 0.9) then "decreasing"
        else "stable")
  else Ok "insufficient_data".

(** ** Vocabulary of the specification *)

(** The average of a list, as Python computes [sum(l) / len(l)]. *)
Definition average (l : list number) : result float :=
  total <- builtin_sum l ;;
  truediv total (Z.of_nat (List.length l)).

End TrendBlock.

(** [a] exceeds [factor] times [b], and [a] is below [factor] times
    [b], the product and the comparison being those of binary64. *)
Definition exceeds (a : float) (factor b : float) : Prop :=
  ltb (mul b factor) a = true.
Definition is_below (a : float) (factor b : float) : Prop :=
  ltb a (mul b factor) = true.

(** ** Sample lists *)

Definition rising : list number :=
  [PFloat 0.1; PFloat 0.2; PFloat 0.3; PFloat 0.5].

(** Two equal negative numbers. *)
Definition negative_pair : list number := [PFloat (-1); PFloat (-1)].

(** Three values 0.1 followed by three values 0.09, as the JSON
    decimals reach Python. *)
Definition tenth_less : list number :=
  [PFloat 0.1; PFloat 0.1; PFloat 0.1; PFloat 0.09; PFloat 0.09; PFloat 0.09].

End DefectTrend.

(* ===================================================================== *)
(** * Properties *)
(* ===================================================================== *)

Module PyFacts.
Import Py.

Lemma Qltb_lt (a b : Q) : Qltb a b = true <-> a < b.
Proof.
  unfold Qltb. rewrite negb_true_iff.
  split.
  - intros H. apply Qnot_le_lt. intros Hle.
    apply Qle_bool_iff in Hle. congruence.
  - intros H. destruct (Qle_bool b a) eqn:E; [|reflexivity].
    apply Qle_bool_iff in E. exfalso. exact (Qlt_not_le _ _ H E).
Qed.

Lemma Qltb_ge (a b : Q) : Qltb a b = false <-> b <= a.
Proof.
  unfold Qltb. rewrite negb_false_iff. apply Qle_bool_iff.
Qed.

Lemma bind_ok {A B : Type} (c : result A) (k : A -> result B) (b : B) :
  bind c k = Ok b -> exists a, c = Ok a /\ k a = Ok b.
Proof.
  destruct c as [a|e]; simpl; intros H; [eauto | discriminate].
Qed.

End PyFacts.

(* ===================================================================== *)
(** * Metric extraction: success rate and system health *)
(* ===================================================================== *)

Module QualityReportFacts.
Import Py PyNotations QualityReport.

Lemma source_guard_ok cd k g :
  source_guard cd k = Ok g -> g = source_successful cd k.
Proof.
  unfold source_guard, source_successful.
  destruct (truthy (get_or_none cd k)); simpl.
  - destruct (contains "error" (get_or_none cd k)) as [[|]|e]; simpl;
      intros H; now inversion H.
  - intros H; now inversion H.
Qed.

Ltac step_counter guard_lemma :=
  match goal with
  | H : bind (source_guard ?cd ?k) _ = Ok _ |- _ =>
      let g := fresh "g" in
      let Hg := fresh "Hg" in
      destruct (source_guard cd k) as [g|] eqn:Hg; simpl in H; [|discriminate];
      apply guard_lemma in Hg; unfold bump; rewrite <- Hg;
      destruct g; cbv iota in H
  end.

Lemma process_classification_counter cd m n m' n' :
  process_classification cd (m, n) = Ok (m', n') ->
  n' = bump cd "classification" n.
Proof.
  unfold process_classification. intros H.
  step_counter source_guard_ok; [|congruence].
  destruct (get_or_none cd "classification"); try congruence.
  destruct (as_number _); simpl in H; congruence.
Qed.

Lemma process_quality_counter cd m n m' n' :
  process_quality cd (m, n) = Ok (m', n') ->
  n' = bump cd "quality" n.
Proof.
  unfold process_quality. intros H.
  step_counter source_guard_ok; [|congruence].
  destruct (get_or_none cd "quality"); congruence.
Qed.

Lemma process_forecasting_counter cd m n m' n' :
  process_forecasting cd (m, n) = Ok (m', n') ->
  n' = bump cd "forecasting" n.
Proof.
  unfold process_forecasting. intros H.
  step_counter source_guard_ok; [|congruence].
  destruct (get_or_none cd "forecasting"); try congruence.
  destruct (if truthy _ then _ else _); simpl in H; [|discriminate].
  destruct (len _); simpl in H; congruence.
Qed.

Lemma process_rl_counter cd m n m' n' :
  process_rl cd (m, n) = Ok (m', n') ->
  n' = bump cd "rl_actions" n.
Proof.
  unfold process_rl. intros H.
  step_counter source_guard_ok; [|congruence].
  destruct (get_or_none cd "rl_actions"); try congruence.
  destruct (action_description _); simpl in H; congruence.
Qed.

Lemma successes_unfold cd :
  successes cd =
  bump cd "rl_actions" (bump cd "forecasting"
    (bump cd "quality" (bump cd "classification" 0%nat))).
Proof.
  unfold successes, configured_sources, bump. simpl.
  destruct (source_successful cd "classification"),
           (source_successful cd "quality"),
           (source_successful cd "forecasting"),
           (source_successful cd "rl_actions"); reflexivity.
Qed.

Lemma successes_le_4 cd : (successes cd <= 4)%nat.
Proof.
  unfold successes.
  etransitivity; [apply filter_length_le | simpl; lia].
Qed.

(** What the [try] block returns when nothing raises. *)
Lemma extract_body_ok cd m :
  extract_real_metrics_body cd = Ok m ->
  exists E,
    recorded_errors cd = Some E /\
    collection_success_rate m = success_rate (successes cd) 4 /\
    status_of m = Some (health_status (successes cd) 4 E) /\
    option_map collection_errors (system_health m) = Some E /\
    option_map successful_sources (system_health m) = Some (Some (successes cd)).
Proof.
  unfold extract_real_metrics_body. intros H.
  apply PyFacts.bind_ok in H as ([m1 n1] & H1 & H).
  apply PyFacts.bind_ok in H as ([m2 n2] & H2 & H).
  apply PyFacts.bind_ok in H as ([m3 n3] & H3 & H).
  apply PyFacts.bind_ok in H as ([m4 n4] & H4 & H).
  apply process_classification_counter in H1.
  apply process_quality_counter in H2.
  apply process_forecasting_counter in H3.
  apply process_rl_counter in H4.
  assert (Hn : n4 = successes cd) by (rewrite successes_unfold; congruence).
  unfold recorded_errors.
  apply PyFacts.bind_ok in H as (E & HE & H). rewrite HE.
  exists E. injection H as <-. unfold status_of. simpl. rewrite Hn.
  repeat split; reflexivity.
Qed.

Lemma health_status_table K E :
  (K <= 4)%nat -> health_status K 4 E = status_table K E.
Proof.
  intros HK. unfold health_status, status_table.
  destruct K as [|[|[|[|[|K]]]]]; try lia; destruct E as [|[|E]]; reflexivity.
Qed.

(** C1 (as amended).  For every collected data on which the extraction
    runs to its end without raising, with [K] the number of the four
    configured sources whose entry is non-empty and carries no 'error'
    key and [E] the number of recorded collection errors: the success
    rate is exactly [K/4*100], and the overall status is 'healthy' when
    K=4 and E=0, 'healthy' when K>=3 and E<=1, 'degraded' when K>=3 and
    E>1, 'degraded' when K=2, and 'critical' when K<=1.  When a step of
    the extraction raises, the handler answers with the rate 0 and the
    status 'critical'. *)
Theorem extract_real_metrics_rate_and_health (now : string) (cd : dict) :
  let m := _extract_real_metrics now cd in
  let K := successes cd in
  (raises (extract_real_metrics_body cd) = false ->
   exists E : nat,
     recorded_errors cd = Some E /\
     collection_success_rate m == (Z.of_nat K # 4) * 100 /\
     (K = 4%nat /\ E = 0%nat -> status_of m = Some "healthy") /\
     ((3 <= K)%nat /\ (E <= 1)%nat -> status_of m = Some "healthy") /\
     ((3 <= K)%nat /\ (1 < E)%nat -> status_of m = Some "degraded") /\
     (K = 2%nat -> status_of m = Some "degraded") /\
     ((K <= 1)%nat -> status_of m = Some "critical")) /\
  (raises (extract_real_metrics_body cd) = true ->
   collection_success_rate m == 0 /\ status_of m = Some "critical").
Proof.
  intros m K. subst m K. unfold _extract_real_metrics.
  destruct (extract_real_metrics_body cd) as [m|e] eqn:Hbody;
    (split; [| intros Hraise]); try discriminate; try (intros Hok);
    try discriminate; [| split; reflexivity].
  destruct (extract_body_ok _ _ Hbody) as (E & HE & Hrate & Hstatus & _).
  exists E. split; [exact HE|]. split.
  - rewrite Hrate. unfold success_rate. unfold Qeq, Qdiv, Qmult, Qinv; simpl. lia.
  - rewrite Hstatus, (health_status_table _ E (successes_le_4 cd)).
    pose proof (successes_le_4 cd) as HK.
    generalize dependent (successes cd). intros K _ _ HK.
    destruct K as [|[|[|[|[|K]]]]]; try lia;
      destruct E as [|[|E]]; unfold status_table; simpl;
      repeat split; intros H; try reflexivity; exfalso; lia.
Qed.

(** Witness: four healthy sources and no recorded error. *)
Lemma extract_real_metrics_rate_and_health_witness :
  raises (extract_real_metrics_body all_sources_up) = false /\
  exists E : nat,
    recorded_errors all_sources_up = Some E /\
    collection_success_rate (_extract_real_metrics "t" all_sources_up)
      == (Z.of_nat (successes all_sources_up) # 4) * 100 /\
    (successes all_sources_up = 4%nat /\ E = 0%nat ->
       status_of (_extract_real_metrics "t" all_sources_up) = Some "healthy").
Proof.
  split; [reflexivity|].
  destruct (proj1 (extract_real_metrics_rate_and_health "t" all_sources_up) eq_refl)
    as (E & HE & Hr & H1 & _).
  exists E. repeat split; assumption.
Defined.

(** C1 as stated fails.  (a) An endpoint that answers with the empty
    object is present and carries no 'error' key, yet it is not counted:
    the rate is 75, not 100.  (b) With four sources present and free of
    errors, a null forecast list makes the extraction raise; the handler
    answers with rate 0 and status 'critical'. *)
Lemma extract_real_metrics_counterexample :
  (present_sources empty_classification = 4%nat /\
   recorded_errors empty_classification = Some 0%nat /\
   collection_success_rate (_extract_real_metrics "t" empty_classification) == 75 /\
   ~ collection_success_rate (_extract_real_metrics "t" empty_classification)
       == (4 # 4) * 100) /\
  (present_sources null_forecast = 4%nat /\
   successes null_forecast = 4%nat /\
   recorded_errors null_forecast = Some 0%nat /\
   collection_success_rate (_extract_real_metrics "t" null_forecast) == 0 /\
   status_of (_extract_real_metrics "t" null_forecast) = Some "critical" /\
   ~ collection_success_rate (_extract_real_metrics "t" null_forecast)
       == (4 # 4) * 100 /\
   status_of (_extract_real_metrics "t" null_forecast) <> Some "healthy").
Proof.
  repeat split; try reflexivity; try discriminate.
Qed.

(** ** [generate_report]: the outer handler *)

Lemma content_failure_raises p m cd query e :
  content_failure p m cd query e -> report_content_of p m cd query = Raise e.
Proof.
  unfold report_content_of.
  intros [H | H1 H2 | e0 H1 H2 H3].
  - now rewrite H.
  - now rewrite H1.
  - rewrite H1. simpl. now rewrite H2.
Qed.

Lemma content_raises_failure p m cd query e :
  report_content_of p m cd query = Raise e -> content_failure p m cd query e.
Proof.
  unfold report_content_of.
  destruct (llm_client_available p) as [[|]|e'] eqn:Ha; simpl.
  - destruct (_generate_llm_report p m cd query) as [c|e0] eqn:Hl; simpl;
      [discriminate|].
    intros Ht. eapply template_raises_after_llm; eauto.
  - intros Ht. now apply template_raises_without_llm.
  - intros [= ->]. now apply availability_raises.
Qed.

(** A failing model call alone never makes step 3 raise. *)
Lemma llm_failure_absorbed p m cd query e0 content :
  llm_client_available p = Ok true ->
  _generate_llm_report p m cd query = Raise e0 ->
  _generate_enhanced_template_report p m cd = Ok content ->
  report_content_of p m cd query = Ok content.
Proof.
  intros Ha Hl Ht. unfold report_content_of. rewrite Ha. simpl.
  now rewrite Hl.
Qed.

Lemma assembly_failure_raises p now cd m content e :
  assembly_failure p now cd m content e ->
  (full_report_content <- _build_comprehensive_report_content p content m ;;
   sources <- _get_data_source_info p cd ;;
   sec <- read_sections content ;;
   raw <- _create_data_summary p cd ;;
   fresh <- _assess_data_freshness p cd ;;
   clean_report_content p
     (report_literal now m sources full_report_content sec raw fresh)) = Raise e.
Proof.
  intros H; destruct H;
    repeat match goal with
           | H : _ = _ |- _ => rewrite H; clear H; simpl
           end; reflexivity.
Qed.

Lemma unhandled_reaches_handler p now query e :
  unhandled p now query e -> generate_report_body p now query = Raise e.
Proof.
  unfold generate_report_body.
  intros [H | cd H1 H2 | cd content H1 H2 H3].
  - now rewrite H.
  - rewrite H1. simpl. now rewrite (content_failure_raises _ _ _ _ _ H2).
  - rewrite H1. simpl. rewrite H2. simpl.
    now apply assembly_failure_raises.
Qed.

(** Conversely, nothing else reaches the outer handler. *)
Lemma handler_reached_by_unhandled p now query e :
  generate_report_body p now query = Raise e -> unhandled p now query e.
Proof.
  unfold generate_report_body.
  destruct (_collect_comprehensive_data p) as [cd|e1] eqn:Hc; simpl;
    [| intros [= ->]; now apply in_collection].
  destruct (report_content_of p _ cd query) as [content|e2] eqn:Hrc; simpl;
    [| intros [= ->]; eapply in_content; eauto using content_raises_failure].
  intros H. eapply in_assembly; eauto.
  destruct (_build_comprehensive_report_content p content _) as [full|] eqn:H1;
    simpl in H; [| injection H as ->; now apply build_raises].
  destruct (_get_data_source_info p cd) as [src|] eqn:H2;
    simpl in H; [| injection H as ->; eapply source_info_raises; eauto].
  destruct (read_sections content) as [sec|] eqn:H3;
    simpl in H; [| injection H as ->; eapply content_not_a_dict; eauto].
  destruct (_create_data_summary p cd) as [raw|] eqn:H4;
    simpl in H; [| injection H as ->; eapply data_summary_raises; eauto].
  destruct (_assess_data_freshness p cd) as [fresh|] eqn:H5;
    simpl in H; [| injection H as ->; eapply data_freshness_raises; eauto].
  eapply cleaning_raises; eauto.
Qed.

(** C2 (as amended).  For every query and context and whatever the
    steps of the pipeline do, [generate_report] never lets an exception
    escape.  An exception of the language-model call is absorbed by the
    inner handler, which falls back to the template; an exception raised
    by any other step is caught by the outer handler and the caller
    receives the emergency report: the fixed emergency narrative, the
    captured message, and a status marked as error. *)
Theorem generate_report_never_raises (p : pipeline) (now : clock)
    (query : string) (additional_context : value) :
  (exists r, generate_report p now query additional_context = Ok r) /\
  (forall e, unhandled p now query e ->
     generate_report p now query additional_context
       = Ok (Emergency (_generate_emergency_report now (exn_msg e))) /\
     e_status (_generate_emergency_report now (exn_msg e)) = "error" /\
     e_error_message (_generate_emergency_report now (exn_msg e)) = exn_msg e /\
     e_title (_generate_emergency_report now (exn_msg e))
       = "Emergency Quality Control Report") /\
  (forall m cd e0 content,
     llm_client_available p = Ok true ->
     _generate_llm_report p m cd query = Raise e0 ->
     _generate_enhanced_template_report p m cd = Ok content ->
     report_content_of p m cd query = Ok content).
Proof.
  split; [| split].
  - unfold generate_report.
    destruct (generate_report_body p now query) as [r|e]; simpl; eauto.
  - intros e H. apply unhandled_reaches_handler in H.
    unfold generate_report. rewrite H. simpl. repeat split.
  - intros m cd e0 content. apply llm_failure_absorbed.
Qed.

(** Witness: the data-summary helper raises a [KeyError]. *)
Lemma generate_report_never_raises_witness :
  unhandled summary_failing_pipeline sample_clock "" (Exn "KeyError" "'timestamp'") /\
  generate_report summary_failing_pipeline sample_clock "" VNone
    = Ok (Emergency (_generate_emergency_report sample_clock "'timestamp'")).
Proof.
  assert (H : unhandled summary_failing_pipeline sample_clock ""
                (Exn "KeyError" "'timestamp'")).
  { eapply in_assembly; [reflexivity | reflexivity |].
    eapply data_summary_raises; reflexivity. }
  split; [exact H|].
  exact (proj1 (proj1 (proj2
    (generate_report_never_raises summary_failing_pipeline sample_clock "" VNone))
    _ H)).
Defined.

(** C2 as stated fails for the language-model step: its exception is not
    caught at the top level and no emergency report is returned; the
    caller receives the normal report built from the template. *)
Lemma generate_report_counterexample :
  (exists e,
     _generate_llm_report llm_failing_pipeline
       (_extract_real_metrics (isoformat sample_clock) all_sources_up)
       all_sources_up "" = Raise e) /\
  (exists r, generate_report llm_failing_pipeline sample_clock "" VNone = Ok (Normal r)) /\
  (forall msg, generate_report llm_failing_pipeline sample_clock "" VNone
     <> Ok (Emergency (_generate_emergency_report sample_clock msg))).
Proof.
  split; [| split].
  - eexists. reflexivity.
  - eexists. reflexivity.
  - intros msg. discriminate.
Qed.

(** ** Concrete runs *)

(** The end-to-end scenario of the specification: classification and
    quality answer, forecasting and RL time out. *)
Example two_sources_down_metrics :
  successes two_sources_down = 2%nat /\
  collection_success_rate (_extract_real_metrics "t" two_sources_down) == 50 /\
  status_of (_extract_real_metrics "t" two_sources_down) = Some "degraded" /\
  defect_rates (_extract_real_metrics "t" two_sources_down) = Some high_risk.
Proof. repeat split. Qed.

Example healthy_pipeline_report :
  exists r, generate_report healthy_pipeline sample_clock "" VNone = Ok (Normal r) /\
            status_of (quality_metrics r) = Some "healthy".
Proof. eexists. split; reflexivity. Qed.

End QualityReportFacts.

(* ===================================================================== *)
(** * The Gemini client: what is returned when generation fails *)
(* ===================================================================== *)

Module GeminiFacts.
Import Py Gemini.

(** The two guarded paths do hand back the fallback content. *)
Lemma unavailable_client_falls_back c report_type compact fx :
  available c = false ->
  generate_comprehensive_report c report_type compact fx
    = (Ok (Some (fallback_response c report_type "Gemini client not available")), fx).
Proof.
  intros H. unfold generate_comprehensive_report, activation. now rewrite H.
Qed.

Lemma prompt_failure_falls_back c report_type compact fx e :
  available c = true ->
  build_prompt c compact = Raise e ->
  generate_comprehensive_report c report_type compact fx
    = (Ok (Some (fallback_response c report_type (exn_msg e))), fx).
Proof.
  intros Ha Hp. unfold generate_comprehensive_report, activation.
  now rewrite Ha, Hp.
Qed.

(** A first call that fails with anything but a rate-limit error leaves
    the loop by [break]; the function then ends without a [return]. *)
Lemma non_rate_limit_error_returns_none c report_type compact fx prompt e :
  available c = true ->
  build_prompt c compact = Ok prompt ->
  generate_content c (calls fx) prompt = Failed e ->
  is_rate_limit (exn_msg e) = false ->
  generate_comprehensive_report c report_type compact fx
    = (Ok None, {| calls := S (calls fx); slept := slept fx |}).
Proof.
  intros Ha Hp Hc Hr. unfold generate_comprehensive_report, activation.
  rewrite Ha, Hp. simpl. now rewrite Hc, Hr.
Qed.

(** In compact mode, three rate-limit errors in a row end the loop by
    [break] as well, after delays of 15 and 30 seconds. *)
Lemma compact_rate_limit_exhausted_returns_none c report_type fx prompt :
  available c = true ->
  build_prompt c true = Ok prompt ->
  (forall n, exists e, generate_content c n prompt = Failed e
                       /\ is_rate_limit (exn_msg e) = true) ->
  generate_comprehensive_report c report_type true fx
    = (Ok None, {| calls := 3 + calls fx; slept := slept fx ++ [15; 30]%nat |}).
Proof.
  intros Ha Hp Hall. unfold generate_comprehensive_report, activation.
  rewrite Ha, Hp. simpl.
  destruct (Hall (calls fx)) as (e1 & -> & ->). simpl.
  destruct (Hall (S (calls fx))) as (e2 & -> & ->). simpl.
  destruct (Hall (S (S (calls fx)))) as (e3 & -> & ->). simpl.
  now rewrite <- app_assoc.
Qed.

(** C3.  The code at two failing inputs: a server error on the first
    attempt, and a quota error on every attempt.  In both runs the
    client raises nothing and returns Python's [None], not a dictionary
    with the fallback content (the second run sleeps 15 and 30 seconds
    in each of its two activations and makes six calls). *)
Theorem gemini_total_failure_returns_none :
  generate_comprehensive_report server_error_client "quality_control" false no_effects
    = (Ok None, {| calls := 1; slept := [] |}) /\
  generate_comprehensive_report quota_client "quality_control" false no_effects
    = (Ok None, {| calls := 6; slept := [15; 30; 15; 30]%nat |}).
Proof.
  split; reflexivity.
Qed.

(** ** Concrete runs *)

(** Two quota errors, then an answer: two delays, and the third attempt
    is reported. *)
Example third_attempt_succeeds :
  generate_comprehensive_report
    (sample_client (fun n => if Nat.ltb n 2
                             then Failed (Exn "ResourceExhausted" "429 Quota exceeded")
                             else Generated "# Report" 12))
    "quality_control" false no_effects
  = (Ok (Some {| status := "success"; error := None; content := "# Report";
                 model_used := Some "gemini-2.0-flash-exp";
                 tokens_used := Some 12%nat; attempt := Some 3%nat |}),
     {| calls := 3; slept := [15; 30]%nat |}).
Proof. reflexivity. Qed.

(** Three quota errors in full mode, then an answer to the compact
    prompt. *)
Example compact_retry_succeeds :
  generate_comprehensive_report
    (sample_client (fun n => if Nat.ltb n 3
                             then Failed (Exn "ResourceExhausted" "quota exceeded")
                             else Generated "# Short report" 5))
    "quality_control" false no_effects
  = (Ok (Some {| status := "success"; error := None; content := "# Short report";
                 model_used := Some "gemini-2.0-flash-exp";
                 tokens_used := Some 5%nat; attempt := Some 1%nat |}),
     {| calls := 4; slept := [15; 30]%nat |}).
Proof. reflexivity. Qed.

End GeminiFacts.

(* ===================================================================== *)
(** * The classification collector: failures become error records *)
(* ===================================================================== *)

Module ClassificationCollectorFacts.
Import Py PyNotations ClassificationCollector.

(** The defect helper always returns an entry: an error entry for a
    failed call, a success entry otherwise. *)
Lemma collect_defect_data_entry c reply :
  exists entry, _collect_defect_data c reply = Ok entry /\
    (failed reply = true ->
       exists msg, entry = error_entry msg (defect_endpoint c)) /\
    (failed reply = false ->
       exists fields, entry = VDict (("api_status", VStr "success") :: fields)).
Proof.
  unfold _collect_defect_data, failed.
  destruct reply as [e | status [e | data]]; simpl.
  - eexists; split; [reflexivity|]. split; [eauto | discriminate].
  - destruct (Nat.eqb status 200); simpl;
      (eexists; split; [reflexivity|]; split; [eauto | discriminate]).
  - destruct (Nat.eqb status 200); simpl.
    + destruct data; simpl;
        (eexists; split; [reflexivity|];
         split; [first [discriminate | eauto]
                | first [discriminate | intros _; eauto]]).
    + eexists; split; [reflexivity|]. split; [eauto | discriminate].
Qed.

Lemma collect_quality_data_entry c reply :
  exists entry, _collect_quality_data c reply = Ok entry /\
    (failed reply = true ->
       exists msg, entry = error_entry msg (quality_endpoint c)) /\
    (failed reply = false ->
       exists fields, entry = VDict (("api_status", VStr "success") :: fields)).
Proof.
  unfold _collect_quality_data, failed.
  destruct reply as [e | status [e | data]]; simpl.
  - eexists; split; [reflexivity|]. split; [eauto | discriminate].
  - destruct (Nat.eqb status 200); simpl;
      (eexists; split; [reflexivity|]; split; [eauto | discriminate]).
  - destruct (Nat.eqb status 200); simpl.
    + destruct data; simpl;
        (eexists; split; [reflexivity|];
         split; [first [discriminate | eauto]
                | first [discriminate | intros _; eauto]]).
    + eexists; split; [reflexivity|]. split; [eauto | discriminate].
Qed.

(** The record that was added is the newest entry of the history, and
    the history is the old one followed by it, cut to its last
    [max_history] entries. *)
Lemma add_to_history_newest c record :
  exists older,
    recent_classifications (_add_to_history c record) = (older ++ [record])%list /\
    recent_classifications (_add_to_history c record)
      = last_n (Nat.min max_history (S (List.length (recent_classifications c))))
          (recent_classifications c ++ [record])%list.
Proof.
  unfold _add_to_history; cbn [recent_classifications].
  set (h := recent_classifications c).
  assert (Hlen : List.length (h ++ [record]) = S (List.length h))
    by (rewrite length_app; simpl; lia).
  unfold max_history in *.
  destruct (Nat.ltb_spec 100 (List.length (h ++ [record]))) as [Hlt | Hge].
  - exists (skipn (List.length (h ++ [record]) - 100) h). split.
    + unfold last_n. rewrite skipn_app.
      replace (List.length (h ++ [record]) - 100 - List.length h)%nat
        with 0%nat by lia.
      reflexivity.
    + rewrite Hlen in Hlt. rewrite Nat.min_l by lia. reflexivity.
  - exists h. split; [reflexivity|].
    unfold last_n. rewrite Hlen.
    replace (S (List.length h) - Nat.min 100 (S (List.length h)))%nat
      with 0%nat by lia.
    reflexivity.
Qed.



(** ** Concrete runs *)

Example quality_timeout_record :
  exists record,
    fst (collect_data fresh_collector "2025-01-01T00:00:00" good_defect timed_out)
      = Ok record /\
    carries_success record "defect_prediction" /\
    carries_error record "quality_prediction".
Proof.
  eexists. split; [reflexivity|]. split.
  - do 2 eexists. repeat split; reflexivity.
  - do 2 eexists. split; [reflexivity|]. eexists. repeat split; reflexivity.
Qed.

End ClassificationCollectorFacts.

(* ===================================================================== *)
(** * The knowledge store *)
(* ===================================================================== *)

Module KnowledgeBaseFacts.
Import Py PyNotations KnowledgeBase.

(** ** Search: relevance and order *)

Lemma zip_items_relevance docs mds ds :
  Forall (fun it => relevance_score it = 1 - distance it) (zip_items docs mds ds).
Proof.
  revert mds ds. induction docs as [|doc docs IH]; intros [|md mds] [|d ds];
    simpl; constructor; auto.
Qed.

Lemma insert_by_distance_perm x l :
  Permutation (x :: l) (insert_by_distance x l).
Proof.
  induction l as [|y l IH]; simpl; [reflexivity|].
  destruct (Qle_bool (distance x) (distance y)); [reflexivity|].
  rewrite perm_swap. now constructor.
Qed.

Lemma sort_by_distance_perm l : Permutation l (sort_by_distance l).
Proof.
  induction l as [|x l IH]; simpl; [constructor|].
  rewrite <- insert_by_distance_perm. now constructor.
Qed.

Lemma insert_by_distance_sorted x l :
  StronglySorted by_distance l -> StronglySorted by_distance (insert_by_distance x l).
Proof.
  induction 1 as [|y l Hs IH Hy]; simpl.
  - repeat constructor.
  - destruct (Qle_bool (distance x) (distance y)) eqn:E.
    + apply Qle_bool_iff in E.
      constructor; [now constructor|].
      constructor; [exact E|].
      eapply Forall_impl; [|exact Hy].
      intros z Hz. unfold by_distance in *. now apply Qle_trans with (distance y).
    + assert (Hyx : distance y <= distance x).
      { apply Qlt_le_weak, Qnot_le_lt. intros H. apply Qle_bool_iff in H. congruence. }
      constructor; [exact IH|].
      apply (Permutation_Forall (insert_by_distance_perm x l)).
      constructor; assumption.
Qed.

Lemma sort_by_distance_sorted l : StronglySorted by_distance (sort_by_distance l).
Proof.
  induction l as [|x l IH]; simpl; [constructor|].
  now apply insert_by_distance_sorted.
Qed.

Lemma relevance_order l :
  Forall (fun it => relevance_score it = 1 - distance it) l ->
  StronglySorted by_distance l -> StronglySorted by_relevance l.
Proof.
  intros Hrel. induction 1 as [|x l Hs IH Hx]; constructor.
  - apply IH. now inversion Hrel.
  - inversion Hrel as [|? ? Hrx Hrl]; subst.
    rewrite Forall_forall in *. intros y Hy.
    unfold by_relevance, by_distance in *.
    rewrite Hrx, (Hrl y Hy).
    specialize (Hx y Hy). unfold Qminus.
    apply Qplus_le_r. now apply Qopp_le_compat.
Qed.

(** C6.  Every item returned by [search_relevant_context] has a
    relevance score equal to 1 minus its distance, and the returned list
    is in non-decreasing order of distance, that is, in non-increasing
    order of relevance (for a list of two or more items this orders
    every pair of them). *)
Theorem search_results_ranked (kb : manager) (query collection_name : string)
    (n_results : nat) :
  let results := search_relevant_context kb query collection_name n_results in
  Forall (fun it => relevance_score it = 1 - distance it) results /\
  StronglySorted by_distance results /\
  StronglySorted by_relevance results.
Proof.
  intros results.
  assert (H : Forall (fun it => relevance_score it = 1 - distance it) results /\
              StronglySorted by_distance results).
  { subst results. unfold search_relevant_context.
    destruct (embedding_model kb) as [encode|]; [|split; constructor].
    destruct (client kb); [|split; constructor].
    destruct (find_collection _ _) as [col|]; [|split; constructor].
    destruct (encode query) as [emb|]; simpl; [|split; constructor].
    destruct (index_query kb col emb n_results) as [res|]; simpl; [|split; constructor].
    destruct (documents res) as [|[|doc docs] rows]; try (split; constructor).
    destruct (first_row (metadatas res)) as [mds|]; simpl; [|split; constructor].
    destruct (first_row (distances res)) as [ds|]; simpl; [|split; constructor].
    split.
    - apply (Permutation_Forall (sort_by_distance_perm (zip_items (doc :: docs) mds ds))).
      exact (zip_items_relevance (doc :: docs) mds ds).
    - exact (sort_by_distance_sorted (zip_items (doc :: docs) mds ds)). }
  destruct H as [H1 H2]. repeat split; auto using relevance_order.
Qed.

(** ** Unavailable components *)

(** C5 (as amended).  When the embedding model or the index client is
    unavailable, [add_documentation] and [add_historical_data] return
    False and [search_relevant_context] returns the empty list, for all
    inputs, and the store is left as it was.  When the index client is
    unavailable, [cleanup_old_embeddings] returns without raising and
    deletes nothing.  (The cleanup does not look at the embedding
    model.) *)
Theorem unavailable_store_degrades (kb : manager) :
  (embedding_model kb = None \/ client kb = None ->
     (forall now doc_type content md,
        add_documentation kb now doc_type content md = (false, kb)) /\
     (forall now data_type data,
        add_historical_data kb now data_type data = (false, kb)) /\
     (forall query collection_name n_results,
        search_relevant_context kb query collection_name n_results = [])) /\
  (client kb = None ->
     forall cutoff_timestamp,
       cleanup_old_embeddings kb cutoff_timestamp = (Ok tt, kb)).
Proof.
  split.
  - intros H. unfold add_documentation, add_historical_data, search_relevant_context.
    destruct H as [-> | ->]; repeat split; intros;
      try reflexivity; destruct (embedding_model kb); reflexivity.
  - intros H cutoff. unfold cleanup_old_embeddings. now rewrite H.
Qed.

(** Witness: a manager whose embedding model failed to load, and the
    same manager without its index client. *)
Lemma unavailable_store_degrades_witness :
  embedding_model manager_without_model = None /\
  add_documentation manager_without_model
    {| isoformat := "2025-06-02T00:00:00"; stamp := "20250602_000000_000000" |}
    "quality_standard" "GMP" [] = (false, manager_without_model) /\
  search_relevant_context manager_without_model "defects" "historical_data" 10 = [].
Proof.
  split; [reflexivity|].
  destruct (proj1 (unavailable_store_degrades manager_without_model)
              (or_introl eq_refl)) as (Hadd & _ & Hsearch).
  split; [apply Hadd | apply Hsearch].
Defined.

(** C5 as stated fails for the cleanup: with the embedding model
    unavailable and the index client up, [cleanup_old_embeddings]
    deletes the document that is older than the cutoff. *)
Lemma unavailable_store_counterexample :
  embedding_model manager_without_model = None /\
  find_collection (collections manager_without_model) "historical_data"
    = Some [old_document; recent_document] /\
  find_collection
    (collections (snd (cleanup_old_embeddings manager_without_model sample_cutoff)))
    "historical_data" = Some [recent_document] /\
  snd (cleanup_old_embeddings manager_without_model sample_cutoff)
    <> manager_without_model.
Proof.
  repeat split. discriminate.
Qed.

(** ** Cleanup: which documents go *)

Lemma older_than_string cutoff d s :
  timestamp_string d = Some s ->
  older_than cutoff d = Ok (lexically_older cutoff d).
Proof.
  unfold timestamp_string, older_than, lexically_older, timestamp_string.
  destruct (stored_timestamp d); intros [= ->]; reflexivity.
Qed.

Lemma old_ids_of_strings cutoff col :
  string_timestamps col ->
  old_ids_of cutoff col = Ok (map doc_id (filter (lexically_older cutoff) col)).
Proof.
  induction 1 as [|d col [s Hs] _ IH]; simpl; [reflexivity|].
  rewrite (older_than_string _ _ _ Hs), IH. simpl.
  now destruct (lexically_older cutoff d).
Qed.

Lemma unique_id_determines (col : collection) d d' :
  unique_ids col -> In d col -> In d' col -> doc_id d = doc_id d' -> d = d'.
Proof.
  unfold unique_ids. induction col as [|x col IH]; simpl; [tauto|].
  intros Hnd Hd Hd' Heq. inversion Hnd as [|? ? Hx Hnd']; subst.
  destruct Hd as [<- | Hd], Hd' as [<- | Hd']; auto.
  - exfalso. apply Hx. rewrite Heq. now apply in_map.
  - exfalso. apply Hx. rewrite <- Heq. now apply in_map.
Qed.

Lemma listed_iff_older cutoff col d :
  unique_ids col -> In d col ->
  existsb (String.eqb (doc_id d)) (map doc_id (filter (lexically_older cutoff) col))
    = lexically_older cutoff d.
Proof.
  intros Hu Hd.
  destruct (lexically_older cutoff d) eqn:Hold.
  - apply existsb_exists. exists (doc_id d). split; [|apply String.eqb_refl].
    apply in_map. apply filter_In. auto.
  - destruct (existsb _ _) eqn:E; [|reflexivity].
    apply existsb_exists in E as (i & Hi & Heq).
    apply String.eqb_eq in Heq. subst i.
    apply in_map_iff in Hi as (d' & Hid & Hd').
    apply filter_In in Hd' as [Hd' Hold'].
    assert (d' = d) by (eapply unique_id_determines; eauto).
    subst. congruence.
Qed.

Lemma delete_old_ids cutoff col :
  unique_ids col ->
  collection_delete (map doc_id (filter (lexically_older cutoff) col)) col
    = survivors cutoff col.
Proof.
  intros Hu. unfold collection_delete, survivors.
  apply filter_ext_in. intros d Hd. now rewrite listed_iff_older.
Qed.

Lemma nothing_old_all_survive cutoff (col : collection) :
  map doc_id (filter (lexically_older cutoff) col) = [] ->
  survivors cutoff col = col.
Proof.
  unfold survivors. induction col as [|d col IH]; simpl; [reflexivity|].
  destruct (lexically_older cutoff d); simpl; [discriminate|].
  intros H. now rewrite IH.
Qed.

Lemma cleanup_collections_survivors cutoff cols :
  Forall (fun nc => string_timestamps (snd nc) /\ unique_ids (snd nc)) cols ->
  cleanup_collections cutoff cols
    = (map (fun nc => (fst nc, survivors cutoff (snd nc))) cols, None).
Proof.
  induction 1 as [|[name col] cols [Hs Hu] _ IH]; simpl; [reflexivity|].
  rewrite (old_ids_of_strings _ _ Hs), IH. simpl. f_equal. f_equal. f_equal.
  destruct (map doc_id (filter (lexically_older cutoff) col)) eqn:E.
  - symmetry. now apply nothing_old_all_survive.
  - rewrite <- E. now apply delete_old_ids.
Qed.

(** ** Cleanup: the 'timestamp' entry of the metadata *)

#[local] Open Scope list_scope.

(** What the code compares is the 'timestamp' entry of the metadata:
    its text is compared as a string, and a number or a boolean makes
    the comparison raise. *)
Lemma older_than_entry cutoff d :
  match timestamp_entry d with
  | Some s => older_than cutoff d = Ok (String.ltb s cutoff)
  | None => exists e, older_than cutoff d = Raise e
  end.
Proof.
  unfold timestamp_entry, older_than, stored_timestamp.
  destruct (meta_lookup (doc_metadata d) "timestamp") as [[s|q|b]|]; eauto.
Qed.

Lemma lexically_older_smaller cutoff d :
  lexically_older cutoff d = lexically_smaller cutoff d.
Proof.
  pose proof (older_than_entry cutoff d) as H.
  unfold lexically_older, lexically_smaller, timestamp_string.
  unfold older_than in H.
  destruct (timestamp_entry d) as [s|].
  - destruct (stored_timestamp d); try discriminate. now injection H as ->.
  - destruct H as [e H]. destruct (stored_timestamp d); [discriminate | reflexivity..].
Qed.

Lemma comparable_strings col : comparable col = true -> string_timestamps col.
Proof.
  unfold comparable, string_timestamps. rewrite forallb_forall, Forall_forall.
  intros H d Hd. specialize (H d Hd).
  pose proof (older_than_entry "" d) as Hd'. unfold older_than in Hd'.
  unfold timestamp_string.
  destruct (timestamp_entry d) as [s|]; [|discriminate].
  destruct (stored_timestamp d); try discriminate. eauto.
Qed.

Lemma not_comparable_raises cutoff col :
  comparable col = false -> exists e, old_ids_of cutoff col = Raise e.
Proof.
  unfold comparable. induction col as [|d col IH]; cbn [forallb old_ids_of];
    [discriminate|].
  pose proof (older_than_entry cutoff d) as Hd.
  destruct (timestamp_entry d) as [s|].
  - rewrite Hd. cbn [andb bind]. intros H. destruct (IH H) as [e ->].
    cbn [bind]. eauto.
  - destruct Hd as [e ->]. cbn [bind]. eauto.
Qed.

Lemma survivors_kept cutoff name col :
  (name, survivors cutoff col) = kept cutoff (name, col).
Proof.
  unfold kept, survivors. cbn [fst snd]. f_equal. apply filter_ext.
  intros d. now rewrite lexically_older_smaller.
Qed.

(** The loop over the collections, up to the first collection that
    holds a timestamp which is not a string. *)
Lemma cleanup_collections_reached cutoff rest : forall before,
  Forall (fun nc => comparable (snd nc) = true /\ unique_ids (snd nc)) before ->
  cleanup_collections cutoff (before ++ rest)
    = (map (kept cutoff) before ++ fst (cleanup_collections cutoff rest),
       snd (cleanup_collections cutoff rest)).
Proof.
  induction 1 as [|[name col] before [Hs Hu] _ IH]; cbn [app map].
  - now destruct (cleanup_collections cutoff rest).
  - cbn [cleanup_collections snd] in *.
    rewrite (old_ids_of_strings _ _ (comparable_strings _ Hs)), IH.
    cbn [fst snd]. f_equal. f_equal. rewrite <- survivors_kept. f_equal.
    destruct (map doc_id (filter (lexically_older cutoff) col)) eqn:E.
    + symmetry. now apply nothing_old_all_survive.
    + rewrite <- E. now apply delete_old_ids.
Qed.

Lemma Forall_comparable_unique (cols : list (string * collection)) :
  forallb (fun nc => comparable (snd nc)) cols = true ->
  Forall (fun nc => unique_ids (snd nc)) cols ->
  Forall (fun nc => comparable (snd nc) = true /\ unique_ids (snd nc)) cols.
Proof.
  rewrite forallb_forall, !Forall_forall. intros Hc Hu nc Hnc. auto.
Qed.

(** C8 (as amended).  With the index client up and one document per id
    in each collection, the cleanup returns without an error, and what
    it compares with the cutoff is the 'timestamp' entry of the
    metadata of each document, as a string (the empty string when the
    entry is missing), in the order of strings; no date is parsed.  In
    every collection that the loop reaches before it meets a timestamp
    which is not a string, a document is deleted if and only if its
    timestamp string is lexically smaller than the cutoff string, and
    the documents kept stay in their order.  The first collection that
    holds a timestamp which is not a string stops the loop: that
    collection and the collections after it are left as they were. *)
Theorem cleanup_compares_strings (kb : manager) (cutoff_timestamp : string) :
  client kb <> None ->
  Forall (fun nc => unique_ids (snd nc)) (collections kb) ->
  let after := collections (snd (cleanup_old_embeddings kb cutoff_timestamp)) in
  fst (cleanup_old_embeddings kb cutoff_timestamp) = Ok tt /\
  (forall before name col rest,
     collections kb = before ++ (name, col) :: rest ->
     forallb (fun nc => comparable (snd nc)) before = true ->
     comparable col = true ->
     exists col' rest',
       after = map (kept cutoff_timestamp) before ++ (name, col') :: rest' /\
       col' = snd (kept cutoff_timestamp (name, col)) /\
       forall d, In d col ->
         exists s, timestamp_entry d = Some s /\
           (In d col' <-> String.ltb s cutoff_timestamp = false) /\
           (~ In d col' <-> String.ltb s cutoff_timestamp = true)) /\
  (forallb (fun nc => comparable (snd nc)) (collections kb) = true ->
     after = map (kept cutoff_timestamp) (collections kb)) /\
  (forall before name col rest,
     collections kb = before ++ (name, col) :: rest ->
     forallb (fun nc => comparable (snd nc)) before = true ->
     comparable col = false ->
     after = map (kept cutoff_timestamp) before ++ (name, col) :: rest).
Proof.
  intros Hc Hu after. subst after. unfold cleanup_old_embeddings.
  destruct (client kb); [|congruence].
  cbn [fst snd collections with_collections].
  split; [reflexivity|]. split; [| split].
  - intros before name col rest Hsplit Hbefore Hcol.
    rewrite Hsplit in *.
    apply Forall_app in Hu as [Hu1 Hu2]. inversion Hu2 as [|? ? Hucol _]; subst.
    change (before ++ (name, col) :: rest)
      with (before ++ [(name, col)] ++ rest).
    rewrite app_assoc, cleanup_collections_reached.
    2:{ apply Forall_app. split; [now apply Forall_comparable_unique|].
        constructor; [split; assumption | constructor]. }
    cbn [fst]. rewrite map_app, <- app_assoc. cbn [map app].
    do 2 eexists. split; [reflexivity|]. split; [reflexivity|].
    intros d Hd.
    unfold comparable in Hcol. rewrite forallb_forall in Hcol.
    specialize (Hcol d Hd).
    destruct (timestamp_entry d) as [s|] eqn:Hts; [|discriminate].
    exists s. split; [reflexivity|].
    unfold kept. cbn [fst snd]. rewrite filter_In.
    unfold lexically_smaller. rewrite Hts.
    destruct (String.ltb s cutoff_timestamp); cbn [negb]; split; split; intros H;
      try tauto; try congruence; try discriminate.
    + destruct H; discriminate.
    + intros [_ H']. discriminate.
  - intros Hall.
    rewrite <- (app_nil_r (collections kb)) at 1.
    rewrite cleanup_collections_reached by now apply Forall_comparable_unique.
    cbn [cleanup_collections fst]. now rewrite app_nil_r.
  - intros before name col rest Hsplit Hbefore Hcol.
    rewrite Hsplit in *.
    apply Forall_app in Hu as [Hu1 _].
    rewrite cleanup_collections_reached by now apply Forall_comparable_unique.
    cbn [cleanup_collections].
    destruct (not_comparable_raises cutoff_timestamp col Hcol) as [e ->].
    reflexivity.
Qed.

(** Witness: the sample store with one document of 2020 and one of
    June 2025, cleaned with a cutoff of January 2025. *)
Lemma cleanup_compares_strings_witness :
  client sample_manager <> None /\
  collections (snd (cleanup_old_embeddings sample_manager sample_cutoff))
    = [("historical_data", [recent_document]); ("documentation", []); ("templates", [])].
Proof.
  assert (Hc : client sample_manager <> None) by discriminate.
  assert (Hu : Forall (fun nc => unique_ids (snd nc)) (collections sample_manager)).
  { repeat constructor; simpl; intros H; simpl in H; intuition discriminate. }
  split; [exact Hc|].
  exact (proj1 (proj2 (proj2 (cleanup_compares_strings sample_manager sample_cutoff Hc Hu)))
           eq_refl).
Defined.

(** C8, where the sentence of the specification fails.  A caller of
    [add_documentation] passes metadata with a 'timestamp' of its own,
    a number; the document is stored with it.  At the next cleanup the
    comparison of that number with the cutoff raises, the loop stops,
    and the procedure of 2020, whose timestamp string is lexically
    smaller than the cutoff, is still in 'documentation'. *)
Lemma cleanup_compares_strings_counterexample :
  fst (add_documentation manager_with_procedure sample_clock "note"
         "Calibrate the scale." [("timestamp", MNum 1748736000)]) = true /\
  Forall (fun nc => unique_ids (snd nc)) (collections manager_with_numeric_timestamp) /\
  (exists note,
     find_collection (collections manager_with_numeric_timestamp) "documentation"
       = Some [old_procedure; note] /\
     meta_lookup (doc_metadata note) "timestamp" = Some (MNum 1748736000)) /\
  timestamp_entry old_procedure = Some "2020-01-01T00:00:00.000000"%string /\
  String.ltb "2020-01-01T00:00:00.000000" sample_cutoff = true /\
  fst (cleanup_old_embeddings manager_with_numeric_timestamp sample_cutoff) = Ok tt /\
  exists col',
    find_collection
      (collections (snd (cleanup_old_embeddings manager_with_numeric_timestamp
                           sample_cutoff))) "documentation" = Some col' /\
    In old_procedure col'.
Proof.
  split; [reflexivity|].
  split.
  { repeat constructor; cbn; intros H; intuition discriminate. }
  split; [eexists; split; reflexivity|].
  split; [reflexivity|].
  split; [reflexivity|].
  split; [reflexivity|].
  eexists. split; [reflexivity|]. cbn. auto.
Qed.

End KnowledgeBaseFacts.

(* ===================================================================== *)
(** * The defect trend *)
(* ===================================================================== *)

Module DefectAnalysisFacts.
Import Py PyNotations DefectAnalysis.



Lemma In_firstn_incl {A : Type} (n : nat) (l : list A) x :
  In x (firstn n l) -> In x l.
Proof.
  revert l. induction n as [|n IH]; intros [|y l]; simpl; try tauto.
  intros [-> | H]; auto.
Qed.





End DefectAnalysisFacts.

(* ===================================================================== *)
(** * The trend of the defect probabilities *)
(* ===================================================================== *)

Module DefectTrendFacts.
Import Py PyNotations DefectTrend.
Import Stdlib.Floats.PrimFloat.
#[local] Set Warnings "-inexact-float".

Lemma last_three_length (l : list number) :
  List.length (last_three l) = Nat.min 3 (List.length l).
Proof.
  unfold last_three. rewrite length_skipn.
  destruct (Nat.le_ge_cases 3 (List.length l)).
  - rewrite Nat.min_l by assumption. lia.
  - rewrite Nat.min_r by assumption. lia.
Qed.

Lemma first_three_length (l : list number) :
  List.length (first_three l) = Nat.min 3 (List.length l).
Proof. unfold first_three. now rewrite length_firstn. Qed.

(** The block in terms of the two averages: the recent one is formed
    first, and an exception of either leaves the block. *)
Lemma trend_of_averages builtin_sum l :
  (2 <= List.length l)%nat ->
  trend_of builtin_sum l =
    (recent_avg <- average builtin_sum (last_three l) ;;
     earlier_avg <- average builtin_sum (first_three l) ;;
     Ok (if ltb (mul earlier_avg 1.1) recent_avg then "increasing"
         else if ltb recent_avg (mul earlier_avg 0.9) then "decreasing"
         else "stable")).
Proof.
  intros H. unfold trend_of, average.
  rewrite last_three_length, first_three_length.
  rewrite (proj2 (Nat.leb_le _ _) H).
  destruct (builtin_sum (last_three l)) as [rs|e]; [|reflexivity]. cbn [bind].
  destruct (truediv rs _) as [recent|e]; [|reflexivity]. cbn [bind].
  destruct (builtin_sum (first_three l)) as [es|e]; reflexivity.
Qed.

(** C7 (as amended).  Whatever the built-in sum of the interpreter, and
    for every list of ints and floats: with fewer than two values the
    trend is 'insufficient_data'; with two or more, and [recent] and
    [earlier] the averages of the last three and of the first three
    values as Python computes them ([sum(...) / len(...)], in binary64),
    the trend is 'increasing' exactly when [recent] exceeds 1.1 times
    [earlier], 'decreasing' exactly when it does not and [recent] is
    below 0.9 times [earlier], and 'stable' exactly when it is neither;
    the products and the comparisons are those of binary64.  When an
    average cannot be formed (an int too large for a float), the
    exception leaves the block and no trend is reported. *)
Theorem defect_trend_classification
    (builtin_sum : list number -> result number) (defect_probs : list number) :
  ((List.length defect_probs < 2)%nat ->
     trend_of builtin_sum defect_probs = Ok "insufficient_data") /\
  ((2 <= List.length defect_probs)%nat ->
     (forall recent earlier,
        average builtin_sum (last_three defect_probs) = Ok recent ->
        average builtin_sum (first_three defect_probs) = Ok earlier ->
        exists trend,
          trend_of builtin_sum defect_probs = Ok trend /\
          (trend = "increasing" <-> exceeds recent 1.1 earlier) /\
          (trend = "decreasing" <->
             ~ exceeds recent 1.1 earlier /\ is_below recent 0.9 earlier) /\
          (trend = "stable" <->
             ~ exceeds recent 1.1 earlier /\ ~ is_below recent 0.9 earlier)) /\
     (forall e,
        average builtin_sum (last_three defect_probs) = Raise e ->
        trend_of builtin_sum defect_probs = Raise e) /\
     (forall recent e,
        average builtin_sum (last_three defect_probs) = Ok recent ->
        average builtin_sum (first_three defect_probs) = Raise e ->
        trend_of builtin_sum defect_probs = Raise e)).
Proof.
  split.
  - intros Hlen. unfold trend_of.
    now rewrite (proj2 (Nat.leb_gt _ _) Hlen).
  - intros Hlen. rewrite (trend_of_averages _ _ Hlen).
    split; [| split].
    + intros recent earlier -> ->. cbn [bind]. unfold exceeds, is_below.
      destruct (ltb (mul earlier 1.1) recent) eqn:Hinc.
      * exists "increasing". split; [reflexivity|].
        split; [split; auto|].
        split; (split; [discriminate | intros [H _]; congruence]).
      * destruct (ltb recent (mul earlier 0.9)) eqn:Hdec.
        -- exists "decreasing". split; [reflexivity|].
           split; [split; [discriminate | intros H; discriminate]|].
           split; [split; [intros _; split; [discriminate | reflexivity] | reflexivity]|].
           split; [discriminate | intros [_ H]; congruence].
        -- exists "stable". split; [reflexivity|].
           split; [split; [discriminate | intros H; discriminate]|].
           split; [split; [discriminate | intros [_ H]; discriminate]|].
           split; [intros _; split; discriminate | reflexivity].
    + intros e ->. reflexivity.
    + intros recent e -> ->. reflexivity.
Qed.

(** Witness: four probabilities that rise from 0.1 to 0.5, summed from
    left to right. *)
Lemma defect_trend_classification_witness :
  (2 <= List.length rising)%nat /\
  exists recent earlier,
    average plain_sum (last_three rising) = Ok recent /\
    average plain_sum (first_three rising) = Ok earlier /\
    exceeds recent 1.1 earlier /\
    trend_of plain_sum rising = Ok "increasing".
Proof.
  assert (Hlen : (2 <= List.length rising)%nat) by (cbn; lia).
  split; [exact Hlen|].
  destruct (proj1 (proj2 (defect_trend_classification plain_sum rising) Hlen)
              _ _ eq_refl eq_refl) as (trend & Ht & Hinc & _).
  do 2 eexists. split; [reflexivity|]. split; [reflexivity|].
  assert (Hr : trend_of plain_sum rising = Ok "increasing") by (vm_compute; reflexivity).
  split; [|exact Hr].
  apply Hinc. rewrite Hr in Ht. now injection Ht.
Defined.

(** C7, the two ways in which the sentence of the specification fails.
    Summed from left to right: for the two values -1, -1 the recent
    average (-1) is below 0.9 times the earlier one (-0.9), and the trend
    is 'increasing', not 'decreasing'; for 0.1, 0.1, 0.1, 0.09, 0.09,
    0.09 the average of the last three values is 0.09, which is not below
    0.9 times the average 0.1 of the first three, and the trend is
    'decreasing', not 'stable': the floats add up to
    0.09000000000000001 and 0.10000000000000002. *)
Lemma defect_trend_counterexample :
  (average plain_sum (last_three negative_pair) = Ok (-1)%float /\
   average plain_sum (first_three negative_pair) = Ok (-1)%float /\
   is_below (-1) 0.9 (-1) /\
   trend_of plain_sum negative_pair = Ok "increasing") /\
  (~ (((9#100) + (9#100) + (9#100)) / 3 <
      (((1#10) + (1#10) + (1#10)) / 3) * (9#10))%Q /\
   ~ ((((1#10) + (1#10) + (1#10)) / 3) * (11#10) <
      ((9#100) + (9#100) + (9#100)) / 3)%Q /\
   trend_of plain_sum tenth_less = Ok "decreasing").
Proof.
  split.
  - repeat split; vm_compute; reflexivity.
  - split; [|split].
    + vm_compute. discriminate.
    + vm_compute. discriminate.
    + vm_compute. reflexivity.
Qed.

End DefectTrendFacts.

(* ===================================================================== *)
(** * [extract_key_metrics]: the risk level *)
(* ===================================================================== *)

Module BaseGeneratorFacts.
Import Py PyNotations BaseGenerator.

Lemma lookup_set_same d k v : lookup (dict_set d k v) k = Some v.
Proof.
  induction d as [|[k' v'] d IH]; simpl.
  - now rewrite String.eqb_refl.
  - destruct (String.eqb k k') eqn:E; simpl; rewrite E; [reflexivity | exact IH].
Qed.

Lemma lookup_set_other d k k' v :
  k <> k' -> lookup (dict_set d k' v) k = lookup d k.
Proof.
  intros Hne. induction d as [|[k0 v0] d IH]; simpl.
  - apply String.eqb_neq in Hne. now rewrite Hne.
  - destruct (String.eqb k' k0) eqn:E; simpl.
    + apply String.eqb_eq in E. subst k0.
      apply String.eqb_neq in Hne. now rewrite Hne.
    + now rewrite IH.
Qed.

Create Rewrite HintDb dict.
#[local] Hint Rewrite lookup_set_same : dict.
#[local] Hint Rewrite lookup_set_other using discriminate : dict.

(** The three later sources leave the classification entries alone. *)
Lemma extract_quality_keeps cd m m' k :
  extract_quality cd m = Ok m' ->
  k <> "quality_class" -> k <> "quality_confidence" ->
  lookup m' k = lookup m k.
Proof.
  unfold extract_quality. intros H H1 H2.
  apply PyFacts.bind_ok in H as ([src|] & _ & H); [|now injection H as <-].
  apply PyFacts.bind_ok in H as (a & _ & H).
  apply PyFacts.bind_ok in H as (b & _ & H).
  injection H as <-. now rewrite !lookup_set_other.
Qed.

Lemma extract_forecasting_keeps cd m m' k :
  extract_forecasting cd m = Ok m' ->
  k <> "forecast_horizon" -> k <> "forecast_points" ->
  lookup m' k = lookup m k.
Proof.
  unfold extract_forecasting. intros H H1 H2.
  apply PyFacts.bind_ok in H as ([src|] & _ & H); [|now injection H as <-].
  apply PyFacts.bind_ok in H as (a & _ & H).
  apply PyFacts.bind_ok in H as (b & _ & H).
  apply PyFacts.bind_ok in H as (c & _ & H).
  injection H as <-. now rewrite !lookup_set_other.
Qed.

Lemma extract_rl_keeps cd m m' k :
  extract_rl cd m = Ok m' ->
  k <> "recommended_actions" -> k <> "model_type" ->
  lookup m' k = lookup m k.
Proof.
  unfold extract_rl. intros H H1 H2.
  apply PyFacts.bind_ok in H as ([src|] & _ & H); [|now injection H as <-].
  apply PyFacts.bind_ok in H as (a & _ & H).
  apply PyFacts.bind_ok in H as (b & _ & H).
  injection H as <-. now rewrite !lookup_set_other.
Qed.

Lemma calculate_risk_level_spec m :
  lookup (calculate_risk_level m) "defect_probability" = lookup m "defect_probability" /\
  lookup (calculate_risk_level m) "risk_level" =
    Some (VStr match as_number (get_default m "defect_probability" (VNum 0)) with
               | Some p => risk_level_of p
               | None => "Unknown"
               end).
Proof.
  unfold calculate_risk_level.
  destruct (as_number _); split;
    autorewrite with dict; reflexivity.
Qed.

(** What the [try] block returns, in terms of the dictionary left by
    the classification step. *)
Lemma body_risk_level cd m :
  extract_key_metrics_body cd = Ok m ->
  exists m1,
    extract_classification cd [] = Ok m1 /\
    lookup m "defect_probability" = lookup m1 "defect_probability" /\
    lookup m "risk_level" =
      Some (VStr match as_number (get_default m1 "defect_probability" (VNum 0)) with
                 | Some p => risk_level_of p
                 | None => "Unknown"
                 end).
Proof.
  unfold extract_key_metrics_body. intros H.
  apply PyFacts.bind_ok in H as (m1 & H1 & H).
  apply PyFacts.bind_ok in H as (m2 & H2 & H).
  apply PyFacts.bind_ok in H as (m3 & H3 & H).
  apply PyFacts.bind_ok in H as (m4 & H4 & H).
  injection H as <-. exists m1. split; [exact H1|].
  assert (Hdp : lookup m4 "defect_probability" = lookup m1 "defect_probability").
  { rewrite (extract_rl_keeps _ _ _ _ H4) by discriminate.
    rewrite (extract_forecasting_keeps _ _ _ _ H3) by discriminate.
    now rewrite (extract_quality_keeps _ _ _ _ H2) by discriminate. }
  destruct (calculate_risk_level_spec m4) as [Ha Hb].
  split; [congruence|].
  rewrite Hb. unfold get_default. now rewrite Hdp.
Qed.

Lemma risk_level_table (p : Q) :
  (8 # 10 < p -> risk_level_of p = "Critical") /\
  (6 # 10 < p /\ p <= 8 # 10 -> risk_level_of p = "High") /\
  (4 # 10 < p /\ p <= 6 # 10 -> risk_level_of p = "Medium") /\
  (2 # 10 < p /\ p <= 4 # 10 -> risk_level_of p = "Low") /\
  (p <= 2 # 10 -> risk_level_of p = "Very Low").
Proof.
  unfold risk_level_of, Qgtb.
  destruct (Qltb (8 # 10) p) eqn:E8;
    [apply PyFacts.Qltb_lt in E8 | apply PyFacts.Qltb_ge in E8];
  destruct (Qltb (6 # 10) p) eqn:E6;
    [apply PyFacts.Qltb_lt in E6 | apply PyFacts.Qltb_ge in E6 |
     apply PyFacts.Qltb_lt in E6 | apply PyFacts.Qltb_ge in E6];
  destruct (Qltb (4 # 10) p) eqn:E4;
    try (apply PyFacts.Qltb_lt in E4); try (apply PyFacts.Qltb_ge in E4);
  destruct (Qltb (2 # 10) p) eqn:E2;
    try (apply PyFacts.Qltb_lt in E2); try (apply PyFacts.Qltb_ge in E2);
  repeat split; intros H; try reflexivity; exfalso; lra.
Qed.

(** A source that is a dictionary is either skipped or handed on as it
    is. *)
Lemma collected_plain cd k :
  (forall v, lookup cd k = Some v -> exists d, v = VDict d) ->
  collected cd k = Ok None \/
  exists d, lookup cd k = Some (VDict d) /\ has_key d "error" = false /\
            collected cd k = Ok (Some (VDict d)).
Proof.
  intros H. unfold collected.
  destruct (lookup cd k) as [v|]; [|now left].
  destruct (H v eq_refl) as [d ->]. cbn.
  destruct (has_key d "error") eqn:E; [now left|].
  right. exists d. repeat split. exact E.
Qed.

Lemma plain_sources_run cd :
  plain_sources cd -> raises (extract_key_metrics_body cd) = false.
Proof.
  intros [Hd Hf]. unfold extract_key_metrics_body.
  assert (H1 : forall m, exists m', extract_classification cd m = Ok m').
  { intros m. unfold extract_classification.
    destruct (collected_plain cd "classification") as [->|(d & _ & _ & ->)];
      [intros v; apply Hd; cbn; tauto | |]; cbn; eauto. }
  assert (H2 : forall m, exists m', extract_quality cd m = Ok m').
  { intros m. unfold extract_quality.
    destruct (collected_plain cd "quality") as [->|(d & _ & _ & ->)];
      [intros v; apply Hd; cbn; tauto | |]; cbn; eauto. }
  assert (H3 : forall m, exists m', extract_forecasting cd m = Ok m').
  { intros m. unfold extract_forecasting.
    destruct (collected_plain cd "forecasting") as [->|(d & Hl & He & ->)];
      [intros v; apply Hd; cbn; tauto | cbn; eauto |].
    specialize (Hf d Hl He). cbn.
    destruct (get_default d "forecast" (VList [])); try discriminate; cbn; eauto. }
  assert (H4 : forall m, exists m', extract_rl cd m = Ok m').
  { intros m. unfold extract_rl.
    destruct (collected_plain cd "rl_actions") as [->|(d & _ & _ & ->)];
      [intros v; apply Hd; cbn; tauto | |]; cbn; eauto. }
  destruct (H1 []) as [m1 ->]. cbn [bind].
  destruct (H2 m1) as [m2 ->]. cbn [bind].
  destruct (H3 m2) as [m3 ->]. cbn [bind].
  destruct (H4 m3) as [m4 ->]. reflexivity.
Qed.

(** C10 (as amended).  When the [try] block of [extract_key_metrics]
    runs to its end, a numeric extracted defect probability [p] fixes
    the risk level by the thresholds alone (above 0.8 Critical, above
    0.6 High, above 0.4 Medium, above 0.2 Low, else Very Low), whatever
    risk level the API supplied; with no classification source at all
    there is no extracted probability, the default 0 is used and the
    risk level is 'Very Low'; a collected classification response
    without the field yields 'Unknown'.  The block runs to its end
    whenever every collected source is a dictionary and a collected
    forecast has a length.  When the block raises, the function returns
    the error message alone: no risk level and no defect probability. *)
Theorem extract_key_metrics_risk_level (collected_data : dict) :
  let metrics := extract_key_metrics collected_data in
  (raises (extract_key_metrics_body collected_data) = false ->
     (forall v p,
        lookup metrics "defect_probability" = Some v -> as_number v = Some p ->
        lookup metrics "risk_level" = Some (VStr (risk_level_of p)) /\
        (8 # 10 < p -> risk_level_of p = "Critical") /\
        (6 # 10 < p /\ p <= 8 # 10 -> risk_level_of p = "High") /\
        (4 # 10 < p /\ p <= 6 # 10 -> risk_level_of p = "Medium") /\
        (2 # 10 < p /\ p <= 4 # 10 -> risk_level_of p = "Low") /\
        (p <= 2 # 10 -> risk_level_of p = "Very Low")) /\
     (lookup collected_data "classification" = None ->
        lookup metrics "defect_probability" = None /\
        lookup metrics "risk_level" = Some (VStr "Very Low")) /\
     (forall response,
        lookup collected_data "classification" = Some (VDict response) ->
        has_key response "error" = false ->
        has_key response "defect_probability" = false ->
        lookup metrics "risk_level" = Some (VStr "Unknown"))) /\
  (plain_sources collected_data ->
     raises (extract_key_metrics_body collected_data) = false) /\
  (raises (extract_key_metrics_body collected_data) = true ->
     (exists msg, metrics = [("error", VStr msg)]) /\
     lookup metrics "risk_level" = None /\
     lookup metrics "defect_probability" = None).
Proof.
  intros metrics. subst metrics. unfold extract_key_metrics.
  split; [| split; [apply plain_sources_run|]].
  - intros Hok.
    destruct (extract_key_metrics_body collected_data) as [m|e] eqn:Hbody;
      [|discriminate].
    destruct (body_risk_level _ _ Hbody) as (m1 & H1 & Hdp & Hrisk).
    split; [| split].
    + intros v p Hv Hp. split; [|apply risk_level_table].
      rewrite Hrisk. unfold get_default. rewrite <- Hdp, Hv, Hp. reflexivity.
    + intros Hnone. unfold extract_classification, collected in H1.
      rewrite Hnone in H1. simpl in H1. injection H1 as <-.
      rewrite Hrisk, Hdp. split; reflexivity.
    + intros response Hc Herr Hfield.
      unfold extract_classification, collected in H1.
      rewrite Hc in H1. simpl in H1. rewrite Herr in H1. simpl in H1.
      injection H1 as <-. rewrite Hrisk.
      unfold get_default at 1. autorewrite with dict.
      unfold get_default, has_key in *.
      destruct (lookup response "defect_probability"); [discriminate|].
      reflexivity.
  - intros Hr.
    destruct (extract_key_metrics_body collected_data) as [m|e]; [discriminate|].
    split; [eexists; reflexivity|]. split; reflexivity.
Qed.

(** Witness: a probability of 0.9 that the API labels "low" comes back
    as 'Critical'. *)
Lemma extract_key_metrics_risk_level_witness :
  raises (extract_key_metrics_body mislabelled_classification) = false /\
  lookup (extract_key_metrics mislabelled_classification) "risk_level"
    = Some (VStr "Critical").
Proof.
  split; [reflexivity|].
  exact (proj1 (proj1 (proj1 (extract_key_metrics_risk_level mislabelled_classification)
                         eq_refl)
                  (VNum (9 # 10)) (9 # 10) eq_refl eq_refl)).
Defined.

(** C10, where the sentence of the specification fails: no
    classification source was collected and the forecasting answer
    carries a null forecast; [len] raises inside the [try] block and
    the function returns the error message alone, without any risk
    level. *)
Lemma extract_key_metrics_counterexample :
  lookup null_forecast_only "classification" = None /\
  (exists msg, extract_key_metrics null_forecast_only = [("error", VStr msg)]) /\
  lookup (extract_key_metrics null_forecast_only) "risk_level" = None.
Proof.
  split; [reflexivity|]. split; [eexists; reflexivity | reflexivity].
Qed.

(** ** Concrete runs *)

Example no_classification_very_low :
  lookup (extract_key_metrics no_classification) "risk_level" = Some (VStr "Very Low").
Proof. reflexivity. Qed.

Example missing_probability_unknown :
  lookup (extract_key_metrics classification_without_probability) "risk_level"
    = Some (VStr "Unknown").
Proof. reflexivity. Qed.

(** When a later source makes the [try] block raise, the handler keeps
    nothing of what was extracted. *)
Example null_forecast_discards_metrics :
  extract_key_metrics QualityReport.null_forecast
    = [("error", VStr "object has no len()")].
Proof. reflexivity. Qed.

End BaseGeneratorFacts.

(* ===================================================================== *)
(** * The emoji cleaner *)
(* ===================================================================== *)

Module EmojiCleanerFacts.
Import EmojiCleaner.
#[local] Open Scope list_scope.

(** ** Occurrences and [str.replace] *)

Lemma disjoint_cons_l a p q :
  disjoint (a :: p) q = true -> existsb (N.eqb a) q = false /\ disjoint p q = true.
Proof.
  unfold disjoint. simpl. rewrite andb_true_iff, negb_true_iff. tauto.
Qed.

Lemma disjoint_cons_r p n q :
  disjoint p (n :: q) = true -> disjoint p q = true.
Proof.
  unfold disjoint. rewrite !forallb_forall. intros H a Ha.
  specialize (H a Ha). simpl in H.
  rewrite negb_true_iff in *. now apply orb_false_elim in H.
Qed.

Lemma disjoint_head a p n q :
  disjoint (a :: p) (n :: q) = true -> N.eqb a n = false.
Proof.
  intros H. apply disjoint_cons_l in H as [H _]. simpl in H.
  now apply orb_false_elim in H.
Qed.

(** A prefix found after the replacement, and made of characters that
    the replacement text does not have, was there before. *)
Lemma prefix_before_replace fuel old new : forall s p,
  nonempty new = true -> disjoint p new = true ->
  prefixb p (replace_loop fuel old new s) = true -> prefixb p s = true.
Proof.
  induction fuel as [|fuel IH]; intros s p Hnew Hdis H; simpl in H; [exact H|].
  destruct s as [|c s]; [exact H|].
  destruct p as [|a p]; [reflexivity|].
  destruct (prefixb old (c :: s)).
  - destruct new as [|n new]; [discriminate|].
    simpl in H. rewrite (disjoint_head _ _ _ _ Hdis) in H. discriminate.
  - simpl in H. simpl. apply andb_true_iff in H as [Hc Hp].
    rewrite Hc. simpl. apply IH; auto.
    now apply disjoint_cons_l in Hdis.
Qed.

Lemma occurs_nil p : nonempty p = true -> occurs p [] = false.
Proof. destruct p; [discriminate | reflexivity]. Qed.

Lemma occurs_cons p c s :
  occurs p (c :: s) = false -> prefixb p (c :: s) = false /\ occurs p s = false.
Proof. simpl. apply orb_false_elim. Qed.

Lemma occurs_skipn p n : forall s,
  occurs p s = false -> occurs p (skipn n s) = false.
Proof.
  induction n as [|n IH]; intros s H; [exact H|].
  destruct s as [|c s]; [exact H|].
  simpl. apply IH. now apply occurs_cons in H.
Qed.

Lemma occurs_after_new p new s :
  nonempty p = true -> disjoint p new = true ->
  occurs p s = false -> occurs p (new ++ s) = false.
Proof.
  intros Hp. induction new as [|n new IH]; intros Hdis Hs; [exact Hs|].
  destruct p as [|a p]; [discriminate|].
  cbn [app occurs]. apply orb_false_intro.
  - cbn [prefixb]. now rewrite (disjoint_head _ _ _ _ Hdis).
  - apply IH; [now apply disjoint_cons_r in Hdis | exact Hs].
Qed.

(** After [s.replace(old, new)] the pattern [p] does not occur, when
    [p] is [old] itself or did not occur before, and shares no character
    with [new]. *)
Lemma no_occurrence_after_replace old new p :
  nonempty old = true -> nonempty new = true -> nonempty p = true ->
  disjoint p new = true ->
  forall fuel s,
    (List.length s <= fuel)%nat ->
    p = old \/ occurs p s = false ->
    occurs p (replace_loop fuel old new s) = false.
Proof.
  intros Hold Hnew Hp Hdis.
  induction fuel as [|fuel IH]; intros s Hlen Hcase.
  - destruct s; [|simpl in Hlen; lia]. now apply occurs_nil.
  - destruct s as [|c s]; [now apply occurs_nil|].
    cbn [replace_loop].
    destruct (prefixb old (c :: s)) eqn:Hmatch.
    + apply occurs_after_new; auto.
      apply IH.
      * destruct old as [|o old]; [discriminate|].
        cbn [List.length skipn]. rewrite length_skipn. simpl in Hlen. lia.
      * destruct Hcase as [-> | Hs]; [now left | right].
        now apply occurs_skipn.
    + cbn [occurs]. apply orb_false_intro.
      * destruct (prefixb p (c :: replace_loop fuel old new s)) eqn:Hpre;
          [|reflexivity].
        assert (Hbefore : prefixb p (c :: s) = true).
        { apply (prefix_before_replace (S fuel) old new); auto.
          cbn [replace_loop]. now rewrite Hmatch. }
        destruct Hcase as [-> | Hs]; [congruence|].
        apply occurs_cons in Hs as [Hs _]. congruence.
      * apply IH; [simpl in Hlen; lia|].
        destruct Hcase as [-> | Hs]; [now left | right].
        now apply occurs_cons in Hs.
Qed.

(** Without an occurrence there is nothing to replace. *)
Lemma replace_without_occurrence old new : forall fuel s,
  occurs old s = false -> replace_loop fuel old new s = s.
Proof.
  induction fuel as [|fuel IH]; intros s H; [reflexivity|].
  destruct s as [|c s]; [reflexivity|].
  cbn [replace_loop]. apply occurs_cons in H as [-> H].
  now rewrite IH.
Qed.

Lemma forallb_skipn {A : Type} (f : A -> bool) n : forall l,
  forallb f l = true -> forallb f (skipn n l) = true.
Proof.
  induction n as [|n IH]; intros l H; [exact H|].
  destruct l as [|x l]; [reflexivity|].
  simpl in *. apply andb_true_iff in H as [_ H]. now apply IH.
Qed.

(** The replacement brings in the characters of [new] and no other. *)
Lemma replace_keeps_class (f : N -> bool) old new :
  forallb f new = true ->
  forall fuel s, forallb f s = true -> forallb f (replace_loop fuel old new s) = true.
Proof.
  intros Hnew. induction fuel as [|fuel IH]; intros s Hs; [exact Hs|].
  destruct s as [|c s]; [reflexivity|].
  cbn [replace_loop]. destruct (prefixb old (c :: s)).
  - rewrite forallb_app, Hnew. simpl. apply IH. now apply forallb_skipn.
  - simpl in *. apply andb_true_iff in Hs as [-> Hs]. simpl. now apply IH.
Qed.

(** A pattern whose first character is absent does not occur. *)
Lemma absent_head_no_occurrence a p : forall s,
  existsb (N.eqb a) s = false -> occurs (a :: p) s = false.
Proof.
  induction s as [|c s IH]; intros H; [reflexivity|].
  simpl in H. apply orb_false_elim in H as [Hc Hs].
  cbn [occurs prefixb]. rewrite Hc. simpl. now apply IH.
Qed.

(** ** The replacement table *)

Lemma str_replace_loop old new s :
  nonempty old = true ->
  str_replace old new s = replace_loop (List.length s) old new s.
Proof. destruct old; [discriminate | reflexivity]. Qed.

Lemma replacements_keep_absent p : forall table,
  nonempty p = true ->
  (forall kr, In kr table ->
     nonempty (fst kr) = true /\ nonempty (snd kr) = true /\
     disjoint p (snd kr) = true) ->
  forall s, occurs p s = false -> occurs p (apply_replacements table s) = false.
Proof.
  unfold apply_replacements.
  induction table as [|[k r] table IH]; intros Hp Htab s Hs; [exact Hs|].
  cbn [fold_left fst snd].
  destruct (Htab (k, r) (or_introl eq_refl)) as (Hk & Hr & Hd). simpl in Hk, Hr, Hd.
  apply IH; [exact Hp | intros kr Hin; apply Htab; now right |].
  rewrite (str_replace_loop _ _ _ Hk).
  apply no_occurrence_after_replace; auto.
Qed.

Lemma replacements_remove_key k r : forall table,
  In (k, r) table ->
  (forall kr, In kr table ->
     nonempty (fst kr) = true /\ nonempty (snd kr) = true /\
     disjoint k (snd kr) = true) ->
  forall s, occurs k (apply_replacements table s) = false.
Proof.
  induction table as [|[k0 r0] table IH]; intros Hin Htab s; [contradiction|].
  destruct (Htab (k0, r0) (or_introl eq_refl)) as (Hk0 & Hr0 & Hd0).
  simpl in Hk0, Hr0, Hd0.
  destruct Hin as [Heq | Hin].
  - injection Heq as -> ->.
    change (apply_replacements ((k, r) :: table) s)
      with (apply_replacements table (str_replace k r s)).
    apply replacements_keep_absent; auto.
    + intros kr Hkr. apply Htab. now right.
    + rewrite (str_replace_loop _ _ _ Hk0).
      apply no_occurrence_after_replace; auto.
  - change (apply_replacements ((k0, r0) :: table) s)
      with (apply_replacements table (str_replace k0 r0 s)).
    apply IH; auto. intros kr Hkr. apply Htab. now right.
Qed.

Lemma replacements_fixed : forall table s,
  (forall kr, In kr table ->
     nonempty (fst kr) = true /\ occurs (fst kr) s = false) ->
  apply_replacements table s = s.
Proof.
  unfold apply_replacements.
  induction table as [|[k r] table IH]; intros s Htab; [reflexivity|].
  cbn [fold_left fst snd].
  destruct (Htab (k, r) (or_introl eq_refl)) as (Hk & Ho). simpl in Hk, Ho.
  rewrite (str_replace_loop _ _ _ Hk), (replace_without_occurrence _ _ _ _ Ho).
  apply IH. intros kr Hkr. apply Htab. now right.
Qed.

Lemma replacements_keep_class (f : N -> bool) : forall table s,
  (forall kr, In kr table ->
     nonempty (fst kr) = true /\ forallb f (snd kr) = true) ->
  forallb f s = true -> forallb f (apply_replacements table s) = true.
Proof.
  unfold apply_replacements.
  induction table as [|[k r] table IH]; intros s Htab Hs; [exact Hs|].
  cbn [fold_left fst snd].
  destruct (Htab (k, r) (or_introl eq_refl)) as (Hk & Hr). simpl in Hk, Hr.
  apply IH; [intros kr Hkr; apply Htab; now right|].
  rewrite (str_replace_loop _ _ _ Hk). now apply replace_keeps_class.
Qed.

Lemma well_separated_entries table :
  well_separated table = true ->
  forall kr, In kr table ->
    nonempty (fst kr) = true /\ nonempty (snd kr) = true /\
    forallb (fun c => negb (emoji_class c)) (fst kr) = true /\
    forallb (fun c => negb (emoji_class c)) (snd kr) = true /\
    forall kr', In kr' table -> disjoint (fst kr') (snd kr) = true.
Proof.
  unfold well_separated. rewrite forallb_forall. intros H kr Hkr.
  specialize (H kr Hkr). rewrite !andb_true_iff in H.
  destruct H as ((((H1 & H2) & H3) & H4) & H5).
  rewrite forallb_forall in H5. repeat split; auto.
Qed.

(** With a well separated table, the replacement loop leaves no key
    behind, so that running it again changes nothing. *)
Lemma apply_replacements_idempotent table s :
  well_separated table = true ->
  apply_replacements table (apply_replacements table s) = apply_replacements table s.
Proof.
  intros Hws. pose proof (well_separated_entries _ Hws) as Hent.
  apply replacements_fixed. intros [k r] Hkr.
  destruct (Hent _ Hkr) as (Hk & _). split; [exact Hk|].
  cbn [fst]. apply (replacements_remove_key k r); auto.
  intros kr' Hkr'. destruct (Hent _ Hkr') as (Hk' & Hr' & _ & _ & Hd).
  repeat split; auto. exact (Hd _ Hkr).
Qed.

Lemma table_well_separated : well_separated emoji_replacements = true.
Proof. vm_compute. reflexivity. Qed.

(** ** One string *)

Lemma remove_emojis_fixed s :
  forallb (fun c => negb (emoji_class c)) s = true -> remove_emojis s = s.
Proof.
  unfold remove_emojis. induction s as [|c s IH]; simpl; [reflexivity|].
  intros H. apply andb_true_iff in H as [-> H]. now rewrite IH.
Qed.

Lemma remove_emojis_class s :
  forallb (fun c => negb (emoji_class c)) (remove_emojis s) = true.
Proof.
  unfold remove_emojis. apply forallb_forall. intros c Hc.
  now apply filter_In in Hc.
Qed.

Lemma clean_unfold s :
  clean_emojis_from_text s = remove_emojis (apply_replacements emoji_replacements s).
Proof. destruct s; reflexivity. Qed.

Lemma key_char_absent s a :
  forallb (fun c => negb (key_char c)) s = true ->
  key_char a = true -> existsb (N.eqb a) s = false.
Proof.
  intros Hs Ha. destruct (existsb (N.eqb a) s) eqn:E; [|reflexivity].
  apply existsb_exists in E as (c & Hc & Heq). apply N.eqb_eq in Heq. subst c.
  rewrite forallb_forall in Hs. specialize (Hs a Hc).
  rewrite Ha in Hs. discriminate.
Qed.

Lemma key_head_is_key_char a p r :
  In (a :: p, r) emoji_replacements -> key_char a = true.
Proof.
  intros Hin. unfold key_char. apply existsb_exists.
  exists (a :: p, r). split; [exact Hin|]. simpl. now rewrite N.eqb_refl.
Qed.

Lemma no_key_char_fixed s :
  forallb (fun c => negb (key_char c)) s = true ->
  apply_replacements emoji_replacements s = s.
Proof.
  intros Hs. apply replacements_fixed. intros [k r] Hkr.
  destruct (well_separated_entries _ table_well_separated _ Hkr) as (Hk & _).
  split; [exact Hk|]. cbn [fst] in *.
  destruct k as [|a p]; [discriminate|].
  apply absent_head_no_occurrence.
  eapply key_char_absent; eauto using key_head_is_key_char.
Qed.

(** ** A whole report *)

Lemma report_data_induction (P : report_data -> Prop) :
  (forall s, P (RStr s)) ->
  (forall items, Forall P items -> P (RList items)) ->
  (forall entries, Forall (fun kv => P (snd kv)) entries -> P (RDict entries)) ->
  (forall a, P (ROther a)) ->
  forall report, P report.
Proof.
  intros HS HL HD HO. fix IH 1. intros [s | items | entries | a].
  - apply HS.
  - apply HL. induction items as [|x items IHitems]; constructor;
      [apply IH | exact IHitems].
  - apply HD. induction entries as [|[k v] entries IHentries]; constructor;
      [apply IH | exact IHentries].
  - apply HO.
Qed.

(** The three branches of the loop over a dictionary amount to one
    recursive call on the value. *)
Lemma clean_dict entries :
  clean_report_content (RDict entries)
    = RDict (map (fun kv => (fst kv, clean_report_content (snd kv))) entries).
Proof.
  cbn [clean_report_content]. f_equal. apply map_ext.
  intros [k [s | items | es | a]]; reflexivity.
Qed.

Lemma forallb_flat_map {A B : Type} (f : B -> bool) (g : A -> list B) l x :
  forallb f (flat_map g l) = true -> In x l -> forallb f (g x) = true.
Proof.
  induction l as [|y l IH]; simpl; [contradiction|].
  rewrite forallb_app, andb_true_iff. intros [Hy Hl] [-> | Hx]; auto.
Qed.

End EmojiCleanerFacts.

(* ===================================================================== *)
(** * The collector's history and risk assessment *)
(* ===================================================================== *)

Module CollectorHistoryFacts.
Import Py PyNotations ClassificationCollector CollectorHistory.
#[local] Open Scope list_scope.

Lemma collect_data_adds c now rd rq :
  exists record,
    snd (collect_data c now rd rq) = _add_to_history c record.
Proof.
  unfold collect_data.
  destruct (bind (_collect_defect_data c rd) _) as [r|e]; eexists; reflexivity.
Qed.

Lemma length_last_n {A : Type} (n : nat) (l : list A) :
  List.length (last_n n l) = Nat.min n (List.length l).
Proof. unfold last_n. rewrite length_skipn. lia. Qed.

Lemma add_to_history_length c record :
  (List.length (recent_classifications c) <= max_history)%nat ->
  List.length (recent_classifications (_add_to_history c record))
    = Nat.min max_history (S (List.length (recent_classifications c))).
Proof.
  intros Hlen.
  destruct (ClassificationCollectorFacts.add_to_history_newest c record)
    as (older & _ & ->).
  rewrite length_last_n, length_app. cbn [List.length].
  unfold max_history in *. lia.
Qed.

(** X1.  The history never grows past [max_history]: starting from a
    history of at most 100 records, any number of collection cycles,
    failed or not, leaves [min 100 (old + cycles)] records. *)
Theorem history_stays_bounded (c : collector)
    (cycles : list (string * http_reply * http_reply)) :
  (List.length (recent_classifications c) <= max_history)%nat ->
  List.length (recent_classifications (collect_many c cycles))
    = Nat.min max_history (List.length (recent_classifications c) + List.length cycles).
Proof.
  revert c. induction cycles as [|[[now rd] rq] cycles IH]; intros c Hlen.
  - cbn [collect_many List.length]. unfold max_history in *. lia.
  - cbn [collect_many List.length].
    destruct (collect_data_adds c now rd rq) as (record & Hadd).
    pose proof (add_to_history_length c record Hlen) as Hstep.
    rewrite <- Hadd in Hstep.
    rewrite IH; rewrite Hstep; unfold max_history in *; lia.
Qed.

Lemma history_stays_bounded_witness :
  (List.length (recent_classifications fresh_collector) <= max_history)%nat /\
  List.length (recent_classifications (collect_many fresh_collector sample_cycles)) = 2%nat.
Proof.
  assert (H : (List.length (recent_classifications fresh_collector) <= max_history)%nat)
    by (unfold max_history; simpl; lia).
  split; [exact H|].
  exact (history_stays_bounded fresh_collector sample_cycles H).
Defined.

(** X2.  [get_historical_data(limit)] with a positive limit returns the
    newest [min limit len] records, in order, as the end of the history;
    with the limit 0 it returns the whole history, not the empty
    list. *)
Theorem historical_data_is_a_suffix (c : collector) (limit : Z) :
  ((1 <= limit)%Z ->
     List.length (get_historical_data c limit)
       = Nat.min (Z.to_nat limit) (List.length (recent_classifications c)) /\
     exists older,
       recent_classifications c = older ++ get_historical_data c limit) /\
  (limit = 0%Z -> get_historical_data c limit = recent_classifications c).
Proof.
  unfold get_historical_data, slice_from. split.
  - intros Hpos.
    destruct (recent_classifications c) as [|r h] eqn:Hh.
    + split; [cbn [List.length]; lia | exists []; reflexivity].
    + destruct (Z.leb_spec 0 (- limit)) as [H|H]; [lia|].
      rewrite Z.opp_involutive. split.
      * rewrite length_skipn. lia.
      * exists (firstn (List.length (r :: h) - Z.to_nat limit) (r :: h)).
        now rewrite firstn_skipn.
  - intros ->. destruct (recent_classifications c); reflexivity.
Qed.

Lemma historical_data_is_a_suffix_witness :
  (1 <= 1)%Z /\
  List.length (get_historical_data (collect_many fresh_collector sample_cycles) 1) = 1%nat.
Proof.
  split; [lia|].
  exact (proj1 (proj1 (historical_data_is_a_suffix
                         (collect_many fresh_collector sample_cycles) 1) ltac:(lia))).
Defined.

(** ** Risk assessment *)

Lemma defect_risk_scores entry factors score :
  defect_risk entry = Ok (factors, score) ->
  (reports_success entry = true ->
     score = 40%nat \/ score = 25%nat \/ score = 15%nat \/ score = 0%nat) /\
  (reports_success entry = false -> score = 20%nat).
Proof.
  unfold defect_risk, reports_success. intros H.
  apply PyFacts.bind_ok in H as (st & -> & H).
  destruct (eq_str st "success").
  - split; [intros _ | discriminate].
    apply PyFacts.bind_ok in H as (p & _ & H).
    apply PyFacts.bind_ok in H as ([|] & _ & H); [injection H as _ <-; auto|].
    apply PyFacts.bind_ok in H as ([|] & _ & H); [injection H as _ <-; auto|].
    apply PyFacts.bind_ok in H as ([|] & _ & H); injection H as _ <-; auto.
  - split; [discriminate | intros _]. now injection H as _ <-.
Qed.

Lemma quality_risk_scores entry factors score :
  quality_risk entry = Ok (factors, score) ->
  (reports_success entry = true ->
     score = 30%nat \/ score = 15%nat \/ score = 0%nat) /\
  (reports_success entry = false -> score = 15%nat).
Proof.
  unfold quality_risk, reports_success. intros H.
  apply PyFacts.bind_ok in H as (st & -> & H).
  destruct (eq_str st "success").
  - split; [intros _ | discriminate].
    apply PyFacts.bind_ok in H as (qc & _ & H).
    apply PyFacts.bind_ok in H as (l1 & _ & H).
    destruct (_ || _); [injection H as _ <-; auto|].
    apply PyFacts.bind_ok in H as (l2 & _ & H).
    destruct (String.eqb l2 "medium"); injection H as _ <-; auto.
  - split; [discriminate | intros _]. now injection H as _ <-.
Qed.

(** X3.  Whenever [get_risk_assessment] returns an assessment: the
    score is at most 70; the level is 'critical' exactly when the score
    is 70, which needs both predictions of the latest record to have
    succeeded (an unavailable system alone never gives 'critical'); and
    when the defect prediction is unavailable the level is 'medium' or
    'high', never 'low'. *)
Theorem risk_assessment_levels (c : collector) level score factors ts dp qc :
  get_risk_assessment c = assessment level score factors ts dp qc ->
  (score <= 70)%nat /\
  level = risk_level_for score /\
  (level = "critical" <-> score = 70%nat) /\
  (level = "critical" ->
     latest_succeeded c "defect_prediction" = true /\
     latest_succeeded c "quality_prediction" = true) /\
  (latest_succeeded c "defect_prediction" = false ->
     level = "medium" \/ level = "high").
Proof.
  unfold get_risk_assessment, latest_succeeded.
  destruct (recent_classifications c) as [|first others]; [discriminate|].
  destruct (List.last others first) as [| | | | |latest]; try discriminate.
  cbn [get_method bind].
  set (d := get_default latest "defect_prediction" (VDict [])).
  set (q := get_default latest "quality_prediction" (VDict [])).
  destruct (defect_risk d) as [[fd sd]|] eqn:Hd; cbn [bind]; [|discriminate].
  destruct (quality_risk q) as [[fq sq]|] eqn:Hq; cbn [bind]; [|discriminate].
  destruct (get_method d "defect_probability" (VStr "N/A")); cbn [bind]; [|discriminate].
  destruct (get_method q "quality_class" (VStr "N/A")); cbn [bind]; [|discriminate].
  intros H. injection H as <- <- _ _ _ _. cbn [snd].
  destruct (defect_risk_scores _ _ _ Hd) as [Hd1 Hd0].
  destruct (quality_risk_scores _ _ _ Hq) as [Hq1 Hq0].
  destruct (reports_success d), (reports_success q);
    repeat match goal with
           | H : true = true -> _ |- _ => specialize (H eq_refl)
           | H : false = false -> _ |- _ => specialize (H eq_refl)
           | H : true = false -> _ |- _ => clear H
           | H : false = true -> _ |- _ => clear H
           | H : _ \/ _ |- _ => destruct H
           end; subst; cbn;
    (split; [lia|]); (split; [reflexivity|]);
    (split; [split; intros; try discriminate; try lia; try reflexivity|]);
    (split; [intros; try discriminate; auto|]);
    intros; try discriminate; auto.
Qed.

(** Witness: both endpoints failed in the newest cycle. *)
Lemma risk_assessment_levels_witness :
  get_risk_assessment (collect_many fresh_collector sample_cycles)
    = assessment "medium" 35
        ["Defect prediction system unavailable"; "Quality prediction system unavailable"]
        (VStr "2025-01-01T00:05:00") (VStr "N/A") (VStr "N/A") /\
  (35 <= 70)%nat.
Proof.
  split; [reflexivity|].
  exact (proj1 (risk_assessment_levels (collect_many fresh_collector sample_cycles)
                  _ _ _ _ _ _ eq_refl)).
Defined.

End CollectorHistoryFacts.

(* ===================================================================== *)
(** * Defect statistics *)
(* ===================================================================== *)

Module DefectStatisticsFacts.
Import Py PyNotations DefectAnalysis.
#[local] Open Scope list_scope.



End DefectStatisticsFacts.

(* ===================================================================== *)
(** * The emoji cleaner: what the output holds *)
(* ===================================================================== *)

Module EmojiCleanerOutputFacts.
Import EmojiCleaner.
#[local] Open Scope list_scope.

Lemma flat_map_map {A B C : Type} (f : A -> B) (g : B -> list C) (l : list A) :
  flat_map g (map f l) = flat_map (fun x => g (f x)) l.
Proof. induction l as [|x l IH]; simpl; [reflexivity | now rewrite IH]. Qed.

Lemma flat_map_ext_in {A B : Type} (f g : A -> list B) (l : list A) :
  (forall x, In x l -> f x = g x) -> flat_map f l = flat_map g l.
Proof.
  induction l as [|x l IH]; intros H; simpl; [reflexivity|].
  rewrite (H x (or_introl eq_refl)), IH; [reflexivity|].
  intros y Hy. apply H. now right.
Qed.

Lemma map_flat_map {A B C : Type} (f : B -> C) (g : A -> list B) (l : list A) :
  map f (flat_map g l) = flat_map (fun x => map f (g x)) l.
Proof.
  induction l as [|x l IH]; simpl; [reflexivity|].
  now rewrite map_app, IH.
Qed.

(** The strings of the cleaned report are the cleaned strings of the
    report, in the same order. *)
Lemma strings_of_clean report :
  strings_of (clean_report_content report)
    = map clean_emojis_from_text (strings_of report).
Proof.
  induction report as [s | items IH | entries IH | a]
    using EmojiCleanerFacts.report_data_induction.
  - reflexivity.
  - cbn [clean_report_content strings_of].
    rewrite flat_map_map, map_flat_map. apply flat_map_ext_in.
    intros x Hx. rewrite Forall_forall in IH. now apply IH.
  - rewrite EmojiCleanerFacts.clean_dict. cbn [strings_of].
    rewrite flat_map_map, map_flat_map. apply flat_map_ext_in.
    intros [k v] Hkv. cbn [fst snd]. rewrite Forall_forall in IH.
    exact (IH (k, v) Hkv).
  - reflexivity.
Qed.


Lemma below_a0_not_key c : (c < 0xA0)%N -> key_char c = false.
Proof.
  intros H. unfold key_char, emoji_replacements. cbn [existsb fst].
  repeat match goal with
         | |- context [N.eqb c ?k] =>
             rewrite (proj2 (N.eqb_neq c k)) by lia
         end.
  reflexivity.
Qed.

Lemma below_a0_not_emoji c : (c < 0xA0)%N -> emoji_class c = false.
Proof.
  intros H. unfold emoji_class, in_range.
  repeat match goal with
         | |- context [N.leb ?lo c] =>
             rewrite (proj2 (N.leb_gt lo c)) by lia
         | |- context [N.eqb c ?k] =>
             rewrite (proj2 (N.eqb_neq c k)) by lia
         end.
  reflexivity.
Qed.

Lemma plain_text_unchanged s :
  forallb (fun c => N.ltb c 0xA0) s = true -> clean_emojis_from_text s = s.
Proof.
  intros H. rewrite EmojiCleanerFacts.clean_unfold.
  rewrite forallb_forall in H.
  rewrite EmojiCleanerFacts.no_key_char_fixed.
  - apply EmojiCleanerFacts.remove_emojis_fixed. apply forallb_forall.
    intros c Hc. rewrite below_a0_not_emoji; [reflexivity|].
    apply N.ltb_lt. now apply H.
  - apply forallb_forall. intros c Hc. rewrite below_a0_not_key; [reflexivity|].
    apply N.ltb_lt. now apply H.
Qed.

(** X7.  A report whose strings hold only code points below U+00A0
    (ASCII text in particular) comes back unchanged: same keys, same
    order, same strings, same other values. *)
Theorem plain_report_unchanged (report : report_data) :
  forallb (forallb (fun c => N.ltb c 0xA0)) (strings_of report) = true ->
  clean_report_content report = report.
Proof.
  induction report as [s | items IH | entries IH | a]
    using EmojiCleanerFacts.report_data_induction.
  - cbn [strings_of forallb clean_report_content]. rewrite andb_true_r.
    intros H. f_equal. now apply plain_text_unchanged.
  - cbn [strings_of clean_report_content]. intros H. f_equal.
    rewrite <- (map_id items) at 2. apply map_ext_in. intros x Hx.
    rewrite Forall_forall in IH. apply (IH x Hx).
    exact (EmojiCleanerFacts.forallb_flat_map _ _ _ _ H Hx).
  - rewrite EmojiCleanerFacts.clean_dict. cbn [strings_of]. intros H. f_equal.
    rewrite <- (map_id entries) at 2. apply map_ext_in. intros [k v] Hkv.
    cbn [fst snd]. f_equal. rewrite Forall_forall in IH. apply (IH (k, v) Hkv).
    exact (EmojiCleanerFacts.forallb_flat_map _ (fun kv => strings_of (snd kv))
             _ _ H Hkv).
  - reflexivity.
Qed.

Lemma plain_report_unchanged_witness :
  forallb (forallb (fun c => N.ltb c 0xA0))
    (strings_of (RDict [("title", RStr (codes "Quality Control Report"));
                        ("rate", ROther (ANum 75))])) = true /\
  clean_report_content (RDict [("title", RStr (codes "Quality Control Report"));
                               ("rate", ROther (ANum 75))])
    = RDict [("title", RStr (codes "Quality Control Report"));
             ("rate", ROther (ANum 75))].
Proof.
  split; [vm_compute; reflexivity|].
  apply (plain_report_unchanged
           (RDict [("title", RStr (codes "Quality Control Report"));
                   ("rate", ROther (ANum 75))])).
  vm_compute. reflexivity.
Defined.

(** X8.  After the replacement loop no key of the table is left in the
    string, whatever the string was: a key that an earlier replacement
    would uncover cannot arise, since the labels share no character with
    the keys. *)
Theorem no_key_left_after_replacements (s k r : text) :
  In (k, r) emoji_replacements ->
  occurs k (apply_replacements emoji_replacements s) = false.
Proof.
  intros Hin.
  pose proof (EmojiCleanerFacts.well_separated_entries _
                EmojiCleanerFacts.table_well_separated) as Hent.
  apply (EmojiCleanerFacts.replacements_remove_key k r); [exact Hin|].
  intros kr' Hkr'. destruct (Hent _ Hkr') as (Hk' & Hr' & _ & _ & Hd).
  repeat split; auto. exact (Hd _ Hin).
Qed.

Lemma no_key_left_after_replacements_witness :
  In ([0xe2; 0x152]%N, codes "[FAIL]") emoji_replacements /\
  occurs [0xe2; 0x152]%N
    (apply_replacements emoji_replacements [0x41; 0xe2; 0x152; 0xe2; 0x152; 0x42]%N)
    = false.
Proof.
  assert (H : In ([0xe2; 0x152]%N, codes "[FAIL]") emoji_replacements).
  { unfold emoji_replacements. simpl. tauto. }
  split; [exact H|].
  exact (no_key_left_after_replacements _ _ _ H).
Defined.

(** ** Cleaning twice *)

Lemma brackets_app a b : brackets (a ++ b) = (brackets a + brackets b)%nat.
Proof. unfold brackets. now rewrite filter_app, length_app. Qed.

Lemma brackets_cons c s : brackets (c :: s) = (brackets [c] + brackets s)%nat.
Proof. exact (brackets_app [c] s). Qed.

Lemma brackets_prefix : forall old s,
  prefixb old s = true ->
  brackets s = (brackets old + brackets (skipn (List.length old) s))%nat.
Proof.
  induction old as [|a old IH]; intros s H; [reflexivity|].
  destruct s as [|b s]; [discriminate|].
  cbn [prefixb] in H. apply andb_true_iff in H as [Hab H].
  apply N.eqb_eq in Hab. subst b.
  cbn [List.length skipn].
  rewrite (brackets_cons a s), (brackets_cons a old), (IH s H). lia.
Qed.

(** [s.replace(old, new)] keeps the brackets of [s] when [old] has
    none, and adds those of [new] when [old] occurs. *)
Lemma replace_brackets old new :
  nonempty old = true -> brackets old = 0%nat ->
  forall fuel s,
    (List.length s <= fuel)%nat ->
    (brackets s + (if occurs old s then brackets new else 0)
       <= brackets (replace_loop fuel old new s))%nat.
Proof.
  intros Hold Hb. induction fuel as [|fuel IH]; intros s Hlen.
  - destruct s; [|simpl in Hlen; lia].
    rewrite (EmojiCleanerFacts.occurs_nil _ Hold). reflexivity.
  - destruct s as [|c s].
    + rewrite (EmojiCleanerFacts.occurs_nil _ Hold). reflexivity.
    + cbn [replace_loop occurs].
      destruct (prefixb old (c :: s)) eqn:Hmatch.
      * cbn [orb]. rewrite brackets_app, (brackets_prefix _ _ Hmatch), Hb.
        assert (Hskip : (List.length (skipn (List.length old) (c :: s)) <= fuel)%nat).
        { destruct old as [|o old]; [discriminate|].
          cbn [List.length skipn]. rewrite length_skipn. simpl in Hlen. lia. }
        specialize (IH _ Hskip). lia.
      * cbn [orb].
        rewrite (brackets_cons c s), (brackets_cons c (replace_loop fuel old new s)).
        assert (Hs : (List.length s <= fuel)%nat) by (simpl in Hlen; lia).
        specialize (IH _ Hs). lia.
Qed.

Lemma bracketing_entries table :
  bracketing table = true ->
  forall kr, In kr table ->
    nonempty (fst kr) = true /\ brackets (fst kr) = 0%nat /\
    (1 <= brackets (snd kr))%nat.
Proof.
  unfold bracketing. rewrite forallb_forall. intros H kr Hkr.
  specialize (H kr Hkr). rewrite !andb_true_iff in H.
  destruct H as ((H1 & H2) & H3).
  apply Nat.eqb_eq in H2. apply Nat.leb_le in H3. auto.
Qed.

(** The replacement loop never loses a bracket, and gains one as soon
    as a key occurs in the string it is given. *)
Lemma replacements_brackets : forall table,
  bracketing table = true ->
  forall s,
    (brackets s <= brackets (apply_replacements table s))%nat /\
    (existsb (fun kr => occurs (fst kr) s) table = true ->
     (brackets s < brackets (apply_replacements table s))%nat).
Proof.
  induction table as [|[k r] table IH]; intros Hb s.
  - split; [reflexivity | discriminate].
  - destruct (bracketing_entries _ Hb (k, r) (or_introl eq_refl)) as (Hk & Hk0 & Hr).
    cbn [fst snd] in Hk, Hk0, Hr.
    assert (Hb' : bracketing table = true).
    { unfold bracketing in *. cbn [forallb] in Hb.
      now apply andb_true_iff in Hb as [_ Hb]. }
    change (apply_replacements ((k, r) :: table) s)
      with (apply_replacements table (str_replace k r s)).
    rewrite (EmojiCleanerFacts.str_replace_loop _ _ _ Hk).
    pose proof (replace_brackets k r Hk Hk0 (List.length s) s (Nat.le_refl _)) as Hstep.
    destruct (IH Hb' (replace_loop (List.length s) k r s)) as [Hmono Hgain].
    cbn [existsb fst].
    destruct (occurs k s) eqn:Ho.
    + split; [lia | intros _; lia].
    + rewrite (EmojiCleanerFacts.replace_without_occurrence _ _ _ _ Ho) in *.
      cbn [orb]. split; [exact Hmono | exact Hgain].
Qed.

Lemma table_bracketing : bracketing emoji_replacements = true.
Proof. vm_compute. reflexivity. Qed.

Lemma remove_emojis_brackets s : brackets (remove_emojis s) = brackets s.
Proof.
  unfold brackets, remove_emojis.
  induction s as [|c s IH]; [reflexivity|].
  cbn [filter]. destruct (N.eqb 0x5B c) eqn:Ec.
  - apply N.eqb_eq in Ec. subst c. cbn. now rewrite IH.
  - destruct (negb (emoji_class c)); cbn [filter]; [rewrite Ec|]; exact IH.
Qed.

(** A string without a character of the deleted class is left as it is
    exactly when no key occurs in it. *)
Lemma clean_text_fixed s :
  forallb (fun c => negb (emoji_class c)) s = true ->
  (clean_emojis_from_text s = s <-> holds_key s = false).
Proof.
  intros Hclass. rewrite EmojiCleanerFacts.clean_unfold. split.
  - intros Hfix. destruct (holds_key s) eqn:Hk; [exfalso | reflexivity].
    destruct (replacements_brackets _ table_bracketing s) as [_ Hgain].
    specialize (Hgain Hk).
    rewrite <- (remove_emojis_brackets (apply_replacements emoji_replacements s)),
      Hfix in Hgain. lia.
  - intros Hk.
    rewrite EmojiCleanerFacts.replacements_fixed.
    + now apply EmojiCleanerFacts.remove_emojis_fixed.
    + intros kr Hkr.
      destruct (EmojiCleanerFacts.well_separated_entries _
                  EmojiCleanerFacts.table_well_separated _ Hkr) as (Hne & _).
      split; [exact Hne|].
      destruct (occurs (fst kr) s) eqn:Ho; [|reflexivity].
      assert (holds_key s = true); [|congruence].
      unfold holds_key. apply existsb_exists. now exists kr.
Qed.

Lemma map_fixed {A : Type} (f : A -> A) (l : list A) :
  map f l = l <-> Forall (fun x => f x = x) l.
Proof.
  induction l as [|x l IH]; cbn [map].
  - split; [constructor | reflexivity].
  - split.
    + intros H. injection H as Hx Hl. constructor; [exact Hx | now apply IH].
    + intros H. inversion H as [|? ? Hx Hl]; subst. rewrite Hx.
      f_equal. now apply IH.
Qed.

Lemma Forall_flat_map {A B : Type} (P : B -> Prop) (g : A -> list B) (l : list A) :
  Forall P (flat_map g l) <-> Forall (fun x => Forall P (g x)) l.
Proof.
  induction l as [|x l IH]; cbn [flat_map].
  - split; constructor.
  - rewrite Forall_app, IH. split.
    + intros [H1 H2]. now constructor.
    + intros H. inversion H; subst. now split.
Qed.

(** A report is left as it is exactly when each of its strings is. *)
Lemma clean_report_fixed report :
  clean_report_content report = report <->
  Forall (fun s => clean_emojis_from_text s = s) (strings_of report).
Proof.
  induction report as [s | items IH | entries IH | a]
    using EmojiCleanerFacts.report_data_induction.
  - cbn [clean_report_content strings_of]. split.
    + intros H. injection H as H. now constructor.
    + intros H. inversion H; subst. now f_equal.
  - cbn [clean_report_content strings_of].
    rewrite Forall_flat_map. split.
    + intros H. injection H as H. apply map_fixed in H.
      rewrite Forall_forall in *. intros x Hx. apply (IH x Hx). now apply H.
    + intros H. f_equal. apply map_fixed.
      rewrite Forall_forall in *. intros x Hx. apply (IH x Hx). now apply H.
  - rewrite EmojiCleanerFacts.clean_dict. cbn [strings_of].
    rewrite (Forall_flat_map _ (fun kv => strings_of (snd kv))). split.
    + intros H. injection H as H. apply map_fixed in H.
      rewrite Forall_forall in *. intros [k v] Hkv. cbn [snd].
      apply (IH (k, v) Hkv). specialize (H (k, v) Hkv). cbn [fst snd] in H.
      now injection H.
    + intros H. f_equal. apply map_fixed.
      rewrite Forall_forall in *. intros [k v] Hkv. cbn [fst snd]. f_equal.
      apply (IH (k, v) Hkv). exact (H (k, v) Hkv).
  - split; [constructor | reflexivity].
Qed.

(** C9.  Cleaning is not idempotent.  Applying [clean_report_content]
    twice gives the result of applying it once exactly when no string of
    the once-cleaned report holds a key of the replacement table, and a
    first pass can leave such a key: in the string U+00E2 U+200D U+0152
    the pattern deletes the joiner U+200D and the two characters left
    are the key of [FAIL], which only a second pass replaces.  The keys
    of the table are not emoji but the UTF-8 bytes of emoji read one
    byte a character: the check mark U+2705 itself gets no label, it is
    deleted. *)
Theorem clean_report_content_twice :
  (forall report,
     clean_report_content (clean_report_content report) = clean_report_content report
     <->
     forallb (fun s => negb (holds_key s))
       (strings_of (clean_report_content report)) = true) /\
  clean_emojis_from_text split_key = [0xe2; 0x152]%N /\
  holds_key (clean_emojis_from_text split_key) = true /\
  clean_emojis_from_text (clean_emojis_from_text split_key) = codes "[FAIL]" /\
  clean_report_content (clean_report_content split_key_report)
    <> clean_report_content split_key_report /\
  clean_emojis_from_text check_mark = [].
Proof.
  split.
  - intros report. rewrite clean_report_fixed, forallb_forall, Forall_forall.
    assert (Hclass : forall s, In s (strings_of (clean_report_content report)) ->
              forallb (fun c => negb (emoji_class c)) s = true).
    { intros s Hs. rewrite strings_of_clean in Hs.
      apply in_map_iff in Hs as (s0 & <- & _).
      rewrite EmojiCleanerFacts.clean_unfold.
      apply EmojiCleanerFacts.remove_emojis_class. }
    split; intros H s Hs.
    + apply negb_true_iff. apply (clean_text_fixed s (Hclass s Hs)). now apply H.
    + apply (clean_text_fixed s (Hclass s Hs)). apply negb_true_iff. now apply H.
  - split; [vm_compute; reflexivity|].
    split; [vm_compute; reflexivity|].
    split; [vm_compute; reflexivity|].
    split; [vm_compute; discriminate|].
    vm_compute. reflexivity.
Qed.

End EmojiCleanerOutputFacts.

(* ===================================================================== *)
(** * The Gemini client: the cost of one request *)
(* ===================================================================== *)

Module GeminiEffortFacts.
Import Py Gemini.
#[local] Open Scope list_scope.

Ltac next_call :=
  match goal with
  | |- context [generate_content ?c ?n ?p] =>
      let e := fresh "e" in
      destruct (generate_content c n p) as [? ?|e];
      [| destruct (is_rate_limit (exn_msg e))]
  end.

Ltac settle :=
  cbn [fst snd calls slept];
  split;
  [ eexists; split; [reflexivity|];
    let r := fresh "r" in let Hr := fresh "Hr" in
    intros r Hr; inversion Hr; subst; cbn;
    first [now left | right; eexists; reflexivity]
  | split; [lia|];
    split;
    [ eexists; split;
      [ first [ symmetry; apply app_nil_r
              | reflexivity
              | rewrite <- !app_assoc; reflexivity ]
      | cbn; lia ]
    | let r := fresh "r" in let a := fresh "a" in
      let Hr := fresh "Hr" in let Ha := fresh "Ha" in
      intros r a Hr Ha; inversion Hr; subst; cbn in Ha; inversion Ha; lia ] ].

(** X9.  One request to the client, in either mode and whatever the
    model answers: no exception escapes; at most six calls reach the
    model and at most 90 seconds are slept (three calls and 45 seconds
    in compact mode); a returned dictionary either has status 'success'
    or is the fallback dictionary; and the attempt number reported with
    a success lies between 1 and 3. *)
Theorem request_effort_is_bounded (c : client) (report_type : string)
    (use_compact_mode : bool) (fx : effects) :
  let run := generate_comprehensive_report c report_type use_compact_mode fx in
  (exists o, fst run = Ok o /\
     forall r, o = Some r ->
       status r = "success" \/ exists err, r = fallback_response c report_type err) /\
  (calls fx <= calls (snd run) <= calls fx + (if use_compact_mode then 3 else 6))%nat /\
  (exists delays, slept (snd run) = slept fx ++ delays /\
     (list_sum delays <= (if use_compact_mode then 45 else 90))%nat) /\
  (forall r a, fst run = Ok (Some r) -> attempt r = Some a -> (1 <= a <= 3)%nat).
Proof.
  unfold generate_comprehensive_report, activation.
  destruct (available c); cbn [negb];
    [| destruct use_compact_mode; settle ].
  destruct use_compact_mode.
  - destruct (build_prompt c true) as [prompt|e0]; [| settle ].
    cbn -[list_sum Nat.add].
    next_call; [settle | | settle]. cbn -[list_sum Nat.add].
    next_call; [settle | | settle]. cbn -[list_sum Nat.add].
    next_call; settle.
  - destruct (build_prompt c false) as [prompt|e0]; [| settle ].
    cbn -[list_sum Nat.add].
    next_call; [settle | | settle]. cbn -[list_sum Nat.add].
    next_call; [settle | | settle]. cbn -[list_sum Nat.add].
    next_call; [settle | | settle]. cbn -[list_sum Nat.add].
    destruct (build_prompt c true) as [prompt'|e0']; [| settle ].
    cbn -[list_sum Nat.add].
    next_call; [settle | | settle]. cbn -[list_sum Nat.add].
    next_call; [settle | | settle]. cbn -[list_sum Nat.add].
    next_call; settle.
Qed.

End GeminiEffortFacts.

(* ===================================================================== *)
(** * The knowledge store: what adding and cleaning change *)
(* ===================================================================== *)

Module KnowledgeStoreFacts.
Import Py KnowledgeBase KnowledgeStats.
#[local] Open Scope list_scope.

(** ** Cleanup *)

Lemma older_than_ok cutoff d old :
  older_than cutoff d = Ok old ->
  old = lexically_older cutoff d /\ exists s, timestamp_string d = Some s.
Proof.
  unfold older_than, lexically_older, timestamp_string.
  destruct (stored_timestamp d); intros [= <-]; eauto.
Qed.

Lemma old_ids_ok cutoff col : forall ids,
  old_ids_of cutoff col = Ok ids ->
  ids = map doc_id (filter (lexically_older cutoff) col) /\ string_timestamps col.
Proof.
  induction col as [|d col IH]; intros ids H.
  - injection H as <-. split; [reflexivity | constructor].
  - cbn [old_ids_of] in H.
    apply PyFacts.bind_ok in H as (old & Hold & H).
    apply PyFacts.bind_ok in H as (ids' & Hids & H).
    injection H as <-.
    destruct (older_than_ok _ _ _ Hold) as [-> Hs].
    destruct (IH _ Hids) as [-> Hcol].
    split; [| now constructor].
    cbn [filter]. now destruct (lexically_older cutoff d).
Qed.

(** A collection on which the loop does not stop becomes the list of
    its survivors. *)
Lemma cleaned_collection cutoff col ids :
  unique_ids col ->
  old_ids_of cutoff col = Ok ids ->
  match ids with [] => col | _ => collection_delete ids col end
    = survivors cutoff col.
Proof.
  intros Hu H. destruct (old_ids_ok _ _ _ H) as [-> _].
  destruct (map doc_id (filter (lexically_older cutoff) col)) eqn:E.
  - symmetry. now apply KnowledgeBaseFacts.nothing_old_all_survive.
  - rewrite <- E. now apply KnowledgeBaseFacts.delete_old_ids.
Qed.

Lemma spared_refl cutoff nc : spared cutoff nc nc.
Proof. unfold spared. auto. Qed.

Lemma survivors_spared cutoff name col :
  spared cutoff (name, col) (name, survivors cutoff col).
Proof.
  unfold spared, survivors. cbn [fst snd]. repeat split.
  - intros d Hd. now apply filter_In in Hd.
  - intros d Hd Hold. apply filter_In. now rewrite Hold.
  - apply filter_length_le.
Qed.

Lemma cleanup_collections_spare cutoff cols :
  Forall (fun nc => unique_ids (snd nc)) cols ->
  Forall2 (spared cutoff) cols (fst (cleanup_collections cutoff cols)).
Proof.
  induction 1 as [|[name col] cols Hu _ IH]; cbn [cleanup_collections fst].
  - constructor.
  - cbn [snd] in Hu. destruct (old_ids_of cutoff col) as [ids|e] eqn:E.
    + rewrite (cleaned_collection _ _ _ Hu E).
      destruct (cleanup_collections cutoff cols) as [rest' stopped].
      cbn [fst] in *. constructor; [apply survivors_spared | exact IH].
    + cbn [fst]. constructor; [apply spared_refl|].
      clear. induction cols; constructor; auto using spared_refl.
Qed.

Lemma unique_ids_sample : Forall (fun nc => unique_ids (snd nc)) sample_collections.
Proof.
  repeat constructor; cbn; intros H; intuition discriminate.
Qed.

(** X10.  Whatever the stored timestamps are (strings or not) and
    whether the index is up or not, the cleanup keeps the names and the
    order of the collections, adds no document, and, when the ids of
    each collection are unique, deletes no document whose timestamp is
    not a string lexically smaller than the cutoff. *)
Theorem cleanup_spares_recent (kb : manager) (cutoff_timestamp : string) :
  Forall (fun nc => unique_ids (snd nc)) (collections kb) ->
  Forall2 (spared cutoff_timestamp)
    (collections kb)
    (collections (snd (cleanup_old_embeddings kb cutoff_timestamp))).
Proof.
  intros Hu. unfold cleanup_old_embeddings. destruct (client kb); cbn [snd].
  - now apply cleanup_collections_spare.
  - clear. induction (collections kb); constructor; auto using spared_refl.
Qed.

Lemma cleanup_spares_recent_witness :
  Forall2 (spared sample_cutoff)
    (collections sample_manager)
    (collections (snd (cleanup_old_embeddings sample_manager sample_cutoff))).
Proof.
  exact (cleanup_spares_recent sample_manager sample_cutoff unique_ids_sample).
Defined.

Lemma filter_none {A : Type} (f : A -> bool) (l : list A) :
  (forall x, In x l -> f x = false) -> filter f l = [].
Proof.
  induction l as [|x l IH]; intros H; cbn; [reflexivity|].
  rewrite (H x (or_introl eq_refl)). apply IH. intros y Hy. apply H. now right.
Qed.

Lemma string_timestamps_filter f col :
  string_timestamps col -> string_timestamps (filter f col).
Proof.
  unfold string_timestamps. rewrite !Forall_forall. intros H d Hd.
  apply filter_In in Hd as [Hd _]. auto.
Qed.

(** Once cleaned, a collection holds nothing for the loop to list. *)
Lemma cleaned_collection_is_clean cutoff col ids :
  old_ids_of cutoff col = Ok ids ->
  old_ids_of cutoff (match ids with [] => col | _ => collection_delete ids col end)
    = Ok [].
Proof.
  intros H. destruct ids as [|i ids]; [exact H|].
  destruct (old_ids_ok _ _ _ H) as [Hids Hs].
  rewrite KnowledgeBaseFacts.old_ids_of_strings
    by (now apply string_timestamps_filter).
  rewrite filter_none; [reflexivity|].
  intros d Hd. apply filter_In in Hd as [Hd Hkeep].
  destruct (lexically_older cutoff d) eqn:Hold; [|reflexivity].
  exfalso. apply negb_true_iff in Hkeep.
  assert (Hex : existsb (String.eqb (doc_id d)) (i :: ids) = true).
  { apply existsb_exists. exists (doc_id d). split; [|apply String.eqb_refl].
    rewrite Hids. apply in_map. apply filter_In. auto. }
  congruence.
Qed.

Lemma cleanup_collections_twice cutoff cols :
  cleanup_collections cutoff (fst (cleanup_collections cutoff cols))
    = cleanup_collections cutoff cols.
Proof.
  induction cols as [|[name col] cols IH]; [reflexivity|].
  cbn [cleanup_collections].
  destruct (old_ids_of cutoff col) as [ids|e] eqn:E.
  - destruct (cleanup_collections cutoff cols) as [rest' stopped] eqn:R.
    cbn [fst] in *. cbn [cleanup_collections].
    rewrite (cleaned_collection_is_clean _ _ _ E), IH. reflexivity.
  - cbn [fst cleanup_collections]. now rewrite E.
Qed.

(** X11.  Cleaning twice with the same cutoff leaves the store as
    cleaning once does, also when the loop is stopped by a timestamp
    that is not a string and when ids repeat. *)
Theorem cleanup_twice_is_cleanup_once (kb : manager) (cutoff_timestamp : string) :
  snd (cleanup_old_embeddings
         (snd (cleanup_old_embeddings kb cutoff_timestamp)) cutoff_timestamp)
    = snd (cleanup_old_embeddings kb cutoff_timestamp).
Proof.
  destruct kb as [em [u|] cols iq fmt rl];
    unfold cleanup_old_embeddings, with_collections; cbn.
  - now rewrite cleanup_collections_twice.
  - reflexivity.
Qed.

(** ** Adding *)

Lemma meta_lookup_app a b k :
  meta_lookup (a ++ b) k
    = match meta_lookup a k with Some v => Some v | None => meta_lookup b k end.
Proof.
  induction a as [|[k' v] a IH]; cbn; [reflexivity|].
  now destruct (String.eqb k k').
Qed.

(** [{**base, **extra}[k]] *)
Lemma meta_lookup_update base extra k :
  meta_lookup (meta_update base extra) k
    = match meta_lookup extra k with
      | Some v => Some v
      | None => meta_lookup base k
      end.
Proof.
  unfold meta_update. rewrite meta_lookup_app.
  induction base as [|[k' v] base IH]; cbn [filter fst meta_lookup].
  - now destruct (meta_lookup extra k).
  - destruct (meta_lookup extra k') eqn:E'; cbn [meta_lookup].
    + destruct (String.eqb k k') eqn:Ek; [|exact IH].
      apply String.eqb_eq in Ek. subst k'. rewrite E' in *. 
      rewrite IH. reflexivity.
    + destruct (String.eqb k k') eqn:Ek; [|exact IH].
      apply String.eqb_eq in Ek. subst k'. now rewrite E'.
Qed.

Lemma find_set_same cols name c0 c :
  find_collection cols name = Some c0 ->
  find_collection (set_collection cols name c) name = Some c.
Proof.
  induction cols as [|[n c1] cols IH]; cbn; [discriminate|].
  destruct (String.eqb name n) eqn:E; cbn; rewrite E; auto.
Qed.

Lemma find_set_other cols name name' c :
  name' <> name ->
  find_collection (set_collection cols name c) name' = find_collection cols name'.
Proof.
  intros Hne. induction cols as [|[n c1] cols IH]; cbn; [reflexivity|].
  destruct (String.eqb name n) eqn:E; cbn.
  - apply String.eqb_eq in E. subst n.
    apply String.eqb_neq in Hne. now rewrite Hne.
  - now rewrite IH.
Qed.

Lemma count_find kb name :
  client kb <> None ->
  count_of (get_collection_stats kb) name
    = option_map (@List.length document) (find_collection (collections kb) name).
Proof.
  intros Hc. unfold get_collection_stats. destruct (client kb); [|congruence].
  cbn [count_of]. induction (collections kb) as [|[n c] cols IH]; cbn; [reflexivity|].
  destruct (String.eqb name n); [reflexivity | exact IH].
Qed.

Lemma unique_ids_snoc (col : collection) d :
  unique_ids col -> ~ In (doc_id d) (map doc_id col) -> unique_ids (col ++ [d]).
Proof.
  unfold unique_ids. intros Hu Hfresh. rewrite map_app. cbn [map].
  apply NoDup_app; [exact Hu | repeat constructor; cbn; tauto |].
  intros x Hx [<- | []]. contradiction.
Qed.

(** A record with a fresh id is appended. *)
Lemma collection_add_fresh d (col : collection) :
  ~ In (doc_id d) (map doc_id col) -> collection_add d col = col ++ [d].
Proof.
  intros Hfresh. unfold collection_add.
  destruct (existsb (String.eqb (doc_id d)) (map doc_id col)) eqn:E; [|reflexivity].
  exfalso. apply Hfresh.
  apply existsb_exists in E as (i & Hi & Heq).
  apply String.eqb_eq in Heq. now subst i.
Qed.

Lemma add_documentation_success kb now doc_type content md encode emb col :
  embedding_model kb = Some encode ->
  client kb <> None ->
  encode content = Ok emb ->
  find_collection (collections kb) "documentation" = Some col ->
  ~ In (doc_type ++ "_" ++ stamp now)%string (map doc_id col) ->
  add_documentation kb now doc_type content md
    = (true,
       with_collections kb
         (set_collection (collections kb) "documentation"
            (col ++ [{| doc_id := doc_type ++ "_" ++ stamp now;
                        doc_text := content;
                        doc_metadata := meta_update (default_metadata now doc_type) md;
                        doc_embedding := emb |}]))).
Proof.
  intros Hm Hc He Hf Hfresh. unfold add_documentation, add_to.
  rewrite Hm. destruct (client kb); [|congruence].
  rewrite He. cbn [bind]. rewrite Hf.
  now rewrite collection_add_fresh by exact Hfresh.
Qed.

(** X12.  With the model and the index up, an embedding for the content
    and an id not yet in use, [add_documentation] answers True and
    appends exactly one document to 'documentation': it carries the
    content and the embedding, its metadata are those of the caller over
    the defaults 'type' and 'timestamp' (the caller's entries win), the
    other collections are untouched, the count reported for
    'documentation' grows by one, and ids stay unique. *)
Theorem add_documentation_appends_one (kb : manager) (now : clock)
    (doc_type content : string) (md : metadata)
    (encode : string -> result (list Q)) (emb : list Q) (col : collection) :
  embedding_model kb = Some encode ->
  client kb <> None ->
  encode content = Ok emb ->
  find_collection (collections kb) "documentation" = Some col ->
  ~ In (doc_type ++ "_" ++ stamp now)%string (map doc_id col) ->
  let r := add_documentation kb now doc_type content md in
  fst r = true /\
  exists d,
    find_collection (collections (snd r)) "documentation" = Some (col ++ [d]) /\
    doc_id d = (doc_type ++ "_" ++ stamp now)%string /\
    doc_text d = content /\
    doc_embedding d = emb /\
    (forall k, meta_lookup (doc_metadata d) k
               = match meta_lookup md k with
                 | Some v => Some v
                 | None => meta_lookup (default_metadata now doc_type) k
                 end) /\
    (forall name, name <> "documentation" ->
       find_collection (collections (snd r)) name
         = find_collection (collections kb) name) /\
    count_of (get_collection_stats (snd r)) "documentation"
      = Some (S (List.length col)) /\
    (unique_ids col -> unique_ids (col ++ [d])).
Proof.
  intros Hm Hc He Hf Hfresh r. subst r.
  rewrite (add_documentation_success _ _ _ _ _ _ _ _ Hm Hc He Hf Hfresh).
  cbn [fst snd]. split; [reflexivity|].
  eexists. split; [| split; [| split; [| split; [| split; [| split; [| split]]]]]].
  - cbn [collections with_collections]. eapply find_set_same. exact Hf.
  - reflexivity.
  - reflexivity.
  - reflexivity.
  - intros k. cbn [doc_metadata]. apply meta_lookup_update.
  - intros name Hne. cbn [collections with_collections].
    now apply find_set_other.
  - rewrite count_find by exact Hc.
    cbn [collections with_collections].
    rewrite (find_set_same _ _ _ _ Hf). cbn [option_map].
    rewrite length_app. cbn [List.length]. f_equal. lia.
  - intros Hu. apply unique_ids_snoc; [exact Hu | exact Hfresh].
Qed.

Lemma add_documentation_appends_one_witness :
  fst (add_documentation sample_manager
         {| isoformat := "2025-06-01T00:00:00.000000";
            stamp := "20250601_000000_000000" |}
         "sop" "Clean the press daily." [("author", MStr "QA")]) = true.
Proof.
  refine (proj1 (add_documentation_appends_one sample_manager
           {| isoformat := "2025-06-01T00:00:00.000000";
              stamp := "20250601_000000_000000" |}
           "sop" "Clean the press daily." [("author", MStr "QA")]
           (fun _ => Ok [1 # 2]) [1 # 2] [] _ _ _ _ _)).
  - reflexivity.
  - discriminate.
  - reflexivity.
  - reflexivity.
  - cbn. tauto.
Defined.

(** X13.  [add_historical_data], for an id that 'historical_data' does
    not hold yet and a record whose 'collection_timestamp', if it has
    one, is a string, a number or a boolean: it never touches a
    collection other than 'historical_data'; when it answers False the
    store is as it was; when it answers True exactly one document was
    appended to 'historical_data', its text is the formatted record and
    is not empty, its type and source are recorded, and its timestamp is
    the record's 'collection_timestamp' when that is a string and the
    clock's when the record has none. *)
Theorem add_historical_data_effect (kb : manager) (now : clock)
    (data_type : string) (data : dict) :
  (forall col, find_collection (collections kb) "historical_data" = Some col ->
     ~ In (data_type ++ "_" ++ stamp now)%string (map doc_id col)) ->
  (forall v, lookup data "collection_timestamp" = Some v -> scalar v = true) ->
  let r := add_historical_data kb now data_type data in
  (forall name, name <> "historical_data" ->
     find_collection (collections (snd r)) name
       = find_collection (collections kb) name) /\
  (fst r = false -> snd r = kb) /\
  (fst r = true ->
     exists col d,
       find_collection (collections kb) "historical_data" = Some col /\
       find_collection (collections (snd r)) "historical_data" = Some (col ++ [d]) /\
       doc_id d = (data_type ++ "_" ++ stamp now)%string /\
       doc_text d = _format_data_as_text kb data /\
       doc_text d <> ""%string /\
       meta_lookup (doc_metadata d) "type" = Some (MStr data_type) /\
       meta_lookup (doc_metadata d) "source" = Some (MStr "real_time_collection") /\
       (lookup data "collection_timestamp" = None ->
          meta_lookup (doc_metadata d) "timestamp" = Some (MStr (isoformat now))) /\
       (forall s, lookup data "collection_timestamp" = Some (VStr s) ->
          meta_lookup (doc_metadata d) "timestamp" = Some (MStr s))).
Proof.
  intros Hfresh Hscalar r. subst r. unfold add_historical_data.
  destruct (embedding_model kb) as [encode|];
    [| cbn [fst snd]; repeat split; auto; discriminate].
  destruct (client kb) as [u|];
    [| cbn [fst snd]; repeat split; auto; discriminate].
  destruct (String.eqb (_format_data_as_text kb data) "") eqn:Etext;
    [cbn [fst snd]; repeat split; auto; discriminate|].
  destruct (encode (_format_data_as_text kb data)) as [emb|e];
    [| cbn [bind fst snd]; repeat split; auto; discriminate].
  cbn [bind].
  destruct (as_meta (get_default data "collection_timestamp" (VStr (isoformat now))))
    as [ts|e] eqn:Ets;
    [| cbn [bind fst snd]; repeat split; auto; discriminate].
  cbn [bind]. unfold add_to.
  destruct (find_collection (collections kb) "historical_data") as [col|] eqn:Hf;
    [| cbn [bind fst snd]; repeat split; auto; discriminate].
  rewrite collection_add_fresh by (cbn [doc_id]; now apply Hfresh).
  cbn [bind fst snd collections with_collections].
  split; [| split].
  - intros name Hne. now apply find_set_other.
  - discriminate.
  - intros _. eexists. eexists.
    split; [reflexivity|].
    split; [eapply find_set_same; exact Hf|].
    cbn [doc_id doc_text doc_metadata].
    split; [reflexivity|].
    split; [reflexivity|].
    split; [now apply String.eqb_neq|].
    split; [reflexivity|].
    split; [reflexivity|].
    split.
    + intros Hnone. unfold get_default in Ets. rewrite Hnone in Ets.
      cbn in Ets. injection Ets as <-. reflexivity.
    + intros s Hs. unfold get_default in Ets. rewrite Hs in Ets.
      cbn in Ets. injection Ets as <-. reflexivity.
Qed.

(** Witness: a record that carries its time of collection, stored in
    the sample store ten seconds later. *)
Lemma add_historical_data_effect_witness :
  fst (add_historical_data manager_with_line later_clock "classification"
         [("collection_timestamp", VStr "2025-05-31T23:59:55")]) = true /\
  exists col d,
    find_collection (collections manager_with_line) "historical_data" = Some col /\
    find_collection
      (collections
         (snd (add_historical_data manager_with_line later_clock "classification"
                 [("collection_timestamp", VStr "2025-05-31T23:59:55")])))
      "historical_data" = Some (col ++ [d]) /\
    meta_lookup (doc_metadata d) "timestamp" = Some (MStr "2025-05-31T23:59:55").
Proof.
  assert (Hfresh : forall col,
            find_collection (collections manager_with_line) "historical_data" = Some col ->
            ~ In ("classification" ++ "_" ++ stamp later_clock)%string (map doc_id col)).
  { intros col [= <-]. cbn. intros H. intuition discriminate. }
  assert (Hscalar : forall v,
            lookup [("collection_timestamp", VStr "2025-05-31T23:59:55")]
              "collection_timestamp" = Some v -> scalar v = true).
  { intros v [= <-]. reflexivity. }
  split; [reflexivity|].
  destruct (proj2 (proj2 (add_historical_data_effect manager_with_line later_clock
                            "classification"
                            [("collection_timestamp", VStr "2025-05-31T23:59:55")]
                            Hfresh Hscalar)) eq_refl)
    as (col & d & Hcol & Hcol' & _ & _ & _ & _ & _ & _ & Hts).
  exists col, d. split; [exact Hcol|]. split; [exact Hcol'|].
  exact (Hts _ eq_refl).
Defined.

Lemma Forall_set_collection (P : collection -> Prop) cols name c :
  Forall (fun nc => P (snd nc)) cols -> P c ->
  Forall (fun nc => P (snd nc)) (set_collection cols name c).
Proof.
  intros H Hc. induction H as [|[n c0] cols H0 H IH]; cbn; [constructor|].
  destruct (String.eqb name n); constructor; auto.
Qed.

Lemma find_spared cutoff cols cols' name c :
  Forall2 (spared cutoff) cols cols' ->
  find_collection cols name = Some c ->
  exists c', find_collection cols' name = Some c' /\
             spared cutoff (name, c) (name, c').
Proof.
  induction 1 as [|[n c0] [n' c0'] cols cols' Hs _ IH]; cbn; [discriminate|].
  destruct Hs as (Hn & Hs). cbn [fst snd] in *. subst n'.
  destruct (String.eqb name n).
  - intros [= <-]. exists c0'. split; [reflexivity|]. unfold spared. cbn [fst snd]. auto.
  - exact IH.
Qed.

Lemma find_in_Forall (P : collection -> Prop) cols name c :
  Forall (fun nc => P (snd nc)) cols ->
  find_collection cols name = Some c -> P c.
Proof.
  induction 1 as [|[n c0] cols H0 _ IH]; cbn; [discriminate|].
  destruct (String.eqb name n); [intros [= <-]; exact H0 | exact IH].
Qed.

(** X14.  A document stored by [add_documentation] (without a
    timestamp of the caller's) is still in 'documentation' after a
    cleanup whose cutoff string is not lexically greater than the
    clock's timestamp at the time it was added, provided ids are unique
    and the new id is fresh. *)
Theorem added_documentation_survives_cleanup (kb : manager) (now : clock)
    (doc_type content : string) (md : metadata)
    (encode : string -> result (list Q)) (emb : list Q) (col : collection)
    (cutoff_timestamp : string) :
  embedding_model kb = Some encode ->
  client kb <> None ->
  encode content = Ok emb ->
  find_collection (collections kb) "documentation" = Some col ->
  Forall (fun nc => unique_ids (snd nc)) (collections kb) ->
  ~ In (doc_type ++ "_" ++ stamp now)%string (map doc_id col) ->
  meta_lookup md "timestamp" = None ->
  String.ltb (isoformat now) cutoff_timestamp = false ->
  let kb1 := snd (add_documentation kb now doc_type content md) in
  let kb2 := snd (cleanup_old_embeddings kb1 cutoff_timestamp) in
  exists col' d,
    find_collection (collections kb2) "documentation" = Some col' /\
    In d col' /\
    doc_id d = (doc_type ++ "_" ++ stamp now)%string /\
    doc_text d = content.
Proof.
  intros Hm Hc He Hf Hu Hfresh Hmd Hcut kb1 kb2. subst kb2 kb1.
  rewrite (add_documentation_success _ _ _ _ _ _ _ _ Hm Hc He Hf Hfresh). cbn [snd].
  set (d := {| doc_id := (doc_type ++ "_" ++ stamp now)%string;
               doc_text := content;
               doc_metadata := meta_update (default_metadata now doc_type) md;
               doc_embedding := emb |}).
  set (kb1 := with_collections kb
                (set_collection (collections kb) "documentation" (col ++ [d]))).
  assert (Hu1 : Forall (fun nc => unique_ids (snd nc)) (collections kb1)).
  { subst kb1. cbn [collections with_collections].
    apply Forall_set_collection; [exact Hu|].
    apply unique_ids_snoc; [| exact Hfresh].
    exact (find_in_Forall unique_ids _ _ _ Hu Hf). }
  assert (Hf1 : find_collection (collections kb1) "documentation" = Some (col ++ [d])).
  { subst kb1. cbn [collections with_collections]. eapply find_set_same. exact Hf. }
  pose proof (cleanup_collections_spare cutoff_timestamp _ Hu1) as Hsp.
  assert (Hcols : Forall2 (spared cutoff_timestamp) (collections kb1)
                    (collections (snd (cleanup_old_embeddings kb1 cutoff_timestamp)))).
  { unfold cleanup_old_embeddings. destruct (client kb1); cbn [snd].
    - exact Hsp.
    - clear. induction (collections kb1); constructor; auto using spared_refl. }
  destruct (find_spared _ _ _ _ _ Hcols Hf1) as (col' & Hf2 & _ & _ & Hkeep & _).
  exists col', d. split; [exact Hf2|]. split; [| split; reflexivity].
  apply Hkeep; cbn [snd].
  - apply in_or_app. right. now left.
  - unfold lexically_older, timestamp_string, stored_timestamp. subst d.
    cbn [doc_metadata]. rewrite meta_lookup_update, Hmd. cbn. exact Hcut.
Qed.

Lemma added_documentation_survives_cleanup_witness :
  exists col' d,
    find_collection
      (collections
         (snd (cleanup_old_embeddings
                 (snd (add_documentation sample_manager
                         {| isoformat := "2025-06-01T00:00:00.000000";
                            stamp := "20250601_000000_000000" |}
                         "sop" "Clean the press daily." [("author", MStr "QA")]))
                 sample_cutoff)))
      "documentation" = Some col' /\
    In d col' /\
    doc_id d = "sop_20250601_000000_000000" /\
    doc_text d = "Clean the press daily.".
Proof.
  refine (added_documentation_survives_cleanup sample_manager
           {| isoformat := "2025-06-01T00:00:00.000000";
              stamp := "20250601_000000_000000" |}
           "sop" "Clean the press daily." [("author", MStr "QA")]
           (fun _ => Ok [1 # 2]) [1 # 2] [] sample_cutoff _ _ _ _ _ _ _ _).
  - reflexivity.
  - discriminate.
  - reflexivity.
  - reflexivity.
  - exact unique_ids_sample.
  - cbn. tauto.
  - reflexivity.
  - reflexivity.
Defined.

End KnowledgeStoreFacts.

(* ===================================================================== *)
(** * From the endpoints to the report *)
(* ===================================================================== *)

Module ReportPipelineFacts.
Import Py QualityReport ReportPipeline.
#[local] Open Scope list_scope.

(** The dictionary that leaves [_collect_comprehensive_data] when the
    session opens: every source key is filled, by the answer or by an
    error dictionary, and no collection error is recorded. *)
Lemma collected_shape now later url net :
  session_failure net = None ->
  _collect_comprehensive_data now later url net
    = [("timestamp", VStr now);
       ("classification", collect_source (get net (url ++ "/api/defect")));
       ("forecasting", collect_source (get net (url ++ "/api/forecast")));
       ("quality", collect_source (get net (url ++ "/api/quality")));
       ("rl_actions", collect_source (get net (url ++ "/api/rl_action/baseline")));
       ("collection_errors", VList [])].
Proof.
  intros H. unfold _collect_comprehensive_data, collect_current_data.
  rewrite H. reflexivity.
Qed.

Lemma collected_value_usable reply :
  truthy (collect_source reply)
    && match contains "error" (collect_source reply) with
       | Ok false => true
       | _ => false
       end
  = usable reply.
Proof.
  unfold usable, answered, collect_source.
  destruct reply as [e | status [e | data]]; [reflexivity | |];
    destruct (Nat.eqb status 200); reflexivity.
Qed.

Lemma pipeline_successes now later url net :
  session_failure net = None ->
  successes (_collect_comprehensive_data now later url net) = usable_sources url net.
Proof.
  intros H. rewrite (collected_shape _ _ _ _ H).
  unfold successes, usable_sources, configured_sources.
  cbn [filter]. unfold source_successful.
  change (path_of "classification") with "/api/defect"%string.
  change (path_of "quality") with "/api/quality"%string.
  change (path_of "forecasting") with "/api/forecast"%string.
  change (path_of "rl_actions") with "/api/rl_action/baseline"%string.
  cbn [get_or_none lookup String.eqb Ascii.eqb Bool.eqb].
  rewrite !collected_value_usable. reflexivity.
Qed.

(** X15.  Data collection feeds the health assessment with no recorded
    error, ever: when the session opens, each of the four source keys
    holds the JSON answer of its endpoint, or an error dictionary for a
    status other than 200, a transport failure or a malformed body; the
    list of collection errors is empty; the number of successful sources
    is the number of usable replies; and, when the extraction runs to
    its end, the status is decided by that number alone: 'healthy' from
    three, 'degraded' at two, 'critical' below. *)
Theorem pipeline_health_depends_on_sources_only
    (now later url t : string) (net : network) :
  session_failure net = None ->
  let cd := _collect_comprehensive_data now later url net in
  let K := usable_sources url net in
  (forall k path, In (k, path) data_sources ->
     lookup cd k = Some (collect_source (get net (url ++ path)))) /\
  lookup cd "collection_errors" = Some (VList []) /\
  recorded_errors cd = Some 0%nat /\
  successes cd = K /\
  (raises (extract_real_metrics_body cd) = false ->
     let m := _extract_real_metrics t cd in
     option_map collection_errors (system_health m) = Some 0%nat /\
     (status_of m = Some "healthy" <-> (3 <= K)%nat) /\
     (status_of m = Some "degraded" <-> K = 2%nat) /\
     (status_of m = Some "critical" <-> (K <= 1)%nat)).
Proof.
  intros Hs cd K.
  assert (HK : successes cd = K) by (apply pipeline_successes; exact Hs).
  assert (Hshape := collected_shape now later url net Hs). fold cd in Hshape.
  assert (HE : recorded_errors cd = Some 0%nat) by (rewrite Hshape; reflexivity).
  split; [| split; [| split; [| split]]].
  - intros k path Hin. rewrite Hshape.
    cbn in Hin. destruct Hin as [H | [H | [H | [H | []]]]];
      injection H as <- <-; reflexivity.
  - rewrite Hshape. reflexivity.
  - exact HE.
  - exact HK.
  - intros Hok m. subst m. unfold _extract_real_metrics.
    destruct (extract_real_metrics_body cd) as [m|e] eqn:Hbody; [|discriminate].
    destruct (QualityReportFacts.extract_body_ok _ _ Hbody)
      as (E & HE' & _ & Hstatus & Herr & _).
    rewrite HE in HE'. injection HE' as <-.
    split; [exact Herr|].
    rewrite Hstatus, HK.
    pose proof (QualityReportFacts.successes_le_4 cd) as Hle. rewrite HK in Hle.
    destruct K as [|[|[|[|[|K']]]]]; try lia; cbn;
      repeat split; intros H; try reflexivity; try discriminate; try lia.
Qed.

Lemma pipeline_health_depends_on_sources_only_witness :
  successes (_collect_comprehensive_data "t0" "t1" "http://api" all_up) = 4%nat /\
  successes (_collect_comprehensive_data "t0" "t1" "http://api" all_down) = 0%nat.
Proof.
  split.
  - exact (proj1 (proj2 (proj2 (proj2
      (pipeline_health_depends_on_sources_only "t0" "t1" "http://api" "t" all_up
         eq_refl))))).
  - exact (proj1 (proj2 (proj2 (proj2
      (pipeline_health_depends_on_sources_only "t0" "t1" "http://api" "t" all_down
         eq_refl))))).
Defined.

(** X16.  The data-source section and the appendix summary of the
    report read the keys 'classification_data', 'forecasting_data',
    'quality_data' and 'rl_data', which data collection never writes:
    whatever the endpoints answer, every service is listed as
    'Unavailable' and the summary counts no successful source, no data
    point and no error. *)
Theorem report_lists_every_source_unavailable
    (now later url : string) (net : network) :
  let cd := _collect_comprehensive_data now later url net in
  _get_data_source_info cd
    = [("ML Classification Service", "Unavailable");
       ("Time Series Forecasting Service", "Unavailable");
       ("Quality Assessment Service", "Unavailable");
       ("Reinforcement Learning Service", "Unavailable")] /\
  _create_data_summary cd
    = Ok {| collection_timestamp :=
              VStr (match session_failure net with None => now | Some _ => later end);
            sources_attempted := 4;
            sources_successful := 0;
            data_points_collected := 0;
            errors_encountered := 0 |}.
Proof.
  intros cd. subst cd.
  destruct (session_failure net) as [e|] eqn:Hs.
  - unfold _collect_comprehensive_data, collect_current_data. rewrite Hs.
    split; reflexivity.
  - rewrite (collected_shape _ _ _ _ Hs). split; reflexivity.
Qed.

(** X25.  When the client session cannot be opened, data collection
    still hands a dictionary over ('error' and 'timestamp' only), and
    [_extract_real_metrics] runs to its end on it: no source is counted,
    the success rate is 0, no collection error is recorded, the status
    is 'critical', and the collection time is the clock's reading in
    the handler.  The metrics carry no 'error' entry, so the report is
    the normal one, not the one of the extraction handler. *)
Theorem session_failure_gives_critical_metrics
    (now later url t : string) (net : network) (e : exn) :
  session_failure net = Some e ->
  let cd := _collect_comprehensive_data now later url net in
  let m := _extract_real_metrics t cd in
  cd = [("error", VStr (exn_msg e)); ("timestamp", VStr later)] /\
  raises (extract_real_metrics_body cd) = false /\
  QualityReport.error m = None /\
  data_collection_time m = VStr later /\
  collection_success_rate m == 0 /\
  status_of m = Some "critical" /\
  option_map collection_errors (system_health m) = Some 0%nat /\
  option_map data_availability (system_health m) = Some "0/4 sources online".
Proof.
  intros Hs cd m.
  assert (Hcd : cd = [("error", VStr (exn_msg e)); ("timestamp", VStr later)]).
  { subst cd. unfold _collect_comprehensive_data, collect_current_data.
    now rewrite Hs. }
  subst m. rewrite Hcd. repeat split.
Qed.

Lemma session_failure_gives_critical_metrics_witness :
  status_of
    (_extract_real_metrics "t"
       (_collect_comprehensive_data "t0" "t1" "http://api"
          {| session_failure := Some (Exn "ClientError" "cannot connect");
             get := fun _ => ClassificationCollector.timed_out |}))
    = Some "critical".
Proof.
  exact (proj1 (proj2 (proj2 (proj2 (proj2 (proj2
    (session_failure_gives_critical_metrics "t0" "t1" "http://api" "t"
       {| session_failure := Some (Exn "ClientError" "cannot connect");
          get := fun _ => ClassificationCollector.timed_out |}
       (Exn "ClientError" "cannot connect") eq_refl))))))).
Defined.

Ltac model_call :=
  match goal with
  | |- context [Gemini.generate_content ?c ?n ?p] =>
      let E := fresh "E" in
      let e := fresh "e" in
      destruct (Gemini.generate_content c n p) as [? ?|e] eqn:E;
      [ right; do 4 eexists; split; [exact E | reflexivity]
      | destruct (Gemini.is_rate_limit (exn_msg e)); [| left; reflexivity] ]
  end.

Lemma content_is_template_or_model_text c parse template fx :
  report_content_with c parse template fx = template \/
  exists n prompt text tokens,
    Gemini.generate_content c n prompt = Gemini.Generated text tokens /\
    report_content_with c parse template fx = Ok (parse text).
Proof.
  unfold report_content_with, _generate_llm_report,
    Gemini.generate_comprehensive_report, Gemini.activation.
  destruct (Gemini.available c); [| left; reflexivity]. cbn [negb].
  destruct (Gemini.build_prompt c false) as [prompt|e0]; [| left; reflexivity].
  cbn -[String.eqb]. model_call. cbn -[String.eqb].
  model_call. cbn -[String.eqb].
  model_call. cbn -[String.eqb].
  destruct (Gemini.build_prompt c true) as [prompt'|e0']; [| left; reflexivity].
  cbn -[String.eqb]. model_call. cbn -[String.eqb].
  model_call. cbn -[String.eqb].
  model_call. left. reflexivity.
Qed.

(** X18.  Step 3 of [generate_report] with the Gemini client wired in:
    the content is either what the template gives or the parsed text of
    an answer that the model did generate.  Every other outcome of the
    client (not available, a prompt that cannot be built, the fallback
    dictionary, and Python's None after a [break]) ends in the
    template.  In particular, when every call to the model fails, the
    report is built from the template. *)
Theorem llm_failure_ends_in_template (c : Gemini.client)
    (parse : string -> value) (template : result value) (fx : Gemini.effects) :
  (report_content_with c parse template fx = template \/
   exists n prompt text tokens,
     Gemini.generate_content c n prompt = Gemini.Generated text tokens /\
     report_content_with c parse template fx = Ok (parse text)) /\
  ((forall n prompt, exists e, Gemini.generate_content c n prompt = Gemini.Failed e) ->
   report_content_with c parse template fx = template).
Proof.
  split; [apply content_is_template_or_model_text|].
  intros Hfail.
  destruct (content_is_template_or_model_text c parse template fx)
    as [H | (n & prompt & text & tokens & Hgen & _)]; [exact H|].
  destruct (Hfail n prompt) as [e He]. congruence.
Qed.

Lemma llm_failure_ends_in_template_witness :
  report_content_with Gemini.quota_client (fun s => VStr s)
    (Ok (VStr "template")) Gemini.no_effects = Ok (VStr "template").
Proof.
  apply (proj2 (llm_failure_ends_in_template Gemini.quota_client (fun s => VStr s)
                  (Ok (VStr "template")) Gemini.no_effects)).
  intros n prompt. eexists. reflexivity.
Defined.

(** ** [get_relevant_context] *)

Lemma insert_by_relevance_perm x l :
  Permutation (x :: l) (insert_by_relevance x l).
Proof.
  induction l as [|y l IH]; cbn; [reflexivity|].
  destruct (Qle_bool _ _); [reflexivity|].
  rewrite perm_swap. now constructor.
Qed.

Lemma sort_by_relevance_perm l : Permutation l (sort_by_relevance l).
Proof.
  induction l as [|x l IH]; cbn; [constructor|].
  rewrite <- insert_by_relevance_perm. now constructor.
Qed.

Lemma insert_by_relevance_sorted x l :
  StronglySorted KnowledgeBase.by_relevance l ->
  StronglySorted KnowledgeBase.by_relevance (insert_by_relevance x l).
Proof.
  induction 1 as [|y l Hs IH Hy]; cbn.
  - repeat constructor.
  - destruct (Qle_bool (KnowledgeBase.relevance_score y)
                       (KnowledgeBase.relevance_score x)) eqn:E.
    + apply Qle_bool_iff in E.
      constructor; [now constructor|].
      constructor; [exact E|].
      eapply Forall_impl; [|exact Hy].
      intros z Hz. unfold KnowledgeBase.by_relevance in *.
      now apply Qle_trans with (KnowledgeBase.relevance_score y).
    + assert (Hxy : KnowledgeBase.relevance_score x <= KnowledgeBase.relevance_score y).
      { apply Qlt_le_weak, Qnot_le_lt. intros H. apply Qle_bool_iff in H. congruence. }
      constructor; [exact IH|].
      apply (Permutation_Forall (insert_by_relevance_perm x l)).
      constructor; assumption.
Qed.

(** X19.  [get_relevant_context] returns the items of the two searches
    ('historical_data' and 'documentation'), all of them and no other,
    in non-increasing order of relevance: every item is at least as
    relevant as each item after it. *)
Theorem relevant_context_ranked (kb : KnowledgeBase.manager) (query : string) :
  let found :=
    KnowledgeBase.search_relevant_context kb query "historical_data" 5
      ++ KnowledgeBase.search_relevant_context kb query "documentation" 5 in
  Permutation found (get_relevant_context kb query) /\
  StronglySorted KnowledgeBase.by_relevance (get_relevant_context kb query).
Proof.
  intros found. unfold get_relevant_context. fold found. split.
  - apply sort_by_relevance_perm.
  - induction found as [|x l IH]; cbn; [constructor|].
    now apply insert_by_relevance_sorted.
Qed.

End ReportPipelineFacts.

(* ===================================================================== *)
(** * The metrics handed to the prompt *)
(* ===================================================================== *)

Module GeminiMetricsFacts.
Import Py GeminiMetrics.
#[local] Open Scope list_scope.

(** 1 for a source that counts, 0 otherwise. *)
Lemma classification_counter cd m n :
  snd (classification_block cd (m, n))
    = ((if clean_source cd "classification" then 1 else 0) + n)%nat.
Proof.
  unfold classification_block, clean_source.
  destruct (lookup cd "classification") as [v|]; [|reflexivity].
  destruct (dict_without_error v); reflexivity.
Qed.

Lemma forecasting_counter cd m n st :
  forecasting_block cd (m, n) = (st, None) ->
  snd st = ((if clean_source cd "forecasting" then 1 else 0) + n)%nat.
Proof.
  unfold forecasting_block, clean_source.
  destruct (lookup cd "forecasting") as [v|]; [| intros [= <-]; reflexivity].
  destruct (dict_without_error v) as [d|]; [| intros [= <-]; reflexivity].
  match goal with |- context [match ?b with Ok _ => _ | Raise _ => _ end] =>
    destruct b end; intros [= <-]; reflexivity.
Qed.

Lemma quality_counter cd m n :
  snd (quality_block cd (m, n))
    = ((if clean_source cd "quality" then 1 else 0) + n)%nat.
Proof.
  unfold quality_block, clean_source.
  destruct (lookup cd "quality") as [v|]; [|reflexivity].
  destruct (dict_without_error v); reflexivity.
Qed.

Lemma rl_counter cd m n :
  snd (rl_block cd (m, n))
    = ((if clean_source cd "rl_actions" then 1 else 0) + n)%nat.
Proof.
  unfold rl_block, clean_source.
  destruct (lookup cd "rl_actions") as [v|]; [|reflexivity].
  destruct (dict_without_error v); reflexivity.
Qed.

Lemma clean_sources_sum cd :
  clean_sources cd
    = ((if clean_source cd "rl_actions" then 1 else 0)
       + ((if clean_source cd "quality" then 1 else 0)
          + ((if clean_source cd "forecasting" then 1 else 0)
             + ((if clean_source cd "classification" then 1 else 0) + 0))))%nat.
Proof.
  unfold clean_sources, source_names. cbn [filter].
  destruct (clean_source cd "classification"), (clean_source cd "forecasting"),
           (clean_source cd "quality"), (clean_source cd "rl_actions"); reflexivity.
Qed.

Lemma lookup_in_keys (cd : dict) k v : lookup cd k = Some v -> In k (map fst cd).
Proof.
  induction cd as [|[k' v'] cd IH]; cbn; [discriminate|].
  destruct (String.eqb k k') eqn:E; [|auto].
  apply String.eqb_eq in E. auto.
Qed.

(** The sources that count are among the keys: there are no more of
    them than entries. *)
Lemma clean_sources_le_length cd : (clean_sources cd <= List.length cd)%nat.
Proof.
  unfold clean_sources. rewrite <- (length_map fst cd).
  apply NoDup_incl_length.
  - apply NoDup_filter. unfold source_names.
    repeat constructor; cbn; intros H; intuition discriminate.
  - intros k Hk. apply filter_In in Hk as [_ Hk]. unfold clean_source in Hk.
    destruct (lookup cd k) as [v|] eqn:E; [|discriminate].
    exact (lookup_in_keys _ _ _ E).
Qed.

(** What the function returns, by the two ways out of its [try] block. *)
Lemma extract_detailed_cases cd :
  cd <> [] ->
  let m := _extract_detailed_metrics cd in
  data_sources m = map fst cd /\
  ((extraction_error m = None /\
    data_quality_score m = quality_score (clean_sources cd) (List.length cd)) \/
   (extraction_error m <> None /\ data_quality_score m = 0)).
Proof.
  intros Hne m. subst m. unfold _extract_detailed_metrics.
  destruct cd as [|kv cd']; [congruence|].
  clear Hne. remember (kv :: cd') as cd eqn:Ecd. clear Ecd kv cd'.
  set (m0 := with_sources default_metrics (map fst cd)).
  pose proof (classification_counter cd m0 0) as H1.
  assert (Hs1 : data_sources (fst (classification_block cd (m0, 0%nat))) = map fst cd
                /\ data_quality_score (fst (classification_block cd (m0, 0%nat))) = 0
                /\ extraction_error (fst (classification_block cd (m0, 0%nat))) = None).
  { unfold classification_block.
    destruct (lookup cd "classification") as [v|]; [|repeat split].
    destruct (dict_without_error v); repeat split. }
  destruct (classification_block cd (m0, 0%nat)) as [m1 n1].
  cbn [fst snd] in *. destruct Hs1 as (Hd1 & Hq1 & He1).
  destruct (forecasting_block cd (m1, n1)) as [[m2 n2] [e|]] eqn:E2.
  - (* the forecasting block raised *)
    assert (Hm2 : data_sources m2 = map fst cd /\ data_quality_score m2 = 0).
    { revert E2. unfold forecasting_block.
      destruct (lookup cd "forecasting") as [v|]; [| intros [= <- <-]; discriminate].
      destruct (dict_without_error v) as [d|]; [| intros [= <- <-]; discriminate].
      match goal with |- context [match ?b with Ok _ => _ | Raise _ => _ end] =>
        destruct b end; intros [= <- <-]; try discriminate.
      cbn. auto. }
    destruct Hm2 as [Hd2 Hq2]. cbn. split; [exact Hd2|].
    right. split; [discriminate | exact Hq2].
  - pose proof (forecasting_counter _ _ _ _ E2) as H2. cbn [snd] in H2.
    assert (Hm2 : data_sources m2 = map fst cd /\ extraction_error m2 = None).
    { revert E2. unfold forecasting_block.
      destruct (lookup cd "forecasting") as [v|]; [| intros [= <- <-]; auto].
      destruct (dict_without_error v) as [d|]; [| intros [= <- <-]; auto].
      match goal with |- context [match ?b with Ok _ => _ | Raise _ => _ end] =>
        destruct b as [m'|e] eqn:Eb end; intros [= <- <-].
      revert Eb.
      repeat match goal with
             | |- context [if ?b then _ else _] => destruct b
             | |- bind ?c _ = Ok _ -> _ =>
                 let x := fresh "x" in
                 destruct c as [x|]; cbn [bind]; [| discriminate]
             | |- match ?s with VDict _ => _ | _ => _ end = Ok _ -> _ => destruct s
             | |- Ok _ = Ok _ -> _ => intros [= <-]; cbn; auto
             | |- Raise _ = Ok _ -> _ => discriminate
             end. }
    destruct Hm2 as [Hd2 He2].
    pose proof (quality_counter cd m2 n2) as H3.
    assert (Hm3 : data_sources (fst (quality_block cd (m2, n2))) = map fst cd
                  /\ extraction_error (fst (quality_block cd (m2, n2))) = None).
    { unfold quality_block.
      destruct (lookup cd "quality") as [v|]; [| auto].
      destruct (dict_without_error v) as [d|]; [| auto].
      cbn [fst]. destruct (_ && _); auto. }
    destruct (quality_block cd (m2, n2)) as [m3 n3]. cbn [fst snd] in *.
    destruct Hm3 as [Hd3 He3].
    pose proof (rl_counter cd m3 n3) as H4.
    assert (Hm4 : fst (rl_block cd (m3, n3)) = m3).
    { unfold rl_block. destruct (lookup cd "rl_actions") as [v|]; [|reflexivity].
      destruct (dict_without_error v); reflexivity. }
    destruct (rl_block cd (m3, n3)) as [m4 n4]. cbn [fst snd] in *. subst m4.
    cbn [with_score data_sources extraction_error data_quality_score].
    split; [exact Hd3|]. left. split; [exact He3|].
    f_equal. rewrite clean_sources_sum. congruence.
Qed.

Lemma quality_score_range n total :
  (n <= total)%nat -> 0 <= quality_score n total <= 100.
Proof.
  intros Hle. unfold quality_score.
  destruct (Nat.ltb 0 total) eqn:E; [| split; lra].
  apply Nat.ltb_lt in E.
  assert (Ht : 0 < inject_Z (Z.of_nat total)).
  { change 0 with (inject_Z 0). rewrite <- Zlt_Qlt. lia. }
  assert (Hn : 0 <= inject_Z (Z.of_nat n)).
  { change 0 with (inject_Z 0). rewrite <- Zle_Qle. lia. }
  assert (Hnt : inject_Z (Z.of_nat n) <= inject_Z (Z.of_nat total)).
  { rewrite <- Zle_Qle. lia. }
  set (x := inject_Z (Z.of_nat n) / inject_Z (Z.of_nat total)).
  assert (Hx0 : 0 <= x).
  { unfold x. apply Qle_shift_div_l; [exact Ht | lra]. }
  assert (Hx1 : x <= 1).
  { unfold x. apply Qle_shift_div_r; [exact Ht | lra]. }
  split; lra.
Qed.

(** X20.  Whatever the collected data, the data quality score that
    goes into the prompt lies between 0 and 100; when the extraction
    runs to its end it is the share, in percent, of the entries of the
    dictionary (all its keys, not only the four sources) that are
    sources given as a dictionary without an 'error' key; when a step
    raises it stays 0; and 'data_sources' lists the keys as they are. *)
Theorem data_quality_score_is_a_share (collected_data : dict) :
  let m := _extract_detailed_metrics collected_data in
  0 <= data_quality_score m <= 100 /\
  data_sources m = map fst collected_data /\
  (extraction_error m = None ->
     data_quality_score m
       = quality_score (clean_sources collected_data) (List.length collected_data)) /\
  (extraction_error m <> None -> data_quality_score m = 0).
Proof.
  intros m. subst m.
  destruct collected_data as [|kv cd'] eqn:Ecd.
  - cbn. split; [split; lra|]. split; [reflexivity|].
    split; [intros _; reflexivity | intros H; congruence].
  - rewrite <- Ecd.
    assert (Hne : collected_data <> []) by (rewrite Ecd; discriminate).
    destruct (extract_detailed_cases collected_data Hne) as (Hd & [[He Hq] | [He Hq]]).
    + split; [rewrite Hq; apply quality_score_range, clean_sources_le_length|].
      split; [exact Hd|].
      split; [intros _; exact Hq | intros H; contradiction].
    + split; [rewrite Hq; split; lra|].
      split; [exact Hd|].
      split; [intros H; contradiction | intros _; exact Hq].
Qed.

(** X21.  On the data that [_collect_comprehensive_data] hands over,
    the score is taken over six entries ('timestamp' and
    'collection_errors' count as sources that failed): it never exceeds
    200/3, about 66.7, so it cannot reach 100 even when the four
    endpoints answer. *)
Theorem pipeline_score_never_reaches_100 (now later url : string)
    (net : ReportPipeline.network) :
  ReportPipeline.session_failure net = None ->
  let cd := ReportPipeline._collect_comprehensive_data now later url net in
  let m := _extract_detailed_metrics cd in
  data_sources m
    = ["timestamp"; "classification"; "forecasting"; "quality"; "rl_actions";
       "collection_errors"]%string /\
  data_quality_score m <= 200 # 3 /\
  (extraction_error m = None ->
     data_quality_score m == (inject_Z (Z.of_nat (clean_sources cd)) / 6) * 100).
Proof.
  intros Hs cd m.
  pose proof (ReportPipelineFacts.collected_shape now later url net Hs) as Hshape.
  fold cd in Hshape.
  assert (Hlen : List.length cd = 6%nat) by (rewrite Hshape; reflexivity).
  assert (Hne : cd <> []) by (rewrite Hshape; discriminate).
  destruct (extract_detailed_cases cd Hne) as (Hd & Hcases). fold m in Hd, Hcases.
  split; [rewrite Hd, Hshape; reflexivity|].
  assert (H4 : (clean_sources cd <= 4)%nat).
  { unfold clean_sources. etransitivity; [apply filter_length_le | cbn; lia]. }
  assert (Hscore : quality_score (clean_sources cd) 6
                   == (inject_Z (Z.of_nat (clean_sources cd)) / 6) * 100).
  { unfold quality_score. cbn [Nat.ltb Nat.leb]. reflexivity. }
  destruct Hcases as [[He Hq] | [He Hq]].
  - rewrite Hlen in Hq. split.
    + rewrite Hq, Hscore.
      assert (Hn : inject_Z (Z.of_nat (clean_sources cd)) <= 4).
      { change 4 with (inject_Z 4). rewrite <- Zle_Qle. lia. }
      set (x := inject_Z (Z.of_nat (clean_sources cd))) in *.
      assert (Hx : x / 6 * 100 == x * (100 # 6)) by field.
      rewrite Hx. lra.
    + intros _. rewrite Hq. exact Hscore.
  - split; [rewrite Hq; lra | intros H; contradiction].
Qed.

Lemma pipeline_score_never_reaches_100_witness :
  data_quality_score
    (_extract_detailed_metrics
       (ReportPipeline._collect_comprehensive_data "t0" "t1" "http://api"
          ReportPipeline.all_up)) <= 200 # 3.
Proof.
  exact (proj1 (proj2 (pipeline_score_never_reaches_100 "t0" "t1" "http://api"
                         ReportPipeline.all_up eq_refl))).
Defined.

(** X22.  When the extraction runs to its end and the quality source
    is a dictionary without an 'error' key whose 'quality_class' is
    truthy and not 'Unknown', that class is the one reported: it
    replaces the class derived from the defect probability. *)
Theorem quality_source_sets_the_class (collected_data : dict) (d : dict) (qc : value) :
  extraction_error (_extract_detailed_metrics collected_data) = None ->
  lookup collected_data "quality" = Some (VDict d) ->
  has_key d "error" = false ->
  lookup d "quality_class" = Some qc ->
  truthy qc = true ->
  eq_str qc "Unknown" = false ->
  quality_class (_extract_detailed_metrics collected_data) = qc.
Proof.
  intros He Hq Herr Hqc Ht Hu. revert He. unfold _extract_detailed_metrics.
  destruct collected_data as [|kv cd']; [discriminate|].
  remember (kv :: cd') as cd eqn:Ecd. clear Ecd kv cd'.
  destruct (classification_block cd _) as [m1 n1].
  destruct (forecasting_block cd (m1, n1)) as [[m2 n2] [e|]]; [discriminate|].
  unfold quality_block. rewrite Hq. cbn [dict_without_error]. rewrite Herr.
  unfold get_or_none. rewrite Hqc, Ht, Hu. cbn [andb negb].
  unfold rl_block.
  destruct (lookup cd "rl_actions") as [v|]; [destruct (dict_without_error v)|]; reflexivity.
Qed.

Lemma quality_source_sets_the_class_witness :
  quality_class (_extract_detailed_metrics QualityReport.all_sources_up) = VStr "Low".
Proof.
  apply (quality_source_sets_the_class QualityReport.all_sources_up
           [("quality_class", VStr "Low"); ("confidence", VNum (6 # 10))]);
    reflexivity.
Defined.

End GeminiMetricsFacts.

(* ===================================================================== *)
(** * Validated forecasts and their readers *)
(* ===================================================================== *)

Module ForecastingCollectorFacts.
Import Py ForecastingCollector.
#[local] Open Scope list_scope.







End ForecastingCollectorFacts.

(* ===================================================================== *)
(** * From the classification collector to the knowledge store *)
(* ===================================================================== *)

Module KnowledgeTextFacts.
Import Py KnowledgeText.
#[local] Open Scope list_scope.

Lemma append_empty (a b : string) : (a ++ b)%string = ""%string -> a = ""%string.
Proof. destruct a; [reflexivity | discriminate]. Qed.

Lemma append_empty_r (a b : string) : (a ++ b)%string = ""%string -> b = ""%string.
Proof. destruct a; [auto | discriminate]. Qed.

(** A joined text is empty only if every part is. *)
Lemma join_nonempty sep l x :
  In x l -> x <> ""%string -> join sep l <> ""%string.
Proof.
  induction l as [|y l IH]; [intros []|].
  intros Hin Hx. cbn [join]. destruct l as [|z l'].
  - destruct Hin as [<- | []]. exact Hx.
  - destruct Hin as [<- | Hin].
    + intros H. apply Hx. now apply append_empty in H.
    + intros H. apply append_empty_r in H. apply append_empty_r in H.
      now apply (IH Hin Hx).
Qed.

Lemma api_statuses_nonempty str_of (data : dict) k vd :
  In (k, VDict vd) data -> has_key vd "api_status" = true ->
  api_statuses str_of data <> [].
Proof.
  intros Hin Hk H.
  assert (Hx : In (k ++ ": " ++ str_of (get_or_none vd "api_status"))%string
                  (api_statuses str_of data)).
  { unfold api_statuses. apply in_flat_map. exists (k, VDict vd).
    split; [exact Hin|]. cbn [snd fst]. rewrite Hk. now left. }
  rewrite H in Hx. exact Hx.
Qed.

(** A record with an entry that carries an 'api_status' never formats
    to the empty text: the status line is written, or, when a step
    raised, the fallback line. *)
Lemma text_with_status_nonempty str_of fixed3 (data : dict) k vd :
  In (k, VDict vd) data -> has_key vd "api_status" = true ->
  _format_data_as_text str_of fixed3 data <> ""%string.
Proof.
  intros Hin Hk. unfold _format_data_as_text, text_parts_of, then_.
  destruct (leading_text str_of fixed3 data []) as [parts [u|e]].
  - unfold status_text.
    destruct (api_statuses str_of data) as [|s statuses] eqn:E.
    + exfalso. exact (api_statuses_nonempty str_of data k vd Hin Hk E).
    + unfold append.
      apply (join_nonempty _ _ ("API status: " ++ join ", " (s :: statuses))%string).
      * apply in_or_app. right. now left.
      * discriminate.
  - apply (join_nonempty _ _
             ("Data: " ++ String.substring 0 500 (str_of (VDict data)))%string).
    + apply in_or_app. right. now left.
    + discriminate.
Qed.

(** The record that [collect_data] returns. *)
Lemma collect_data_record c now defect_reply quality_reply :
  exists d q,
    fst (ClassificationCollector.collect_data c now defect_reply quality_reply)
      = Ok (VDict [("timestamp", VStr now);
                   ("defect_prediction", VDict d);
                   ("quality_prediction", VDict q)]) /\
    has_key d "api_status" = true /\
    has_key q "api_status" = true.
Proof.
  unfold ClassificationCollector.collect_data.
  destruct (ClassificationCollectorFacts.collect_defect_data_entry c defect_reply)
    as (d & -> & Hdf & Hds).
  destruct (ClassificationCollectorFacts.collect_quality_data_entry c quality_reply)
    as (q & -> & Hqf & Hqs).
  cbn [bind fst].
  destruct (ClassificationCollector.failed defect_reply);
    [destruct (Hdf eq_refl) as (msg & ->) | destruct (Hds eq_refl) as (fields & ->)];
    (destruct (ClassificationCollector.failed quality_reply);
     [destruct (Hqf eq_refl) as (msg' & ->) | destruct (Hqs eq_refl) as (fields' & ->)]);
    unfold ClassificationCollector.error_entry;
    do 2 eexists; (split; [reflexivity|]); split; reflexivity.
Qed.

(** X24.  Every record that the classification collector returns,
    failed cycles included, is accepted by [add_historical_data] when
    the model and the index are up, the text can be embedded and the
    id made from the clock is not yet held by 'historical_data': its
    text is never empty (the API status line, or the fallback line, is
    always there), one document with that text is appended to
    'historical_data', and, since the record carries 'timestamp' and
    not 'collection_timestamp', the timestamp stored is the clock's at
    the time of storing, not the time of collection. *)
Theorem collector_records_are_stored
    (str_of : value -> string) (fixed3 : Q -> string)
    (c : ClassificationCollector.collector) (collected_at : string)
    (defect_reply quality_reply : ClassificationCollector.http_reply)
    (record : dict)
    (kb : KnowledgeBase.manager) (stored_at : KnowledgeBase.clock)
    (encode : string -> result (list Q)) (emb : list Q)
    (col : KnowledgeBase.collection) :
  fst (ClassificationCollector.collect_data c collected_at defect_reply quality_reply)
    = Ok (VDict record) ->
  KnowledgeBase.embedding_model kb = Some encode ->
  KnowledgeBase.client kb <> None ->
  encode (_format_data_as_text str_of fixed3 record) = Ok emb ->
  KnowledgeBase.find_collection (KnowledgeBase.collections kb) "historical_data"
    = Some col ->
  ~ In ("classification" ++ "_" ++ KnowledgeBase.stamp stored_at)%string
       (map KnowledgeBase.doc_id col) ->
  let r := KnowledgeBase.add_historical_data
             (manager_with_text str_of fixed3 kb) stored_at "classification" record in
  _format_data_as_text str_of fixed3 record <> ""%string /\
  fst r = true /\
  exists d,
    KnowledgeBase.find_collection (KnowledgeBase.collections (snd r)) "historical_data"
      = Some (col ++ [d]) /\
    KnowledgeBase.doc_text d = _format_data_as_text str_of fixed3 record /\
    KnowledgeBase.meta_lookup (KnowledgeBase.doc_metadata d) "timestamp"
      = Some (KnowledgeBase.MStr (KnowledgeBase.isoformat stored_at)).
Proof.
  intros Hrec Hm Hc He Hf Hfresh r.
  destruct (collect_data_record c collected_at defect_reply quality_reply)
    as (d & q & Hshape & Hd & Hq).
  rewrite Hshape in Hrec. injection Hrec as <-.
  set (record := [("timestamp", VStr collected_at);
                  ("defect_prediction", VDict d);
                  ("quality_prediction", VDict q)]) in *.
  assert (Htext : _format_data_as_text str_of fixed3 record <> ""%string).
  { apply (text_with_status_nonempty str_of fixed3 record "defect_prediction" d);
      [cbn; auto | exact Hd]. }
  split; [exact Htext|].
  subst r. unfold KnowledgeBase.add_historical_data, manager_with_text.
  cbn [KnowledgeBase.embedding_model KnowledgeBase.client
       KnowledgeBase._format_data_as_text KnowledgeBase.repr_length].
  rewrite Hm. destruct (KnowledgeBase.client kb) as [u|]; [|congruence].
  apply String.eqb_neq in Htext. rewrite Htext, He. cbn [bind].
  assert (Hts : get_default record "collection_timestamp"
                  (VStr (KnowledgeBase.isoformat stored_at))
                = VStr (KnowledgeBase.isoformat stored_at)) by reflexivity.
  rewrite Hts. cbn [KnowledgeBase.as_meta bind].
  unfold KnowledgeBase.add_to. cbn [KnowledgeBase.collections].
  rewrite Hf.
  rewrite KnowledgeStoreFacts.collection_add_fresh
    by (cbn [KnowledgeBase.doc_id]; exact Hfresh).
  cbn [bind fst snd]. split; [reflexivity|].
  eexists. split.
  - cbn [KnowledgeBase.collections KnowledgeBase.with_collections].
    eapply KnowledgeStoreFacts.find_set_same. exact Hf.
  - split; reflexivity.
Qed.

Lemma collector_records_are_stored_witness :
  fst (KnowledgeBase.add_historical_data
         (manager_with_text sample_str sample_fixed3 KnowledgeBase.sample_manager)
         {| KnowledgeBase.isoformat := "2025-06-01T00:00:05.000000";
            KnowledgeBase.stamp := "20250601_000005_000000" |}
         "classification"
         [("timestamp", VStr "2025-06-01T00:00:00");
          ("defect_prediction",
           VDict [("api_status", VStr "error"); ("error", VStr "HTTP 500");
                  ("endpoint", VStr "http://165.22.211.17:8000/api/defect")]);
          ("quality_prediction",
           VDict [("api_status", VStr "error"); ("error", VStr "timeout");
                  ("endpoint", VStr "http://165.22.211.17:8000/api/quality")])])
    = true.
Proof.
  refine (proj1 (proj2 (collector_records_are_stored sample_str sample_fixed3
            ClassificationCollector.fresh_collector "2025-06-01T00:00:00"
            ClassificationCollector.http_500 ClassificationCollector.timed_out
            _ KnowledgeBase.sample_manager
            {| KnowledgeBase.isoformat := "2025-06-01T00:00:05.000000";
               KnowledgeBase.stamp := "20250601_000005_000000" |}
            (fun _ => Ok [1 # 2]) [1 # 2]
            [KnowledgeBase.old_document; KnowledgeBase.recent_document]
            _ _ _ _ _ _))).
  - reflexivity.
  - reflexivity.
  - discriminate.
  - reflexivity.
  - reflexivity.
  - cbn. intros H. intuition discriminate.
Defined.

End KnowledgeTextFacts.
